(** * Video Interval Cutter: the job supervisor of [main.py]

    A shallow embedding of [VideoProcessor] (duration probe, encoder
    selection, command construction, progress parsing, the supervising
    [run] loop with pause / resume / cancel) and of the batch callbacks of
    [VideoIntervalCutter], followed by the properties of the specification
    that they satisfy or fail.  After them come the drop zone, the pause
    button and the preview of the window, the lookup of the tools, and
    [build_app] of [build.py], with properties of their own.

    Conventions.
    - Python [float] is IEEE-754 binary64, taken from the Standard
      Library's executable specification [SpecFloat] (round to nearest,
      ties to even).  Python [int] is [Z].
    - Python [str] is [string]; the text read from the tools is taken to
      be ASCII, so [\d] is ['0'..'9'] and [\s] is the ASCII white space
      that [str.isspace] accepts.
    - Qt signal emissions, signals delivered to the child process, file
      removal and [print] are recorded, in order, in a trace of effects.
    - What the external tools answer (ffprobe, ffmpeg, the file system)
      is an explicit environment; what the user does from the GUI thread
      while the worker runs is an explicit schedule. *)

From Stdlib Require Import ZArith QArith Qround List String Ascii Bool Lia.
From Stdlib Require Import DecimalString SpecFloat Sorted.
Import ListNotations.

Local Open Scope string_scope.
Local Open Scope Z_scope.

(** ** Python exceptions and fallible results *)

Inductive pyexn : Type :=
| OverflowError      (* int(float('inf')) *)
| ValueError         (* int(float('nan')) *)
| ZeroDivisionError  (* x / 0.0 *)
| OSError (msg : string).  (* Popen could not start the tool *)

Inductive result (A : Type) : Type :=
| Ok (a : A)
| Raise (e : pyexn).
Arguments Ok {A} a.
Arguments Raise {A} e.

Definition bind {A B : Type} (r : result A) (k : A -> result B) : result B :=
  match r with
  | Ok a => k a
  | Raise e => Raise e
  end.

Notation "x <- r ;; k" := (bind r (fun x => k))
  (at level 61, r at next level, right associativity).

(** [str(e)] for the exceptions above. *)
Definition str_exn (e : pyexn) : string :=
  match e with
  | OverflowError => "cannot convert float infinity to integer"
  | ValueError => "cannot convert float NaN to integer"
  | ZeroDivisionError => "float division by zero"
  | OSError msg => msg
  end.

(** ** Python floats *)

Module PyFloat.

Definition prec : Z := 53.
Definition emax : Z := 1024.

Definition float : Type := spec_float.

(** [float(n)] for an [int] n, correctly rounded. *)
Definition of_int (n : Z) : float := binary_normalize prec emax n 0 false.

Definition add : float -> float -> float := SFadd prec emax.
Definition mul : float -> float -> float := SFmul prec emax.

Definition is_zero (x : float) : bool := SFeqb x (S754_zero false).

(** [x / y]: Python raises on a zero divisor instead of returning an
    infinity or a NaN. *)
Definition truediv (x y : float) : result float :=
  if is_zero y then Raise ZeroDivisionError else Ok (SFdiv prec emax x y).

(** [int(x)]: truncation toward zero; infinities and NaN raise. *)
Definition to_int (x : float) : result Z :=
  match x with
  | S754_zero _ => Ok 0
  | S754_finite s m e => Ok (cond_Zopp s (Z.shiftl (Zpos m) e))
  | S754_infinity _ => Raise OverflowError
  | S754_nan => Raise ValueError
  end.

(** [math.floor(x)], for comparison with [int]. *)
Definition floor (x : float) : result Z :=
  match x with
  | S754_zero _ => Ok 0
  | S754_finite false m e => Ok (Z.shiftl (Zpos m) e)
  | S754_finite true m e => Ok (- ((Zpos m + 2 ^ (- e) - 1) / 2 ^ (- e)))
  | S754_infinity _ => Raise OverflowError
  | S754_nan => Raise ValueError
  end.

Definition is_finite (x : float) : bool :=
  match x with
  | S754_zero _ | S754_finite _ _ _ => true
  | _ => false
  end.

(** [0 <= x] and [0 < x] as Python's comparisons decide them. *)
Definition nonneg (x : float) : bool := SFleb (S754_zero false) x.
Definition positive (x : float) : bool := SFltb (S754_zero false) x.

End PyFloat.

Definition float : Type := PyFloat.float.

(** A Python number that is either an [int] or a [float]:
    [get_video_duration] returns the int [0] or a float. *)
Inductive pynum : Type :=
| PyInt (n : Z)
| PyFloat (x : float).

Definition to_float (d : pynum) : float :=
  match d with
  | PyInt n => PyFloat.of_int n
  | PyFloat x => x
  end.

(** [d == 0] *)
Definition eq_zero (d : pynum) : bool :=
  match d with
  | PyInt n => n =? 0
  | PyFloat x => PyFloat.is_zero x
  end.

(** ** Text *)

Module Text.

(** [\d] on ASCII text: ['0'..'9'].  The decimal digits of other
    scripts, which the pattern also accepts, are outside this model;
    the statements that depend on it assume ASCII text. *)
Definition is_digit (c : ascii) : bool :=
  let n := N_of_ascii c in ((48 <=? n) && (n <=? 57))%N.

(** [str.isspace] on ASCII: TAB..CR, FS..US and the space. *)
Definition is_space (c : ascii) : bool :=
  let n := N_of_ascii c in
  (((9 <=? n) && (n <=? 13)) || ((28 <=? n) && (n <=? 32)))%N.

Definition digit_val (c : ascii) : Z := Z.of_N (N_of_ascii c) - 48.

(** [needle in haystack] *)
Fixpoint contains (needle haystack : string) : bool :=
  if prefix needle haystack then true
  else match haystack with
       | EmptyString => false
       | String _ rest => contains needle rest
       end.

(** [bool(line.strip())]: some character is not white space. *)
Fixpoint strip_nonempty (s : string) : bool :=
  match s with
  | EmptyString => false
  | String c rest => if is_space c then strip_nonempty rest else true
  end.

(** [str(n)] for an [int]. *)
Definition str (n : Z) : string := NilZero.string_of_int (Z.to_int n).

(** The longest prefix of digits, and what follows it. *)
Fixpoint span_digits (s : string) : string * string :=
  match s with
  | EmptyString => (EmptyString, EmptyString)
  | String c rest =>
      if is_digit c
      then let (ds, tl) := span_digits rest in (String c ds, tl)
      else (EmptyString, s)
  end.

Fixpoint drop_space (s : string) : string :=
  match s with
  | EmptyString => EmptyString
  | String c rest => if is_space c then drop_space rest else s
  end.

End Text.

(** ** The processor object and what it does to the world *)

(** The fields set by [VideoProcessor.__init__].  [process] holds the
    argument vector the child was started with once [Popen] returned. *)
Record processor : Type := {
  input_path : string;
  output_path : string;
  take_duration : Z;
  skip_duration : Z;
  total_duration : pynum;
  is_paused : bool;
  is_cancelled : bool;
  process : option (list string)
}.

Definition new_processor (input output : string) (take skip : Z) : processor :=
  {| input_path := input; output_path := output;
     take_duration := take; skip_duration := skip;
     total_duration := PyInt 0;
     is_paused := false; is_cancelled := false; process := None |}.

Definition set_total_duration (d : pynum) (p : processor) : processor :=
  {| input_path := input_path p; output_path := output_path p;
     take_duration := take_duration p; skip_duration := skip_duration p;
     total_duration := d;
     is_paused := is_paused p; is_cancelled := is_cancelled p;
     process := process p |}.

Definition set_is_paused (b : bool) (p : processor) : processor :=
  {| input_path := input_path p; output_path := output_path p;
     take_duration := take_duration p; skip_duration := skip_duration p;
     total_duration := total_duration p;
     is_paused := b; is_cancelled := is_cancelled p;
     process := process p |}.

Definition set_is_cancelled (b : bool) (p : processor) : processor :=
  {| input_path := input_path p; output_path := output_path p;
     take_duration := take_duration p; skip_duration := skip_duration p;
     total_duration := total_duration p;
     is_paused := is_paused p; is_cancelled := b;
     process := process p |}.

Definition set_process (c : option (list string)) (p : processor) : processor :=
  {| input_path := input_path p; output_path := output_path p;
     take_duration := take_duration p; skip_duration := skip_duration p;
     total_duration := total_duration p;
     is_paused := is_paused p; is_cancelled := is_cancelled p;
     process := c |}.

(** The payload of [time_info_updated]: the pair that [format_time]
    renders as "HH:MM:SS / HH:MM:SS", or the literal "Complete!". *)
Inductive time_info : Type :=
| TimeOf (elapsed : float) (total : pynum)
| TimeComplete.

(** The six [pyqtSignal]s of [VideoProcessor]. *)
Inductive qt_signal : Type :=
| progress_updated (percent : Z)
| status_updated (text : string)
| finished (success : bool) (message : string)
| time_info_updated (info : time_info)
| paused
| cancelled.

Inductive os_signal : Type := SIGSTOP | SIGCONT.

Inductive effect : Type :=
| Emit (s : qt_signal)
| Popen (cmd : list string)
| SendSignal (s : os_signal)
| Terminate
| Wait
| Communicate
| Remove (path : string)
| Print (text : string)
| Msleep (ms : Z).

(** The shared state: the processor object, whether the output file is
    on disk, and everything done so far, oldest first. *)
Record world : Type := {
  self : processor;
  output_exists : bool;
  trace : list effect
}.

Definition with_self (f : processor -> processor) (w : world) : world :=
  {| self := f (self w); output_exists := output_exists w; trace := trace w |}.

Definition with_output (b : bool) (w : world) : world :=
  {| self := self w; output_exists := b; trace := trace w |}.

Definition log (e : effect) (w : world) : world :=
  {| self := self w; output_exists := output_exists w;
     trace := trace w ++ [e] |}.

Definition emit (s : qt_signal) (w : world) : world := log (Emit s) w.

Definition init_world (p : processor) (on_disk : bool) : world :=
  {| self := p; output_exists := on_disk; trace := [] |}.

(** ** What the outside answers *)

(** The [try] body of [get_video_duration]: ffprobe is run with
    [check=True], its output goes through [json.loads], the field
    [data['format']['duration']] through [float].  Each step either
    raises or hands its value to the next. *)
Inductive probe_outcome : Type :=
| ProbeNotStarted              (* ffprobe missing: OSError *)
| ProbeExitNonZero (code : Z)  (* CalledProcessError *)
| ProbeUnparsable              (* json.JSONDecodeError *)
| ProbeNoDuration              (* KeyError *)
| ProbeNotANumber              (* float() raises ValueError / TypeError *)
| ProbeDuration (d : float).

Record job_env : Type := {
  ffmpeg_path : string;            (* get_ffmpeg_path() *)
  probe : probe_outcome;
  platform_system : string;        (* platform.system() *)
  encoders : option string;        (* stdout of `ffmpeg -encoders`;
                                      None when subprocess.run raises *)
  popen_error : option string;     (* Some msg: Popen raises OSError *)
  creates_output : bool;           (* the child creates the output file *)
  stdout_lines : list string;      (* what readline returns, in order *)
  returncode : Z;
  stderr : string;
  remove_error : option string     (* Some msg: os.remove raises *)
}.

(** ** Duration probe *)

(** The value of the [try] body, when it does not raise. *)
Definition probe_body (o : probe_outcome) : option float :=
  match o with
  | ProbeDuration d => Some d
  | _ => None
  end.

(** [get_video_duration]: the bare [except] turns every failure into
    the int [0]. *)
Definition get_video_duration (env : job_env) : pynum :=
  match probe_body (probe env) with
  | Some d => PyFloat d
  | None => PyInt 0
  end.

(** ** Encoder selection *)

Definition get_optimal_encoder (env : job_env) : string * string :=
  match encoders env with
  | Some encs =>
      if platform_system env =? "Darwin" then
        if Text.contains "h264_videotoolbox" encs
        then ("h264_videotoolbox", "videotoolbox")
        else ("libx264", "auto")
      else if platform_system env =? "Windows" then
        if Text.contains "h264_nvenc" encs then ("h264_nvenc", "cuda")
        else if Text.contains "h264_qsv" encs then ("h264_qsv", "qsv")
        else ("libx264", "auto")
      else if platform_system env =? "Linux" then
        if Text.contains "h264_nvenc" encs then ("h264_nvenc", "cuda")
        else if Text.contains "h264_vaapi" encs then ("h264_vaapi", "vaapi")
        else ("libx264", "auto")
      else ("libx264", "auto")
  | None => ("libx264", "auto")
  end%string.

(** ** Command construction ([run], from [cycle_duration] to [-y]) *)

Definition select_filter (cycle_duration take : Z) : string :=
  "select='between(mod(t," ++ Text.str cycle_duration ++ "),0,"
    ++ Text.str take ++ ")', setpts=N/FRAME_RATE/TB".

Definition aselect_filter (cycle_duration take : Z) : string :=
  "aselect='between(mod(t," ++ Text.str cycle_duration ++ "),0,"
    ++ Text.str take ++ ")', asetpts=N/SR/TB".

Definition encoder_options (video_encoder : string) : list string :=
  if (video_encoder =? "libx264")%string then ["-preset"; "fast"; "-crf"; "23"]
  else if (video_encoder =? "h264_videotoolbox")%string
       then ["-b:v"; "5000k"; "-allow_sw"; "1"]
  else if Text.contains "nvenc" video_encoder
       then ["-preset"; "fast"; "-cq"; "23"]
  else if Text.contains "qsv" video_encoder
       then ["-preset"; "fast"; "-global_quality"; "23"]
  else [].

Definition build_command (ffmpeg : string) (p : processor)
    (video_encoder hwaccel : string) : list string :=
  let cycle_duration := take_duration p + skip_duration p in
  [ffmpeg]
    ++ (if (hwaccel =? "auto")%string then [] else ["-hwaccel"; hwaccel])
    ++ ["-i"; input_path p]
    ++ ["-threads"; "0"]
    ++ ["-vf"; select_filter cycle_duration (take_duration p)]
    ++ ["-af"; aselect_filter cycle_duration (take_duration p)]
    ++ ["-c:v"; video_encoder]
    ++ encoder_options video_encoder
    ++ ["-c:a"; "aac"; "-b:a"; "128k";
        "-avoid_negative_ts"; "make_zero";
        "-max_muxing_queue_size"; "9999";
        "-fflags"; "+genpts";
        "-movflags"; "+faststart";
        "-progress"; "pipe:1";
        "-y"; output_path p].

(** ** Progress parsing *)

Fixpoint strip_prefix (lit s : string) : option string :=
  match lit with
  | EmptyString => Some s
  | String a lit' =>
      match s with
      | String b s' => if Ascii.eqb a b then strip_prefix lit' s' else None
      | EmptyString => None
      end
  end.

(** [(\d{2})] followed by [int(group)]. *)
Definition two_digits (s : string) : option (Z * string) :=
  match s with
  | String a (String b rest) =>
      if Text.is_digit a && Text.is_digit b
      then Some (10 * Text.digit_val a + Text.digit_val b, rest)
      else None
  | _ => None
  end.

(** The four groups of [time=(\d{2}):(\d{2}):(\d{2})\.(\d{2})] as ints. *)
Record time_groups : Type := {
  hours : Z; minutes : Z; seconds : Z; milliseconds : Z
}.

(** The pattern matched at the start of [s]. *)
Definition match_time (s : string) : option time_groups :=
  match strip_prefix "time=" s with
  | None => None
  | Some s1 =>
  match two_digits s1 with
  | None => None
  | Some (h, s2) =>
  match strip_prefix ":" s2 with
  | None => None
  | Some s3 =>
  match two_digits s3 with
  | None => None
  | Some (m, s4) =>
  match strip_prefix ":" s4 with
  | None => None
  | Some s5 =>
  match two_digits s5 with
  | None => None
  | Some (sec, s6) =>
  match strip_prefix "." s6 with
  | None => None
  | Some s7 =>
  match two_digits s7 with
  | None => None
  | Some (ms, _) =>
      Some {| hours := h; minutes := m; seconds := sec; milliseconds := ms |}
  end end end end end end end end.

(** [re.search]: the match at the leftmost position that has one. *)
Fixpoint search_time (line : string) : option time_groups :=
  match match_time line with
  | Some g => Some g
  | None =>
      match line with
      | EmptyString => None
      | String _ rest => search_time rest
      end
  end.

(** [hours * 3600 + minutes * 60 + seconds + milliseconds / 100]: the
    first three terms are ints, the quotient is a float, and so is the
    sum. *)
Definition current_time_of (g : time_groups) : result float :=
  q <- PyFloat.truediv (PyFloat.of_int (milliseconds g)) (PyFloat.of_int 100) ;;
  Ok (PyFloat.add
        (PyFloat.of_int (hours g * 3600 + minutes g * 60 + seconds g)) q).

(** [parse_ffmpeg_progress(self, line)]; [None] is Python's [None]. *)
Definition parse_ffmpeg_progress (self : processor) (line : string)
  : result (option float) :=
  match search_time line with
  | Some g => t <- current_time_of g ;; Ok (Some t)
  | None => Ok None
  end.

(** [re.search(r'frame=\s*(\d+)', line)] and its group 1. *)
Definition match_frame (s : string) : option string :=
  match strip_prefix "frame=" s with
  | None => None
  | Some r =>
      match fst (Text.span_digits (Text.drop_space r)) with
      | EmptyString => None
      | ds => Some ds
      end
  end.

Fixpoint search_frame (line : string) : option string :=
  match match_frame line with
  | Some ds => Some ds
  | None =>
      match line with
      | EmptyString => None
      | String _ rest => search_frame rest
      end
  end.

(** ** Controls: pause, resume, cancel *)

Definition pause_processing (w : world) : world :=
  let w := with_self (set_is_paused true) w in
  let w := match process (self w) with
           | Some _ => log (SendSignal SIGSTOP) w
           | None => w
           end in
  let w := emit (status_updated "⏸️ Processing paused") w in
  emit paused w.

Definition resume_processing (w : world) : world :=
  let w := with_self (set_is_paused false) w in
  let w := match process (self w) with
           | Some _ => log (SendSignal SIGCONT) w
           | None => w
           end in
  emit (status_updated "▶️ Processing resumed") w.

(** The [try] around the removal of the incomplete output file. *)
Definition remove_output (env : job_env) (w : world) : world :=
  if output_exists w then
    let w := log (Remove (output_path (self w))) w in
    match remove_error env with
    | None => with_output false w
    | Some msg => log (Print ("Error removing incomplete file: " ++ msg)) w
    end
  else w.

Definition cancel_processing (env : job_env) (w : world) : world :=
  let w := with_self (set_is_cancelled true) w in
  let w := match process (self w) with
           | Some _ => log Wait (log Terminate w)
           | None => w
           end in
  let w := remove_output env w in
  let w := emit (status_updated "❌ Processing cancelled") w in
  let w := emit cancelled w in
  emit (finished false "Processing was cancelled by user") w.

(** ** The user, on the GUI thread *)

Inductive user_action : Type := UserPause | UserResume | UserCancel.

Definition user_call (env : job_env) (w : world) (a : user_action) : world :=
  match a with
  | UserPause => pause_processing w
  | UserResume => resume_processing w
  | UserCancel => cancel_processing env w
  end.

(** A schedule lists, for each point where the worker blocks (the probe,
    the encoder query, every [readline], every [msleep]), the calls the
    user makes meanwhile.  Past its end the user does nothing more. *)
Definition schedule : Type := list (list user_action).

Definition user_tick (env : job_env) (sch : schedule) (w : world)
  : world * schedule :=
  match sch with
  | [] => (w, [])
  | calls :: sch' => (fold_left (user_call env) calls w, sch')
  end.

(** ** The supervising loop *)

(** [min(int((current_time / self.total_duration) * 100), 100)] *)
Definition progress_percent (current_time : float) (total : pynum)
  : result Z :=
  q <- PyFloat.truediv current_time (to_float total) ;;
  n <- PyFloat.to_int (PyFloat.mul q (PyFloat.of_int 100)) ;;
  Ok (Z.min n 100).

(** The [if progress > current_progress] block. *)
Definition report_progress (progress : Z) (current_time : float)
    (current_progress : Z) (w : world) : Z * world :=
  if current_progress <? progress then
    let w := emit (progress_updated progress) w in
    let w := if negb (is_paused (self w))
             then emit (status_updated
                          ("🔄 Processing... " ++ Text.str progress ++ "%")) w
             else w in
    (progress,
     emit (time_info_updated
             (TimeOf current_time (total_duration (self w)))) w)
  else (current_progress, w).

(** The [if "frame=" in line and not self.is_paused] block. *)
Definition report_frame (line : string) (w : world) : world :=
  if Text.contains "frame=" line && negb (is_paused (self w)) then
    match search_frame line with
    | Some frame_num =>
        emit (status_updated
                ("🎞️ Processing frame " ++ frame_num ++ "...")) w
    | None => w
    end
  else w.

(** The [if line.strip()] block: one line of the child's output. *)
Definition handle_line (line : string) (current_progress : Z) (w : world)
  : result (Z * world) :=
  if Text.strip_nonempty line then
    t <- parse_ffmpeg_progress (self w) line ;;
    match t with
    | Some current_time =>
        progress <- progress_percent current_time (total_duration (self w)) ;;
        let (cp, w) := report_progress progress current_time
                         current_progress w in
        Ok (cp, report_frame line w)
    | None => Ok (current_progress, report_frame line w)
    end
  else Ok (current_progress, w).

Inductive wait_exit : Type :=
| Awake (w : world) (sch : schedule)
| Asleep (w : world).   (* the schedule is over: nobody resumes or cancels *)

(** [while self.is_paused and not self.is_cancelled: self.msleep(100)] *)
Fixpoint wait_paused (env : job_env) (sch : schedule) (w : world)
  : wait_exit :=
  if is_paused (self w) && negb (is_cancelled (self w)) then
    match sch with
    | [] => Asleep w
    | calls :: sch' =>
        wait_paused env sch'
          (fold_left (user_call env) calls (log (Msleep 100) w))
    end
  else Awake w sch.

Definition wait_world (x : wait_exit) : world :=
  match x with
  | Awake w _ | Asleep w => w
  end.

Inductive loop_exit : Type :=
| LoopEnd (w : world) (sch : schedule)   (* end of stream, or [break] *)
| LoopRaise (e : pyexn) (w : world)
| LoopAsleep (w : world).

Definition loop_world (x : loop_exit) : world :=
  match x with
  | LoopEnd w _ | LoopRaise _ w | LoopAsleep w => w
  end.

(** [for line in iter(self.process.stdout.readline, '')] *)
Fixpoint read_loop (env : job_env) (lines : list string)
    (current_progress : Z) (sch : schedule) (w : world) : loop_exit :=
  let (w, sch) := user_tick env sch w in
  match lines with
  | [] => LoopEnd w sch
  | line :: rest =>
      if is_cancelled (self w) then LoopEnd w sch
      else
        match wait_paused env sch w with
        | Asleep w => LoopAsleep w
        | Awake w sch =>
            if is_cancelled (self w) then LoopEnd w sch
            else
              match handle_line line current_progress w with
              | Raise e => LoopRaise e w
              | Ok (cp, w) => read_loop env rest cp sch w
              end
        end
  end.

(** What follows the loop when the job was not cancelled. *)
Definition finish (env : job_env) (w : world) : world :=
  let w := log Communicate w in
  if returncode env =? 0 then
    let w := emit (progress_updated 100) w in
    let w := emit (status_updated "✅ Processing completed!") w in
    let w := emit (time_info_updated TimeComplete) w in
    emit (finished true "Video processed successfully!") w
  else
    let error_msg :=
      "FFmpeg failed with return code " ++ Text.str (returncode env) in
    let error_msg :=
      match stderr env with
      | EmptyString => error_msg
      | err => error_msg ++ String "010" ("Error: " ++ err)
      end in
    let w := log (Print ("FFmpeg error: " ++ error_msg)) w in
    emit (finished false error_msg) w.

(** [Popen]: the handle is stored, the child may create the output. *)
Definition spawn (env : job_env) (cmd : list string) (w : world) : world :=
  let w := log (Popen cmd) w in
  let w := with_self (set_process (Some cmd)) w in
  with_output (output_exists w || creates_output env) w.

Inductive outcome : Type :=
| Returned (w : world)
| Sleeping (w : world).   (* paused for ever: [run] never returns *)

Definition final (o : outcome) : world :=
  match o with
  | Returned w | Sleeping w => w
  end.

(** [VideoProcessor.run] *)
Definition run (env : job_env) (sch : schedule) (w : world) : outcome :=
  if is_cancelled (self w) then Returned w
  else
    let w := emit (status_updated "📊 Analyzing video...") w in
    let (w, sch) := user_tick env sch w in
    let w := with_self (set_total_duration (get_video_duration env)) w in
    if eq_zero (total_duration (self w)) then
      Returned (emit (finished false "Could not determine video duration") w)
    else if is_cancelled (self w) then Returned w
    else
      let (w, sch) := user_tick env sch w in
      let (video_encoder, hwaccel) := get_optimal_encoder env in
      let cmd := build_command (ffmpeg_path env) (self w)
                   video_encoder hwaccel in
      let w := emit (status_updated
                       ("🚀 Using " ++ video_encoder ++ " encoder with "
                          ++ hwaccel ++ " acceleration...")) w in
      let w := emit (status_updated "🔄 Starting FFmpeg process...") w in
      let w := log (Print ("FFmpeg command: " ++ concat " " cmd)) w in
      match popen_error env with
      | Some msg => Returned (emit (finished false (str_exn (OSError msg))) w)
      | None =>
          let w := spawn env cmd w in
          match read_loop env (stdout_lines env) 0 sch w with
          | LoopAsleep w => Sleeping w
          | LoopRaise e w => Returned (emit (finished false (str_exn e)) w)
          | LoopEnd w _ =>
              if negb (is_cancelled (self w)) then Returned (finish env w)
              else Returned (cancel_processing env w)
          end
      end.

(** ** The batch: [VideoIntervalCutter] *)

(** The fields of the main window that sequencing reads or writes. *)
Record cutter : Type := {
  selected_files : list string;
  output_directory : string;
  take_spin : Z;
  skip_spin : Z;
  current_processing : nat;
  is_processing : bool;
  gui_is_paused : bool;
  log_text : list string
}.

Definition append_log (line : string) (c : cutter) : cutter :=
  {| selected_files := selected_files c;
     output_directory := output_directory c;
     take_spin := take_spin c; skip_spin := skip_spin c;
     current_processing := current_processing c;
     is_processing := is_processing c; gui_is_paused := gui_is_paused c;
     log_text := log_text c ++ [line] |}.

Definition set_current_processing (n : nat) (c : cutter) : cutter :=
  {| selected_files := selected_files c;
     output_directory := output_directory c;
     take_spin := take_spin c; skip_spin := skip_spin c;
     current_processing := n;
     is_processing := is_processing c; gui_is_paused := gui_is_paused c;
     log_text := log_text c |}.

Definition set_flags (processing paused_ : bool) (c : cutter) : cutter :=
  {| selected_files := selected_files c;
     output_directory := output_directory c;
     take_spin := take_spin c; skip_spin := skip_spin c;
     current_processing := current_processing c;
     is_processing := processing; gui_is_paused := paused_;
     log_text := log_text c |}.

Section Batch.

(** [os.path.basename], [os.path.splitext(..)[0]] and [os.path.join]
    of the host are left open. *)
Variable basename : string -> string.
Variable splitext_root : string -> string.
Variable path_join : string -> string -> string.
(** The line "Output file size: ..." for the job just finished, when
    the file is there and can be measured. *)
Variable size_report : cutter -> option string.

Definition output_filename (c : cutter) (filename : string) : string :=
  "cut_" ++ splitext_root filename
    ++ "_take" ++ Text.str (take_spin c)
    ++ "s_skip" ++ Text.str (skip_spin c) ++ "s.mp4".

(** [process_next_file]: the processor it starts, if any. *)
Definition process_next_file (c : cutter) : cutter * option processor :=
  match nth_error (selected_files c) (current_processing c) with
  | None =>
      (append_log "🎉 All files processed successfully!"
         (set_flags false (gui_is_paused c) c), None)
  | Some current_file =>
      let filename := basename current_file in
      let output_path :=
        path_join (output_directory c) (output_filename c filename) in
      let c := append_log (String "010" ("🔄 Processing: " ++ filename)) c in
      let c := append_log ("📤 Output: " ++ output_filename c filename) c in
      (c, Some (new_processor current_file output_path
                  (take_spin c) (skip_spin c)))
  end.

(** [on_processing_finished]; the boolean tells whether the timer for
    the next [process_next_file] was armed. *)
Definition on_processing_finished (success : bool) (message : string)
    (c : cutter) : cutter * bool :=
  let c := if success then
             let c := append_log ("✅ " ++ message) c in
             match size_report c with
             | Some line => append_log line c
             | None => c
             end
           else append_log ("❌ Error: " ++ message) c in
  let c := set_current_processing (current_processing c + 1)%nat c in
  if negb (is_processing c) then (c, false)
  else if (List.length (selected_files c) <=? current_processing c)%nat
       then (set_flags false false c, false)
  else (c, true).

(** Every [finished] emission of a job reaches the slot, in order. *)
Fixpoint deliver (tr : list effect) (c : cutter) : cutter * bool :=
  match tr with
  | [] => (c, false)
  | Emit (finished success message) :: tr' =>
      let (c, armed) := on_processing_finished success message c in
      let (c, armed') := deliver tr' c in
      (c, armed || armed')
  | _ :: tr' => deliver tr' c
  end.

(** A batch the user leaves alone: job after job, each in the
    environment [envs] gives to its index.  The result lists, for
    every job started, its processor and its trace. *)
Fixpoint run_batch (fuel : nat) (envs : nat -> job_env) (c : cutter)
  : cutter * list (processor * list effect) :=
  match fuel with
  | O => (c, [])
  | S fuel' =>
      match process_next_file c with
      | (c, None) => (c, [])
      | (c, Some p) =>
          match run (envs (current_processing c)) []
                  (init_world p false) with
          | Sleeping _ => (c, [])
          | Returned w =>
              let (c, armed) := deliver (trace w) c in
              if armed then
                let (c', jobs) := run_batch fuel' envs c in
                (c', (p, trace w) :: jobs)
              else (c, [(p, trace w)])
          end
      end
  end.

End Batch.

(** ** Reading a trace *)

Definition progress_events (tr : list effect) : list Z :=
  flat_map (fun e => match e with
                     | Emit (progress_updated p) => [p]
                     | _ => []
                     end) tr.

(** The terminal lifecycle events: the emissions of [finished]. *)
Definition terminal_events (tr : list effect) : list (bool * string) :=
  flat_map (fun e => match e with
                     | Emit (finished ok msg) => [(ok, msg)]
                     | _ => []
                     end) tr.

Definition emissions (tr : list effect) : list qt_signal :=
  flat_map (fun e => match e with Emit s => [s] | _ => [] end) tr.

Definition spawned (tr : list effect) : list (list string) :=
  flat_map (fun e => match e with Popen cmd => [cmd] | _ => [] end) tr.

Definition delivered (tr : list effect) : list os_signal :=
  flat_map (fun e => match e with SendSignal s => [s] | _ => [] end) tr.

(** ** The selection expression, as the transcoder reads it

    The filter strings are written in the expression language of the
    transcoding tool.  Of that language the command uses the variable
    [t] (the timestamp of the sample, in seconds), integer literals,
    [mod(x,y)], which the tool computes as [x - floor(x/y)*y], and
    [between(x,min,max)], which it documents as 1 when
    [min <= x <= max] and 0 otherwise.  A sample is kept when the
    expression is not zero.  Timestamps are exact rationals here. *)

Module FFExpr.

Inductive expr : Type :=
| T
| Num (n : Z)
| Mod (x y : expr)
| Between (x lo hi : expr).

Fixpoint show (e : expr) : string :=
  match e with
  | T => "t"
  | Num n => Text.str n
  | Mod x y => "mod(" ++ show x ++ "," ++ show y ++ ")"
  | Between x lo hi =>
      "between(" ++ show x ++ "," ++ show lo ++ "," ++ show hi ++ ")"
  end.

Definition fmod (x y : Q) : Q := (x - inject_Z (Qfloor (x / y)) * y)%Q.

Fixpoint eval (t : Q) (e : expr) : Q :=
  match e with
  | T => t
  | Num n => inject_Z n
  | Mod x y => fmod (eval t x) (eval t y)
  | Between x lo hi =>
      if Qle_bool (eval t lo) (eval t x) && Qle_bool (eval t x) (eval t hi)
      then 1%Q else 0%Q
  end.

Definition selects (e : expr) (t : Q) : bool :=
  negb (Qeq_bool (eval t e) 0%Q).

End FFExpr.

(** The expression inside both filter strings. *)
Definition select_expr (cycle_duration take : Z) : FFExpr.expr :=
  FFExpr.Between (FFExpr.Mod FFExpr.T (FFExpr.Num cycle_duration))
    (FFExpr.Num 0) (FFExpr.Num take).

(** The retained-sample predicate in the words of the specification:
    the timestamp modulo the cycle lies in the half-open [0, take). *)
Definition retained_half_open (take skip : Z) (t : Q) : Prop :=
  (0 <= FFExpr.fmod t (inject_Z (take + skip)) /\
   FFExpr.fmod t (inject_Z (take + skip)) < inject_Z take)%Q.

(** ** The preference table of the specification *)

Definition software_encoder : string * string := ("libx264", "auto").

Definition hardware_encoders : list string :=
  ["h264_videotoolbox"; "h264_nvenc"; "h264_qsv"; "h264_vaapi"].

Definition preference (platform : string) : list (string * string) :=
  if (platform =? "Darwin")%string then [("h264_videotoolbox", "videotoolbox")]
  else if (platform =? "Windows")%string
       then [("h264_nvenc", "cuda"); ("h264_qsv", "qsv")]
  else if (platform =? "Linux")%string
       then [("h264_nvenc", "cuda"); ("h264_vaapi", "vaapi")]
  else [].

(** First entry of the preference order that the capability list
    mentions; the software encoder closes every order. *)
Definition first_match (prefs : list (string * string)) (encs : string)
  : string * string :=
  match find (fun p => Text.contains (fst p) encs) prefs with
  | Some p => p
  | None => software_encoder
  end.

(** ** Timestamps in a line, as the specification words them *)

(** The text [time=ab:cd:ef.gh]. *)
Definition stamp (a b c d e f g h : ascii) : string :=
  "time=" ++ String a (String b (String ":" (String c (String d
    (String ":" (String e (String f (String "." (String g (String h
    EmptyString)))))))))).

Definition int2 (a b : ascii) : Z := 10 * Text.digit_val a + Text.digit_val b.

(** [line] carries a timestamp at offset [k], with groups [g]. *)
Definition stamp_at (line : string) (k : nat) (g : time_groups) : Prop :=
  exists pre a b c d e f i j post,
    line = pre ++ stamp a b c d e f i j ++ post /\
    String.length pre = k /\
    forallb Text.is_digit [a; b; c; d; e; f; i; j] = true /\
    g = {| hours := int2 a b; minutes := int2 c d;
           seconds := int2 e f; milliseconds := int2 i j |}.

(** HH*3600 + MM*60 + SS + hh/100, in floating point. *)
Definition elapsed_seconds (g : time_groups) : float :=
  PyFloat.add
    (PyFloat.of_int (hours g * 3600 + minutes g * 60 + seconds g))
    (SFdiv PyFloat.prec PyFloat.emax
       (PyFloat.of_int (milliseconds g)) (PyFloat.of_int 100)).

(** The percent in the words of the specification:
    min(100, floor(elapsed / total_duration * 100)). *)
Definition spec_percent (elapsed total : float) : result Z :=
  q <- PyFloat.truediv elapsed total ;;
  n <- PyFloat.floor (PyFloat.mul q (PyFloat.of_int 100)) ;;
  Ok (Z.min 100 n).

(** Not negative and not NaN by its shape. *)
Definition nonneg_shape (x : float) : Prop :=
  match x with
  | S754_zero _ | S754_finite false _ _ | S754_infinity false | S754_nan => True
  | _ => False
  end.

(** ** Vocabulary for traces *)

(** Effects other than a progress event. *)
Definition not_progress (e : effect) : bool :=
  match e with
  | Emit (progress_updated _) => false
  | _ => true
  end.

(** Effects other than the Completed event. *)
Definition not_completion (e : effect) : bool :=
  match e with
  | Emit (finished true _) => false
  | _ => true
  end.

(** Effects other than a terminal event. *)
Definition not_terminal (e : effect) : bool :=
  match e with
  | Emit (finished _ _) => false
  | _ => true
  end.

Definition not_popen (e : effect) : bool :=
  match e with
  | Popen _ => false
  | _ => true
  end.

(** What the controls and the pause loop can do: everything except
    starting a child, reading its exit status, a progress event and
    the Completed event. *)
Definition user_effect (e : effect) : bool :=
  match e with
  | Emit (progress_updated _) | Emit (finished true _)
  | Emit (time_info_updated _) | Popen _ | Communicate => false
  | _ => true
  end.

(** What handling one line of output can do. *)
Definition line_effect (e : effect) : bool :=
  match e with
  | Emit (progress_updated _) | Emit (status_updated _)
  | Emit (time_info_updated _) => true
  | _ => false
  end.

(** What the read loop can do. *)
Definition loop_effect (e : effect) : bool :=
  user_effect e || line_effect e.

(** What a job can do before it reads the child's exit status. *)
Definition job_effect (e : effect) : bool :=
  loop_effect e || negb (not_popen e).

(** What a job can do before it reads the first line. *)
Definition prelude_effect (e : effect) : bool :=
  user_effect e || negb (not_popen e).

(** Everything done so far satisfies [P]. *)
Definition all_trace (P : effect -> bool) (w : world) : Prop :=
  forallb P (trace w) = true.

(** What [finish] adds when the child exited with status 0. *)
Definition completion_tail : list effect :=
  [Communicate;
   Emit (progress_updated 100);
   Emit (status_updated "✅ Processing completed!");
   Emit (time_info_updated TimeComplete);
   Emit (finished true "Video processed successfully!")].

(** [w'] continues [w] with effects that all satisfy [P]. *)
Definition extends (P : effect -> bool) (w w' : world) : Prop :=
  exists tr, trace w' = (trace w ++ tr)%list /\ forallb P tr = true.

(** The shape of what a stretch of the loop adds to the trace: only
    loop effects, whose progress events increase strictly and lie in
    (cp, 100]. *)
Definition loop_stretch (cp : Z) (w w' : world) : Prop :=
  exists tr,
    trace w' = (trace w ++ tr)%list /\
    forallb loop_effect tr = true /\
    StronglySorted Z.lt (progress_events tr) /\
    Forall (fun p => cp < p <= 100) (progress_events tr).

(** The percent that one line of output leads [run] to compute, if
    any: the line is not blank, carries a timestamp, and the
    conversion does not raise. *)
Definition computed_percent (self : processor) (line : string)
  : result (option Z) :=
  if Text.strip_nonempty line then
    t <- parse_ffmpeg_progress self line ;;
    match t with
    | Some current_time =>
        p <- progress_percent current_time (total_duration self) ;;
        Ok (Some p)
    | None => Ok None
    end
  else Ok None.

(** What a percent adds to the progress events after [last]. *)
Definition emitted_after (last : Z) (p : option Z) : list Z :=
  match p with
  | Some p => if last <? p then [p] else []
  | None => []
  end.

(** ** A sample job: 25 seconds of input on a Linux host with VAAPI *)

Definition sample_env (lines : list string) : job_env :=
  {| ffmpeg_path := "ffmpeg";
     probe := ProbeDuration (PyFloat.of_int 25);
     platform_system := "Linux";
     encoders := Some "V..... libx264  V..... h264_vaapi";
     popen_error := None;
     creates_output := true;
     stdout_lines := lines;
     returncode := 0;
     stderr := "";
     remove_error := None |}.

Definition sample_processor : processor :=
  new_processor "in.mp4" "out.mp4" 5 10.

(** The same job with another answer from the duration probe. *)
Definition with_probe (o : probe_outcome) (env : job_env) : job_env :=
  {| ffmpeg_path := ffmpeg_path env;
     probe := o;
     platform_system := platform_system env;
     encoders := encoders env;
     popen_error := popen_error env;
     creates_output := creates_output env;
     stdout_lines := stdout_lines env;
     returncode := returncode env;
     stderr := stderr env;
     remove_error := remove_error env |}.

(** A batch of three files, the second of which cannot be probed. *)
Definition sample_cutter : cutter :=
  {| selected_files := ["a.mp4"; "b.mp4"; "c.mp4"];
     output_directory := "out";
     take_spin := 5; skip_spin := 10;
     current_processing := 0;
     is_processing := true; gui_is_paused := false;
     log_text := [] |}.

Definition sample_envs (index : nat) : job_env :=
  if (index =? 1)%nat
  then with_probe ProbeNoDuration (sample_env [])
  else sample_env ["out_time=00:00:12.50"].

(** ** What a job computes, apart from the world *)

(** The request and the probed duration of a processor: what the
    controls never touch. *)
Definition same_job (p q : processor) : Prop :=
  input_path p = input_path q /\ output_path p = output_path q /\
  take_duration p = take_duration q /\ skip_duration p = skip_duration q /\
  total_duration p = total_duration q.

(** The progress events of the read loop over [lines], starting after
    [last], and the exception that stops it, if any. *)
Fixpoint loop_result (self : processor) (last : Z) (lines : list string)
  : list Z * option pyexn :=
  match lines with
  | [] => ([], None)
  | line :: rest =>
      match computed_percent self line with
      | Raise e => ([], Some e)
      | Ok op =>
          let (ps, r) :=
            loop_result self (List.last (emitted_after last op) last) rest in
          ((emitted_after last op ++ ps)%list, r)
      end
  end.

(** The [error_msg] of a child that exited with a non-zero status. *)
Definition failure_message (env : job_env) : string :=
  match stderr env with
  | EmptyString => "FFmpeg failed with return code " ++ Text.str (returncode env)
  | err => ("FFmpeg failed with return code " ++ Text.str (returncode env))
             ++ String "010" ("Error: " ++ err)
  end.

(** The progress events and the terminal event of a job, read off what
    the tools answer. *)
Definition job_result (env : job_env) (p : processor)
  : list Z * (bool * string) :=
  if eq_zero (get_video_duration env)
  then ([], (false, "Could not determine video duration"))
  else
    match popen_error env with
    | Some msg => ([], (false, msg))
    | None =>
        let (ps, r) :=
          loop_result (set_total_duration (get_video_duration env) p) 0
            (stdout_lines env) in
        match r with
        | Some e => (ps, (false, str_exn e))
        | None =>
            if returncode env =? 0
            then ((ps ++ [100])%list, (true, "Video processed successfully!"))
            else (ps, (false, failure_message env))
        end
    end.

Definition is_cancel (a : user_action) : bool :=
  match a with
  | UserCancel => true
  | _ => false
  end.

(** A schedule in which the user only pauses and resumes. *)
Definition never_cancels (sch : schedule) : bool :=
  forallb (forallb (fun a => negb (is_cancel a))) sch.

(** Effects of pausing, resuming and sleeping. *)
Definition pause_effect (e : effect) : bool :=
  match e with
  | SendSignal _ | Msleep _ | Emit (status_updated _) | Emit paused => true
  | _ => false
  end.

(** Effects other than stopping, signalling or awaiting the child,
    removing a file and sleeping. *)
Definition no_cleanup (e : effect) : bool :=
  match e with
  | Terminate | Wait | SendSignal _ | Remove _ | Msleep _ => false
  | _ => true
  end.

(** Whether a job gets as far as starting the child. *)
Definition starts_child (env : job_env) : bool :=
  negb (eq_zero (get_video_duration env))
  && match popen_error env with
     | None => true
     | Some _ => false
     end.

(** What handling lines between pauses can do. *)
Definition calm_effect (e : effect) : bool :=
  pause_effect e || line_effect e.

(** [w'] continues [w] by pausing, resuming and sleeping only: the
    job, the cancel flag, the child and the output file are the same. *)
Definition undisturbed (w w' : world) : Prop :=
  extends pause_effect w w' /\
  same_job (self w) (self w') /\
  is_cancelled (self w') = is_cancelled (self w) /\
  process (self w') = process (self w) /\
  output_exists w' = output_exists w.

(** [w'] continues [w] by handling lines between pauses, and adds
    the progress events [ps]. *)
Definition calm_stretch (w w' : world) (ps : list Z) : Prop :=
  same_job (self w) (self w') /\
  is_cancelled (self w') = is_cancelled (self w) /\
  exists tr,
    trace w' = (trace w ++ tr)%list /\
    forallb calm_effect tr = true /\
    progress_events tr = ps.

(** Effects that are neither a progress event nor a terminal event. *)
Definition silent (e : effect) : bool := not_progress e && not_terminal e.

(** ** How a job ends *)

(** The ways out of [run] for a job that was not cancelled before it
    started, in the order of the source.  [Pre] holds of the world
    where the job stops before the child exists, [Post] where it stops
    after. *)
Inductive ending (env : job_env) (Pre Post : world -> Prop)
  : outcome -> Prop :=
| EndNoDuration (w : world) :
    Pre w -> eq_zero (get_video_duration env) = true ->
    ending env Pre Post
      (Returned
         (emit (finished false "Could not determine video duration") w))
| EndNotStarted (w : world) :
    Pre w -> eq_zero (get_video_duration env) = false ->
    is_cancelled (self w) = true ->
    ending env Pre Post (Returned w)
| EndPopenFailed (w : world) (msg : string) :
    Pre w -> eq_zero (get_video_duration env) = false ->
    popen_error env = Some msg ->
    ending env Pre Post
      (Returned (emit (finished false (str_exn (OSError msg))) w))
| EndAsleep (w : world) :
    Post w -> is_paused (self w) = true -> is_cancelled (self w) = false ->
    ending env Pre Post (Sleeping w)
| EndRaised (w : world) (e : pyexn) :
    Post w -> is_cancelled (self w) = false ->
    ending env Pre Post (Returned (emit (finished false (str_exn e)) w))
| EndFinished (w : world) :
    Post w -> is_cancelled (self w) = false ->
    ending env Pre Post (Returned (finish env w))
| EndCancelled (w : world) :
    Post w -> is_cancelled (self w) = true ->
    ending env Pre Post (Returned (cancel_processing env w)).

(** The calls of the first two ticks, made before the child exists,
    all satisfy [before]; the later ones all satisfy [after]. *)
Definition schedule_within (before after : user_action -> bool)
    (sch : schedule) : bool :=
  forallb (forallb before) (firstn 2 sch)
  && forallb (forallb after) (skipn 2 sch).

(** The request of a processor: what the command is built from. *)
Definition same_request (p q : processor) : Prop :=
  input_path p = input_path q /\ output_path p = output_path q /\
  take_duration p = take_duration q /\ skip_duration p = skip_duration q.

(** The terminal event of a cancellation. *)
Definition cancel_event : bool * string :=
  (false, "Processing was cancelled by user").

(** The command a job runs, if it gets that far. *)
Definition job_command (env : job_env) (p : processor) : list string :=
  build_command (ffmpeg_path env) p
    (fst (get_optimal_encoder env)) (snd (get_optimal_encoder env)).

Definition any_action (a : user_action) : bool := true.

Definition no_action (a : user_action) : bool := false.

Definition not_cancel (a : user_action) : bool := negb (is_cancel a).

(** Effects other than signalling, stopping or awaiting the child. *)
Definition no_signal (e : effect) : bool :=
  match e with
  | SendSignal _ | Terminate | Wait => false
  | _ => true
  end.

(** The terminal events so far are cancellations, at least one of them
    when the cancel flag is set. *)
Definition cancel_counted (w : world) : Prop :=
  exists k,
    terminal_events (trace w) = repeat cancel_event k /\
    (is_cancelled (self w) = true -> (1 <= k)%nat).

(** ** The main window: starting a batch, the pause button *)

Module Window.

(** [start_processing], up to its call of [process_next_file];
    [output_dir] is what the directory dialog returns, the empty
    string when it is dismissed.  [None]: the method returned early. *)
Definition start_processing (output_dir : string) (c : cutter)
  : option cutter :=
  match selected_files c with
  | [] => None
  | _ :: _ =>
      match output_dir with
      | EmptyString => None
      | _ =>
          Some {| selected_files := selected_files c;
                  output_directory := output_dir;
                  take_spin := take_spin c; skip_spin := skip_spin c;
                  current_processing := 0;
                  is_processing := true; gui_is_paused := false;
                  log_text := log_text c |}
      end
  end.

(** [pause_processing] of the window: the button toggles.  The second
    component is [self.processor], [None] before the first job. *)
Definition pause_processing (c : cutter) (processor : option world)
  : cutter * option world :=
  match processor with
  | Some w =>
      if is_processing c then
        if negb (gui_is_paused c)
        then (set_flags (is_processing c) true c, Some (pause_processing w))
        else (set_flags (is_processing c) false c,
              Some (resume_processing w))
      else (c, processor)
  | None => (c, processor)
  end.

(** The text [update_preview] puts in the command box. *)
Definition update_preview (take skip : Z) : string :=
  let cycle := take + skip in
  "ffmpeg -i input.mp4 \" ++ String "010"
    ("  -vf " ++ String "034" ("select='between(mod(t," ++ Text.str cycle
     ++ "),0," ++ Text.str take ++ ")', setpts=N/FRAME_RATE/TB"
     ++ String "034" (" \" ++ String "010"
    ("  -af " ++ String "034" ("aselect='between(mod(t," ++ Text.str cycle
     ++ "),0," ++ Text.str take ++ ")', asetpts=N/SR/TB"
     ++ String "034" (" \" ++ String "010"
    ("  -avoid_negative_ts make_zero \" ++ String "010"
    ("  -max_muxing_queue_size 9999 \" ++ String "010"
    ("  -progress pipe:1 \" ++ String "010"
     "  output.mp4"))))))))).

End Window.

(** [n] clicks on the pause button. *)
Fixpoint pause_clicks (n : nat) (c : cutter) (processor : option world)
  : cutter * option world :=
  match n with
  | O => (c, processor)
  | S n' =>
      let (c, processor) := Window.pause_processing c processor in
      pause_clicks n' c processor
  end.

Definition all_done_line : string := "🎉 All files processed successfully!".

Section BatchStart.

Variable basename : string -> string.
Variable splitext_root : string -> string.
Variable path_join : string -> string -> string.
Variable size_report : cutter -> option string.

(** [start_processing] and the batch it sets off, left alone. *)
Definition start_batch (fuel : nat) (envs : nat -> job_env)
    (output_dir : string) (c : cutter)
  : cutter * list (processor * list effect) :=
  match Window.start_processing output_dir c with
  | None => (c, [])
  | Some c => run_batch basename splitext_root path_join size_report
                fuel envs c
  end.

End BatchStart.

(** ** Dropped files *)

Module DropZone.

(** [str.lower] on ASCII. *)
Definition lower_char (c : ascii) : ascii :=
  let n := N_of_ascii c in
  if ((65 <=? n) && (n <=? 90))%N then ascii_of_N (n + 32) else c.

Fixpoint lower (s : string) : string :=
  match s with
  | EmptyString => EmptyString
  | String c rest => String (lower_char c) (lower rest)
  end.

(** [s.endswith(suffix)] *)
Fixpoint endswith (suffix s : string) : bool :=
  if (s =? suffix)%string then true
  else match s with
       | EmptyString => false
       | String _ rest => endswith suffix rest
       end.

Definition video_suffixes : list string :=
  [".mp4"; ".avi"; ".mov"; ".mkv"; ".webm"; ".flv"; ".wmv"].

(** [file_path.lower().endswith((...))] *)
Definition is_video (file_path : string) : bool :=
  existsb (fun suffix => endswith suffix (lower file_path)) video_suffixes.

(** [dropEvent]: the local paths of the dropped URLs, in order; the
    result is the payload of [files_dropped] when it is emitted. *)
Definition dropEvent (local_files : list string) : option (list string) :=
  let files :=
    fold_left (fun files file_path =>
                 if is_video file_path then (files ++ [file_path])%list
                 else files)
      local_files [] in
  match files with
  | [] => None
  | _ :: _ => Some files
  end.

End DropZone.

(** ** Where the tools are *)

Section ToolPaths.

(** [os.path.join] of two components and [os.path.exists]. *)
Variable path_join : string -> string -> string.
Variable path_exists : string -> bool.
(** [sys._MEIPASS] when the program runs frozen in a bundle. *)
Variable bundle_dir : option string.
(** The directory of [main.py]. *)
Variable script_dir : string.

Definition get_ffmpeg_path : string :=
  let from_script :=
    let assets_ffmpeg := path_join (path_join script_dir "assets") "ffmpeg" in
    if path_exists assets_ffmpeg then assets_ffmpeg else "ffmpeg" in
  match bundle_dir with
  | Some bundle_dir =>
      let assets_ffmpeg :=
        path_join (path_join bundle_dir "assets") "ffmpeg" in
      if path_exists assets_ffmpeg then assets_ffmpeg
      else
        let ffmpeg_path := path_join bundle_dir "ffmpeg" in
        if path_exists ffmpeg_path then ffmpeg_path else from_script
  | None => from_script
  end.

Definition get_ffprobe_path : string :=
  let from_script :=
    let assets_ffprobe :=
      path_join (path_join script_dir "assets") "ffprobe" in
    if path_exists assets_ffprobe then assets_ffprobe else "ffprobe" in
  match bundle_dir with
  | Some bundle_dir =>
      let assets_ffprobe :=
        path_join (path_join bundle_dir "assets") "ffprobe" in
      if path_exists assets_ffprobe then assets_ffprobe
      else
        let ffprobe_path := path_join bundle_dir "ffprobe" in
        if path_exists ffprobe_path then ffprobe_path else from_script
  | None => from_script
  end.

End ToolPaths.

(** The five encoders the selector can return, with the acceleration
    flag and the tuning options their command carries. *)
Definition command_shapes
  : list (string * string * list string * list string) :=
  [("libx264", "auto", [], ["-preset"; "fast"; "-crf"; "23"]);
   ("h264_videotoolbox", "videotoolbox", ["-hwaccel"; "videotoolbox"],
    ["-b:v"; "5000k"; "-allow_sw"; "1"]);
   ("h264_nvenc", "cuda", ["-hwaccel"; "cuda"],
    ["-preset"; "fast"; "-cq"; "23"]);
   ("h264_qsv", "qsv", ["-hwaccel"; "qsv"],
    ["-preset"; "fast"; "-global_quality"; "23"]);
   ("h264_vaapi", "vaapi", ["-hwaccel"; "vaapi"], [])].

(** The signals that [n] clicks on the pause button deliver to the
    child, starting from the given state of the paused flag. *)
Fixpoint toggles (n : nat) (is_paused : bool) : list os_signal :=
  match n with
  | O => []
  | S n' =>
      (if is_paused then SIGCONT else SIGSTOP) :: toggles n' (negb is_paused)
  end.

(** The places where a tool is looked for, in order. *)
Definition candidates (path_join : string -> string -> string)
    (bundle_dir : option string) (script_dir name : string) : list string :=
  (match bundle_dir with
   | Some bundle_dir =>
       [path_join (path_join bundle_dir "assets") name;
        path_join bundle_dir name]
   | None => []
   end ++ [path_join (path_join script_dir "assets") name])%list.

(** * The build script, [build.py]

    What the script does to the machine is recorded as a list of
    actions; what the machine answers is a [host].  Paths are the
    strings the script passes around; [os.path.join] and the directory
    of the script are left open. *)

Module Build.

Inductive action : Type :=
| Print (text : string)
| PipInstall                        (* pip install pyinstaller, check=True *)
| Rmtree (path : string)
| Remove (path : string)
| PyInstaller (cmd : list string)   (* subprocess.run(cmd, check=True) *)
| WriteFile (path content : string)
| Chmod (path : string) (mode : Z).

(** The exceptions that nothing in the script catches. *)
Inductive exn : Type :=
| PipFailed               (* CalledProcessError of the pip call *)
| RemovalFailed (path : string)
| NotStarted              (* the pyinstaller command is not there *)
| WriteFailed (path : string).

(** How the PyInstaller run ends. *)
Inductive run_result : Type :=
| Exit0
| ExitNonZero (shown stderr : string)  (* str(e) and e.stderr *)
| Missing.

Record host : Type := {
  pyinstaller_version : option string;  (* None: the import fails *)
  pip_install_ok : bool;
  pyqt6_found : bool;
  removal_ok : string -> bool;
  pyinstaller_run : run_result;
  (** The files after PyInstaller ran, from the files before. *)
  after_pyinstaller : (string -> bool) -> string -> bool;
  absolute : string -> string;          (* str(Path(p).absolute()) *)
  folder_size : string;                 (* get_folder_size(..), as .1f *)
  launcher_writable : bool
}.

(** The files that exist, and everything done so far, oldest first. *)
Record state : Type := {
  files : string -> bool;
  done : list action
}.

Inductive outcome (A : Type) : Type :=
| Done (a : A) (s : state)
| Crash (e : exn) (s : state).
Arguments Done {A} a s.
Arguments Crash {A} e s.

Definition final_state {A : Type} (o : outcome A) : state :=
  match o with
  | Done _ s | Crash _ s => s
  end.

Definition act (a : action) (s : state) : state :=
  {| files := files s; done := done s ++ [a] |}.

Definition say (text : string) (s : state) : state := act (Print text) s.

(** [path] itself or something below it. *)
Definition under (path p : string) : bool :=
  (p =? path)%string || prefix (path ++ "/") p.

(** [if os.path.exists(path): shutil.rmtree(path)] *)
Definition rmtree_if_exists (h : host) (path : string) (s : state)
  : outcome unit :=
  if files s path then
    let s := act (Rmtree path) s in
    if removal_ok h path
    then Done tt {| files := fun p => files s p && negb (under path p);
                    done := done s |}
    else Crash (RemovalFailed path) s
  else Done tt s.

(** [if os.path.exists(path): os.remove(path)] *)
Definition remove_if_exists (h : host) (path : string) (s : state)
  : outcome unit :=
  if files s path then
    let s := act (Remove path) s in
    if removal_ok h path
    then Done tt {| files := fun p => files s p && negb (p =? path)%string;
                    done := done s |}
    else Crash (RemovalFailed path) s
  else Done tt s.

Definition launcher_content : string :=
  "#!/bin/bash" ++ String "010"
  ("# VideoCutter Launcher" ++ String "010"
  ("echo " ++ String "034" ("🚀 Starting VideoCutter..." ++ String "034"
  (String "010"
  ("cd " ++ String "034" ("$(dirname " ++ String "034" ("$0"
     ++ String "034" (")" ++ String "034" (String "010"
  ("./dist/VideoCutter/VideoCutter" ++ String "010" "")))))))))).

(** [create_launcher] *)
Definition create_launcher (h : host) (s : state) : outcome unit :=
  if launcher_writable h then
    let s := act (WriteFile "run_videocutter.sh" launcher_content) s in
    let s := {| files := fun p => (p =? "run_videocutter.sh")%string
                                  || files s p;
                done := done s |} in
    let s := act (Chmod "run_videocutter.sh" 493) s in
    Done tt (say "✅ Created launcher script: run_videocutter.sh" s)
  else Crash (WriteFailed "run_videocutter.sh") s.

(** [check_dependencies] *)
Definition check_dependencies (h : host) (s : state) : outcome bool :=
  let s := say "🔍 Checking dependencies..." s in
  let checked :=
    match pyinstaller_version h with
    | Some version => Done tt (say ("✅ PyInstaller found: " ++ version) s)
    | None =>
        let s := say "❌ PyInstaller not found. Installing..." s in
        let s := act PipInstall s in
        if pip_install_ok h then Done tt (say "✅ PyInstaller installed" s)
        else Crash PipFailed s
    end in
  match checked with
  | Crash e s => Crash e s
  | Done _ s =>
      if pyqt6_found h then Done true (say "✅ PyQt6 found" s)
      else Done false
             (say "❌ PyQt6 not found. Please install with: pip install PyQt6"
                s)
  end.

(** The PyInstaller command before the icon is looked for. *)
Definition full_cmd (ffmpeg_path ffprobe_path : string) : list string :=
  ["pyinstaller"; "--onedir"; "--windowed"; "--name=VideoCutter";
   "--icon=app_icon.icns";
   "--add-binary"; ffmpeg_path ++ ":.";
   "--add-binary"; ffprobe_path ++ ":.";
   "--add-data"; "assets:assets";
   "--hidden-import"; "PyQt6.QtCore";
   "--hidden-import"; "PyQt6.QtGui";
   "--hidden-import"; "PyQt6.QtWidgets";
   "--clean"; "main.py"].

Section Script.

Variable path_join : string -> string -> string.
(** [os.path.dirname(os.path.abspath(__file__))] *)
Variable script_dir : string.

(** [find_ffmpeg_path]; [None] is the pair [(None, None)]. *)
Definition find_ffmpeg_path (s : state) : option (string * string) * state :=
  let assets_dir := path_join script_dir "assets" in
  let ffmpeg_path := path_join assets_dir "ffmpeg" in
  let ffprobe_path := path_join assets_dir "ffprobe" in
  if negb (files s ffmpeg_path) || negb (files s ffprobe_path) then
    let s := say "❌ Error: FFmpeg or FFprobe not found in assets folder" s in
    let s :=
      say "Please ensure FFmpeg binaries are copied to assets/ folder" s in
    (None, s)
  else
    let s := say ("✅ Found FFmpeg at: " ++ ffmpeg_path) s in
    let s := say ("✅ Found FFprobe at: " ++ ffprobe_path) s in
    (Some (ffmpeg_path, ffprobe_path), s).

(** The [try] block of [build_app]. *)
Definition run_pyinstaller (h : host) (cmd : list string) (s : state)
  : outcome bool :=
  let s := act (PyInstaller cmd) s in
  match pyinstaller_run h with
  | Missing => Crash NotStarted s
  | ExitNonZero shown stderr =>
      let s := say ("❌ Build failed with error: " ++ shown) s in
      Done false (say ("Error output: " ++ stderr) s)
  | Exit0 =>
      let s := {| files := after_pyinstaller h (files s); done := done s |} in
      let s := say "✅ Build completed successfully!" s in
      if files s "dist/VideoCutter" then
        let s := say ("📱 Application built at: "
                        ++ absolute h "dist/VideoCutter") s in
        let s := say ("📊 Application size: " ++ folder_size h ++ " MB") s in
        match create_launcher h s with
        | Crash e s => Crash e s
        | Done _ s => Done true s
        end
      else
        Done false
          (say "❌ Build failed: Application not found in dist folder" s)
  end.

(** [build_app] *)
Definition build_app (h : host) (s : state) : outcome bool :=
  let s := say "🚀 Starting build process..." s in
  match find_ffmpeg_path s with
  | (None, s) => Done false s
  | (Some (ffmpeg_path, ffprobe_path), s) =>
      if (ffmpeg_path =? "")%string || (ffprobe_path =? "")%string
      then Done false s
      else
        match check_dependencies h s with
        | Crash e s => Crash e s
        | Done false s => Done false s
        | Done true s =>
            let s := say "🧹 Cleaning previous builds..." s in
            match rmtree_if_exists h "dist" s with
            | Crash e s => Crash e s
            | Done _ s =>
            match rmtree_if_exists h "build" s with
            | Crash e s => Crash e s
            | Done _ s =>
            match remove_if_exists h "main.spec" s with
            | Crash e s => Crash e s
            | Done _ s =>
                let cmd := full_cmd ffmpeg_path ffprobe_path in
                let cmd :=
                  if negb (files s "app_icon.icns")
                  then filter (fun arg => negb (prefix "--icon" arg)) cmd
                  else cmd in
                let s := say "📦 Running PyInstaller..." s in
                let s := say ("Command: " ++ concat " " cmd) s in
                run_pyinstaller h cmd s
            end end end
        end
  end.

End Script.

(** Actions that change no file and start no build. *)
Definition harmless (a : action) : bool :=
  match a with
  | Print _ | PipInstall => true
  | _ => false
  end.

Definition is_cleaning (a : action) : bool :=
  match a with
  | Rmtree _ | Remove _ => true
  | _ => false
  end.

End Build.

(** ** Reading conventions made explicit *)

(** Text made of ASCII characters only.  On such text the [\d] of the
    patterns is ['0'..'9'] and white space is the ASCII white space,
    which is how [Text] reads them; a character outside ASCII arrives
    as the bytes of its UTF-8 encoding, each of them 128 or more. *)
Fixpoint is_ascii (s : string) : bool :=
  match s with
  | EmptyString => true
  | String c rest => (N_of_ascii c <? 128)%N && is_ascii rest
  end.

(** The child prints ASCII text only. *)
Definition ascii_output (env : job_env) : bool :=
  forallb is_ascii (stdout_lines env).

(** The number a finite float stands for. *)
Definition float_value (x : float) : Q :=
  match x with
  | S754_finite s m e => (inject_Z (cond_Zopp s (Zpos m)) * (2 # 1) ^ e)%Q
  | _ => 0%Q
  end.

(** The percent in the words of the specification, read in exact
    arithmetic: min(100, floor(elapsed / total_duration * 100)). *)
Definition exact_percent (elapsed total : Q) : Z :=
  Z.min 100 (Qfloor (elapsed / total * 100)%Q).

(** * Properties *)

(** ** Progress parser *)

Lemma strip_prefix_spec (lit s r : string) :
  strip_prefix lit s = Some r <-> s = lit ++ r.
Proof.
  revert s; induction lit as [|a lit IH]; intros s; simpl.
  - split; congruence.
  - destruct s as [|b s'].
    + split; discriminate.
    + destruct (Ascii.eqb_spec a b) as [->|Hne].
      * rewrite IH. split; congruence.
      * split; [discriminate | intros H; inversion H; congruence].
Qed.

Lemma two_digits_spec (s r : string) (n : Z) :
  two_digits s = Some (n, r) <->
  exists a b, s = String a (String b r) /\
              Text.is_digit a = true /\ Text.is_digit b = true /\
              n = int2 a b.
Proof.
  unfold two_digits, int2. split.
  - destruct s as [|a [|b rest]]; try discriminate.
    destruct (Text.is_digit a) eqn:Ha; try discriminate.
    destruct (Text.is_digit b) eqn:Hb; try discriminate.
    simpl. intros H; inversion H; subst. eauto 6.
  - intros (a & b & -> & Ha & Hb & ->). now rewrite Ha, Hb.
Qed.

Lemma match_time_spec (s : string) (g : time_groups) :
  match_time s = Some g <-> stamp_at s 0 g.
Proof.
  split.
  - unfold match_time. intros H.
    destruct (strip_prefix "time=" s) as [s1|] eqn:E1; try discriminate.
    destruct (two_digits s1) as [[h s2]|] eqn:E2; try discriminate.
    destruct (strip_prefix ":" s2) as [s3|] eqn:E3; try discriminate.
    destruct (two_digits s3) as [[m s4]|] eqn:E4; try discriminate.
    destruct (strip_prefix ":" s4) as [s5|] eqn:E5; try discriminate.
    destruct (two_digits s5) as [[sec s6]|] eqn:E6; try discriminate.
    destruct (strip_prefix "." s6) as [s7|] eqn:E7; try discriminate.
    destruct (two_digits s7) as [[ms s8]|] eqn:E8; try discriminate.
    apply strip_prefix_spec in E1, E3, E5, E7.
    apply two_digits_spec in E2, E4, E6, E8.
    destruct E2 as (a & b & -> & Ha & Hb & ->).
    destruct E4 as (c & d & -> & Hc & Hd & ->).
    destruct E6 as (e & f & -> & He & Hf & ->).
    destruct E8 as (i & j & -> & Hi & Hj & ->).
    subst. inversion H; subst; clear H.
    exists EmptyString, a, b, c, d, e, f, i, j, s8.
    repeat split. simpl. now rewrite Ha, Hb, Hc, Hd, He, Hf, Hi, Hj.
  - intros (pre & a & b & c & d & e & f & i & j & post & -> & Hlen & Hd & ->).
    destruct pre; [|discriminate]. simpl in Hd |- *.
    repeat (apply andb_prop in Hd; destruct Hd as [?H Hd]).
    unfold match_time, two_digits. cbn.
    repeat match goal with
           | H : Text.is_digit _ = true |- _ => rewrite H; clear H; cbn
           end.
    reflexivity.
Qed.

Lemma stamp_at_tail (c : ascii) (rest : string) (k : nat) (g : time_groups) :
  stamp_at (String c rest) (S k) g <-> stamp_at rest k g.
Proof.
  split.
  - intros (pre & a & b & c' & d & e & f & i & j & post & Hl & Hlen & Hd & Hg).
    destruct pre as [|c0 pre]; [discriminate|].
    simpl in Hl, Hlen. inversion Hl; subst c0.
    exists pre, a, b, c', d, e, f, i, j, post. repeat split; auto.
  - intros (pre & a & b & c' & d & e & f & i & j & post & -> & Hlen & Hd & Hg).
    exists (String c pre), a, b, c', d, e, f, i, j, post.
    repeat split; simpl; auto.
Qed.

Lemma stamp_at_empty (k : nat) (g : time_groups) : ~ stamp_at EmptyString k g.
Proof.
  intros (pre & a & b & c & d & e & f & i & j & post & Hl & _).
  destruct pre; discriminate.
Qed.

(** [search_time] finds the leftmost timestamp, and only that. *)
Lemma search_time_some (line : string) (g : time_groups) :
  search_time line = Some g <->
  exists k, stamp_at line k g /\
            forall k' g', stamp_at line k' g' -> (k <= k')%nat.
Proof.
  induction line as [|c rest IH].
  - simpl. destruct (match_time EmptyString) as [g0|] eqn:E.
    + apply match_time_spec in E. now apply stamp_at_empty in E.
    + split; [discriminate|].
      intros (k & H & _). now apply stamp_at_empty in H.
  - simpl. destruct (match_time (String c rest)) as [g0|] eqn:E.
    + apply match_time_spec in E. split.
      * intros H; inversion H; subst. exists O. split; auto. intros; lia.
      * intros (k & Hk & Hmin). specialize (Hmin _ _ E).
        assert (k = O) by lia. subst k.
        apply match_time_spec in Hk, E. congruence.
    + rewrite IH. split.
      * intros (k & Hk & Hmin). exists (S k). split.
        -- now apply stamp_at_tail.
        -- intros [|k'] g' H'.
           ++ apply match_time_spec in H'. congruence.
           ++ apply stamp_at_tail in H'. specialize (Hmin _ _ H'). lia.
      * intros ([|k] & Hk & Hmin).
        -- apply match_time_spec in Hk. congruence.
        -- exists k. split; [now apply stamp_at_tail in Hk|].
           intros k' g' H'. apply stamp_at_tail with (c := c) in H'.
           specialize (Hmin _ _ H'). lia.
Qed.

Lemma search_time_none (line : string) :
  search_time line = None <-> forall k g, ~ stamp_at line k g.
Proof.
  induction line as [|c rest IH].
  - simpl. destruct (match_time EmptyString) as [g0|] eqn:E.
    + apply match_time_spec in E. now apply stamp_at_empty in E.
    + split; auto. intros _ k g. apply stamp_at_empty.
  - simpl. destruct (match_time (String c rest)) as [g0|] eqn:E.
    + apply match_time_spec in E. split; [discriminate|].
      intros H. now apply H in E.
    + rewrite IH. split.
      * intros H [|k] g Hk.
        -- apply match_time_spec in Hk. congruence.
        -- apply stamp_at_tail in Hk. now apply H in Hk.
      * intros H k g Hk. apply (H (S k) g). now apply stamp_at_tail.
Qed.

Lemma current_time_of_ok (g : time_groups) :
  current_time_of g = Ok (elapsed_seconds g).
Proof. reflexivity. Qed.



(** ** Encoder selector *)

(** C6. When the capability probe fails, or when the capability list
    names none of the hardware encoders, the selector returns the
    software encoder with the acceleration mode for which the command
    carries no acceleration flag (the source spells it 'auto'), on
    every platform; otherwise it returns the first entry of the
    platform's preference order that the list mentions, the software
    encoder closing every order. *)
Theorem get_optimal_encoder_first_match (env : job_env) :
  (encoders env = None -> get_optimal_encoder env = software_encoder) /\
  (forall encs, encoders env = Some encs ->
     (forall id, In id hardware_encoders -> Text.contains id encs = false) ->
     get_optimal_encoder env = software_encoder) /\
  (forall encs, encoders env = Some encs ->
     get_optimal_encoder env
     = first_match (preference (platform_system env)) encs) /\
  (forall ffmpeg p,
     exists rest,
       build_command ffmpeg p (fst software_encoder) (snd software_encoder)
       = ffmpeg :: "-i" :: input_path p :: rest).
Proof.
  unfold get_optimal_encoder, software_encoder. repeat split.
  - intros ->. reflexivity.
  - intros encs -> Hnone.
    assert (Text.contains "h264_videotoolbox" encs = false) as ->
        by (apply Hnone; simpl; auto).
    assert (Text.contains "h264_nvenc" encs = false) as ->
        by (apply Hnone; simpl; auto).
    assert (Text.contains "h264_qsv" encs = false) as ->
        by (apply Hnone; simpl; auto).
    assert (Text.contains "h264_vaapi" encs = false) as ->
        by (apply Hnone; simpl; auto 6).
    now repeat match goal with |- context [if ?b then _ else _] =>
                                 destruct b end.
  - intros encs ->. unfold first_match, preference.
    destruct (platform_system env =? "Darwin")%string; simpl.
    { now destruct (Text.contains "h264_videotoolbox" encs). }
    destruct (platform_system env =? "Windows")%string; simpl.
    { destruct (Text.contains "h264_nvenc" encs); auto.
      now destruct (Text.contains "h264_qsv" encs). }
    destruct (platform_system env =? "Linux")%string; simpl; auto.
    destruct (Text.contains "h264_nvenc" encs); auto.
    now destruct (Text.contains "h264_vaapi" encs).
  - intros ffmpeg p. eexists. reflexivity.
Qed.

(** ** Command builder *)

Lemma Qfloor_unique (z : Z) (q : Q) :
  (inject_Z z <= q)%Q -> (q < inject_Z (z + 1))%Q -> Qfloor q = z.
Proof.
  intros Hlo Hhi.
  pose proof (Qfloor_le q) as H1. pose proof (Qlt_floor q) as H2.
  assert (inject_Z z < inject_Z (Qfloor q + 1))%Q as H3
      by (eapply Qle_lt_trans; eauto).
  assert (inject_Z (Qfloor q) < inject_Z (z + 1))%Q as H4
      by (eapply Qle_lt_trans; eauto).
  rewrite <- Zlt_Qlt in H3, H4. lia.
Qed.

(** The tool's [mod] returns the remainder [r] of [k*c + r]. *)
Lemma fmod_decompose (k : Z) (c r : Q) :
  (0 < c)%Q -> (0 <= r)%Q -> (r < c)%Q ->
  (FFExpr.fmod (inject_Z k * c + r) c == r)%Q.
Proof.
  intros Hc Hr0 Hrc. unfold FFExpr.fmod.
  assert (Qfloor ((inject_Z k * c + r) / c) = k) as ->.
  { apply Qfloor_unique.
    - apply Qle_shift_div_l; auto.
      rewrite <- (Qplus_0_r (inject_Z k * c)) at 1.
      apply Qplus_le_r; auto.
    - apply Qlt_shift_div_r; auto.
      rewrite inject_Z_plus, Qmult_plus_distr_l.
      apply Qplus_lt_r. now rewrite Qmult_1_l. }
  ring.
Qed.

Lemma selects_select_expr (cycle_duration take : Z) (t : Q) :
  FFExpr.selects (select_expr cycle_duration take) t = true <->
  (0 <= FFExpr.fmod t (inject_Z cycle_duration) /\
   FFExpr.fmod t (inject_Z cycle_duration) <= inject_Z take)%Q.
Proof.
  unfold FFExpr.selects, select_expr. simpl FFExpr.eval.
  rewrite <- !Qle_bool_iff.
  change (inject_Z 0) with 0%Q.
  destruct (Qle_bool 0 _), (Qle_bool _ (inject_Z take));
    cbn; intuition congruence.
Qed.

Lemma append_assoc (a b c : string) : (a ++ b) ++ c = a ++ (b ++ c).
Proof. induction a; simpl; congruence. Qed.

(** Both filter strings are the concrete syntax of [select_expr]. *)
Lemma filters_show (cycle_duration take : Z) :
  select_filter cycle_duration take
  = "select='" ++ FFExpr.show (select_expr cycle_duration take)
      ++ "', setpts=N/FRAME_RATE/TB" /\
  aselect_filter cycle_duration take
  = "aselect='" ++ FFExpr.show (select_expr cycle_duration take)
      ++ "', asetpts=N/SR/TB".
Proof.
  unfold select_filter, aselect_filter. cbn [select_expr FFExpr.show].
  change (Text.str 0) with "0".
  split; repeat (rewrite ?append_assoc; cbn [append]); reflexivity.
Qed.

(** C1 (amended). For take >= 1 and skip >= 1 the builder sets
    cycle = take + skip and emits, for video and for audio, the
    expression [between(mod(t,cycle),0,take)]: a sample whose timestamp
    is [k*cycle + r] with [0 <= r < cycle] is retained exactly when [r]
    lies in the closed interval [0, take], so no sample with [r] in
    the open (take, cycle) is selected; for take = 5 and skip = 10 the
    video argument is [select='between(mod(t,15),0,5)', ...]. *)
Theorem build_command_selects_closed_window
    (ffmpeg : string) (p : processor) (video_encoder hwaccel : string)
    (k : Z) (r : Q) :
  1 <= take_duration p -> 1 <= skip_duration p ->
  (0 <= r)%Q -> (r < inject_Z (take_duration p + skip_duration p))%Q ->
  let cycle := take_duration p + skip_duration p in
  let e := select_expr cycle (take_duration p) in
  let vf := "select='" ++ FFExpr.show e ++ "', setpts=N/FRAME_RATE/TB" in
  let af := "aselect='" ++ FFExpr.show e ++ "', asetpts=N/SR/TB" in
  (exists pre post : list string,
     build_command ffmpeg p video_encoder hwaccel
     = (pre ++ ["-vf"; vf; "-af"; af] ++ post)%list) /\
  (FFExpr.selects e (inject_Z k * inject_Z cycle + r) = true
   <-> (r <= inject_Z (take_duration p))%Q) /\
  ((inject_Z (take_duration p) < r)%Q ->
   FFExpr.selects e (inject_Z k * inject_Z cycle + r) = false) /\
  select_filter (5 + 10) 5
  = "select='between(mod(t,15),0,5)', setpts=N/FRAME_RATE/TB".
Proof.
  intros Htake Hskip Hr0 Hrc cycle e vf af.
  assert (0 < inject_Z cycle)%Q as Hc.
  { change 0%Q with (inject_Z 0). rewrite <- Zlt_Qlt. unfold cycle. lia. }
  assert (FFExpr.selects e (inject_Z k * inject_Z cycle + r) = true
          <-> (r <= inject_Z (take_duration p))%Q) as Hsel.
  { unfold e. rewrite selects_select_expr.
    rewrite (fmod_decompose k (inject_Z cycle) r Hc Hr0 Hrc). tauto. }
  repeat split.
  - destruct (filters_show cycle (take_duration p)) as [Hv Ha].
    unfold build_command. fold cycle. rewrite Hv, Ha. fold e vf af.
    exists ([ffmpeg]
              ++ (if (hwaccel =? "auto")%string then []
                  else ["-hwaccel"; hwaccel])
              ++ ["-i"; input_path p] ++ ["-threads"; "0"])%list.
    eexists. rewrite <- !app_assoc. reflexivity.
  - apply Hsel.
  - apply Hsel.
  - intros Hlt. destruct (FFExpr.selects e _) eqn:E; auto.
    exfalso. eapply Qlt_not_le; [exact Hlt | now apply Hsel].
Qed.

Lemma build_command_selects_closed_window_witness :
  1 <= 5 /\ 1 <= 10 /\ (0 <= 5)%Q /\ (5 < inject_Z (5 + 10))%Q /\
  (FFExpr.selects (select_expr (5 + 10) 5)
     (inject_Z 1 * inject_Z (5 + 10) + 5) = true
   <-> (5 <= inject_Z 5)%Q).
Proof.
  assert (1 <= 5) as H1 by lia.
  assert (1 <= 10) as H2 by lia.
  assert (0 <= 5)%Q as H3 by (unfold Qle; simpl; lia).
  assert (5 < inject_Z (5 + 10))%Q as H4 by (unfold Qlt; simpl; lia).
  repeat split; auto;
    apply (build_command_selects_closed_window "ffmpeg"
             (new_processor "in.mp4" "out.mp4" 5 10) "libx264" "auto"
             1 5 H1 H2 H3 H4).
Defined.

(** C1, as stated, fails at the boundary: with take = 5 and skip = 10
    the sample at t = 5 has 5 mod 15 = 5, outside the half-open
    [0, 5), and the emitted expression selects it. *)
Lemma select_filter_keeps_boundary_sample :
  select_filter (5 + 10) 5
  = "select='" ++ FFExpr.show (select_expr (5 + 10) 5)
      ++ "', setpts=N/FRAME_RATE/TB" /\
  FFExpr.selects (select_expr (5 + 10) 5) 5 = true /\
  ~ retained_half_open 5 10 5.
Proof.
  repeat split.
  intros [_ H]. vm_compute in H. discriminate.
Qed.

(** ** Percent *)

(** Rounding keeps the sign it is given. *)
Lemma binary_round_aux_sign (s : bool) (m e : Z) (l : location) :
  match binary_round_aux PyFloat.prec PyFloat.emax s m e l with
  | S754_zero s' | S754_finite s' _ _ | S754_infinity s' => s' = s
  | S754_nan => True
  end.
Proof.
  unfold binary_round_aux.
  destruct (shr_fexp _ _ m e l) as [mrs' e'].
  destruct (shr_fexp _ _ _ e' loc_Exact) as [mrs'' e''].
  destruct (shr_m mrs''); auto.
  destruct (Z.leb e'' _); auto.
Qed.

Lemma binary_round_aux_nonneg (m e : Z) (l : location) :
  nonneg_shape (binary_round_aux PyFloat.prec PyFloat.emax false m e l).
Proof.
  pose proof (binary_round_aux_sign false m e l) as H.
  destruct (binary_round_aux _ _ false m e l); simpl; subst; auto.
Qed.

Lemma nonneg_cases (x : float) :
  PyFloat.nonneg x = true ->
  (exists s, x = S754_zero s) \/ (exists m e, x = S754_finite false m e)
  \/ x = S754_infinity false.
Proof.
  destruct x as [s|[|]| |[|] m e]; try discriminate; eauto.
Qed.

Lemma positive_cases (x : float) :
  PyFloat.positive x = true ->
  (exists m e, x = S754_finite false m e) \/ x = S754_infinity false.
Proof.
  destruct x as [s|[|]| |[|] m e]; try discriminate; eauto.
Qed.

Lemma div_nonneg_shape (x y : float) :
  PyFloat.nonneg x = true -> PyFloat.positive y = true ->
  nonneg_shape (SFdiv PyFloat.prec PyFloat.emax x y).
Proof.
  intros Hx Hy.
  destruct (nonneg_cases x Hx) as [[s ->]|[(m & e & ->)| ->]];
    destruct (positive_cases y Hy) as [(m' & e' & ->)| ->];
    simpl; auto.
  destruct (SFdiv_core_binary _ _ (Z.pos m) e (Z.pos m') e') as [[mz ez] lz].
  apply binary_round_aux_nonneg.
Qed.

Lemma of_int_100 :
  PyFloat.of_int 100 = S754_finite false 7036874417766400 (-46).
Proof. reflexivity. Qed.

Lemma mul_100_nonneg_shape (q : float) :
  nonneg_shape q -> nonneg_shape (PyFloat.mul q (PyFloat.of_int 100)).
Proof.
  rewrite of_int_100.
  destruct q as [s|[|]| |[|] m e]; simpl; auto; try contradiction.
  intros _. apply binary_round_aux_nonneg.
Qed.

(** On a finite float that is not negative, [int] and [floor] agree
    and give a natural number. *)
Lemma to_int_floor_nonneg (x : float) :
  nonneg_shape x -> PyFloat.is_finite x = true ->
  exists n, PyFloat.to_int x = Ok n /\ PyFloat.floor x = Ok n /\ 0 <= n.
Proof.
  destruct x as [s|[|]| |[|] m e]; simpl; try contradiction;
    try discriminate; intros _ _.
  - exists 0. repeat split; lia.
  - exists (Z.shiftl (Z.pos m) e). repeat split.
    apply Z.shiftl_nonneg. lia.
Qed.

Lemma positive_not_zero (d : float) :
  PyFloat.positive d = true -> PyFloat.is_zero d = false.
Proof.
  intros H. destruct (positive_cases d H) as [(m & e & ->)| ->]; reflexivity.
Qed.

Lemma progress_percent_unfold (e d : float) :
  PyFloat.is_zero d = false ->
  progress_percent e (PyFloat d)
  = bind (PyFloat.to_int (PyFloat.mul (SFdiv PyFloat.prec PyFloat.emax e d)
                            (PyFloat.of_int 100)))
      (fun n => Ok (Z.min n 100)).
Proof.
  intros Hz. unfold progress_percent, PyFloat.truediv, to_float.
  rewrite Hz. reflexivity.
Qed.

Lemma spec_percent_unfold (e d : float) :
  PyFloat.is_zero d = false ->
  spec_percent e d
  = bind (PyFloat.floor (PyFloat.mul (SFdiv PyFloat.prec PyFloat.emax e d)
                           (PyFloat.of_int 100)))
      (fun n => Ok (Z.min 100 n)).
Proof.
  intros Hz. unfold spec_percent, PyFloat.truediv.
  rewrite Hz. reflexivity.
Qed.

Lemma progress_percent_scenario :
  progress_percent
    (elapsed_seconds {| hours := 0; minutes := 0;
                        seconds := 12; milliseconds := 50 |})
    (PyFloat (PyFloat.of_int 25)) = Ok 50.
Proof. vm_compute. reflexivity. Qed.

(** The two cases of the conversion: for an elapsed time e >= 0 and a
    total duration d > 0 whose floating-point quotient times 100 is
    finite, the percent is min(100, floor(e / d * 100)) and lies in
    [0, 100]; when that product is not finite the conversion to an
    integer raises instead. *)
Lemma progress_percent_cases (e d : float) :
  PyFloat.nonneg e = true -> PyFloat.positive d = true ->
  let x := PyFloat.mul (SFdiv PyFloat.prec PyFloat.emax e d)
             (PyFloat.of_int 100) in
  (PyFloat.is_finite x = true ->
   exists p, progress_percent e (PyFloat d) = Ok p /\
             spec_percent e d = Ok p /\ 0 <= p <= 100) /\
  (PyFloat.is_finite x = false ->
   exists err, progress_percent e (PyFloat d) = Raise err) /\
  progress_percent
    (elapsed_seconds {| hours := 0; minutes := 0;
                        seconds := 12; milliseconds := 50 |})
    (PyFloat (PyFloat.of_int 25)) = Ok 50.
Proof.
  intros He Hd x.
  pose proof (mul_100_nonneg_shape _ (div_nonneg_shape e d He Hd)) as Hx.
  pose proof (positive_not_zero d Hd) as Hz.
  rewrite (progress_percent_unfold e d Hz), (spec_percent_unfold e d Hz).
  fold x. fold x in Hx. clearbody x.
  split; [|split].
  - intros Hfin.
    destruct (to_int_floor_nonneg x Hx Hfin) as (n & Hi & Hf & Hn).
    rewrite Hi, Hf. exists (Z.min n 100). unfold bind.
    split; [reflexivity|]. split; [f_equal; lia | lia].
  - intros Hinf.
    destruct x as [s|s| |s m ex]; try discriminate Hinf;
      unfold bind, PyFloat.to_int; eauto.
  - exact progress_percent_scenario.
Qed.

(** The conversion does raise for a total duration small enough: with
    elapsed 1.0 and the smallest positive float as total duration, the
    quotient overflows to infinity and [int] raises OverflowError. *)
Lemma progress_percent_overflow :
  PyFloat.nonneg (PyFloat.of_int 1) = true /\
  PyFloat.positive (S754_finite false 1 (-1074)) = true /\
  valid_binary PyFloat.prec PyFloat.emax (S754_finite false 1 (-1074)) = true /\
  progress_percent (PyFloat.of_int 1) (PyFloat (S754_finite false 1 (-1074)))
  = Raise OverflowError.
Proof. vm_compute. repeat split. Qed.

(** ** Parsed times are not negative *)

Lemma shr_1_nonneg (mrs : shr_record) :
  0 <= shr_m mrs -> 0 <= shr_m (shr_1 mrs).
Proof.
  destruct mrs as [m r s]. destruct m as [|[p|p|]|p]; simpl; lia.
Qed.

Lemma iter_shr_1_nonneg (p : positive) :
  forall mrs, 0 <= shr_m mrs -> 0 <= shr_m (iter_pos shr_1 p mrs).
Proof.
  induction p as [p IH|p IH|]; intros mrs H; simpl; auto using shr_1_nonneg.
Qed.

Lemma shr_fexp_nonneg (m e : Z) (l : location) :
  0 <= m -> 0 <= shr_m (fst (shr_fexp PyFloat.prec PyFloat.emax m e l)).
Proof.
  intros H. unfold shr_fexp, shr.
  assert (0 <= shr_m (shr_record_of_loc m l)) as H0
      by (destruct l as [|[| |]]; exact H).
  destruct (fexp _ _ _ - e); cbn [fst]; auto using iter_shr_1_nonneg.
Qed.

Lemma round_nearest_even_nonneg (m : Z) (l : location) :
  0 <= m -> 0 <= round_nearest_even m l.
Proof.
  intros H. destruct l as [|[| |]]; simpl; try destruct (Z.even m); lia.
Qed.

(** Rounding a mantissa that is not negative, with a positive sign,
    gives a float that is not negative: never a NaN. *)
Lemma binary_round_aux_nonneg_true (m e : Z) (l : location) :
  0 <= m ->
  PyFloat.nonneg (binary_round_aux PyFloat.prec PyFloat.emax false m e l)
  = true.
Proof.
  intros H. unfold binary_round_aux.
  pose proof (shr_fexp_nonneg m e l H) as H1.
  destruct (shr_fexp _ _ m e l) as [mrs' e']. cbn [fst] in H1.
  pose proof (shr_fexp_nonneg _ e' loc_Exact
                (round_nearest_even_nonneg _ (loc_of_shr_record mrs') H1))
    as H2.
  destruct (shr_fexp _ _ _ e' loc_Exact) as [mrs'' e'']. cbn [fst] in H2.
  destruct (shr_m mrs''); [reflexivity | | lia].
  now destruct (Z.leb e'' _).
Qed.

Lemma of_int_nonneg (n : Z) : 0 <= n -> PyFloat.nonneg (PyFloat.of_int n) = true.
Proof.
  intros H. unfold PyFloat.of_int, binary_normalize.
  destruct n as [|m|m]; [reflexivity | | lia].
  unfold binary_round. destruct (shl_align _ _ _) as [mz ez].
  apply binary_round_aux_nonneg_true. lia.
Qed.

Lemma div_core_nonneg (m1 m2 : positive) (e1 e2 : Z) :
  0 <= fst (fst (SFdiv_core_binary PyFloat.prec PyFloat.emax
                   (Zpos m1) e1 (Zpos m2) e2)).
Proof.
  unfold SFdiv_core_binary.
  set (s := _ - _ - _).
  set (m' := match s with Z.pos _ => _ | Z0 => _ | Z.neg _ => _ end).
  assert (0 <= m') as Hm.
  { subst m'. destruct s; try lia. apply Z.shiftl_nonneg. lia. }
  pose proof (Z.div_pos m' (Zpos m2) Hm ltac:(lia)) as Hq.
  unfold Z.div in Hq. destruct (Z.div_eucl m' (Zpos m2)) as [q r].
  exact Hq.
Qed.

Lemma div_nonneg_true (x y : float) :
  PyFloat.nonneg x = true -> PyFloat.positive y = true ->
  PyFloat.is_finite y = true ->
  PyFloat.nonneg (SFdiv PyFloat.prec PyFloat.emax x y) = true.
Proof.
  intros Hx Hy Hf.
  destruct (nonneg_cases x Hx) as [[s ->]|[(m & e & ->)| ->]];
    destruct (positive_cases y Hy) as [(m' & e' & ->)| ->];
    try reflexivity; try discriminate.
  unfold SFdiv. pose proof (div_core_nonneg m m' e e') as Hq.
  destruct (SFdiv_core_binary _ _ (Z.pos m) e (Z.pos m') e')
    as [[mz ez] lz]. cbn [fst] in Hq.
  now apply binary_round_aux_nonneg_true.
Qed.

Lemma add_nonneg_true (x y : float) :
  PyFloat.nonneg x = true -> PyFloat.nonneg y = true ->
  PyFloat.nonneg (PyFloat.add x y) = true.
Proof.
  intros Hx Hy.
  destruct (nonneg_cases x Hx) as [[s ->]|[(m & e & ->)| ->]];
    destruct (nonneg_cases y Hy) as [[s' ->]|[(m' & e' & ->)| ->]];
    try reflexivity.
  - destruct s, s'; reflexivity.
  - unfold PyFloat.add, SFadd, cond_Zopp, binary_normalize.
    destruct (fst (shl_align m e _)), (fst (shl_align m' e' _));
      unfold binary_round; cbn [Z.add];
      destruct (shl_align _ _ _) as [mz ez];
      apply binary_round_aux_nonneg_true; lia.
Qed.

Lemma int2_nonneg (a b : ascii) :
  Text.is_digit a = true -> Text.is_digit b = true -> 0 <= int2 a b <= 99.
Proof.
  unfold Text.is_digit, int2, Text.digit_val. intros Ha Hb.
  apply andb_prop in Ha, Hb. destruct Ha as [Ha1 Ha2], Hb as [Hb1 Hb2].
  apply N.leb_le in Ha1, Ha2, Hb1, Hb2. lia.
Qed.

Lemma search_time_range (line : string) (g : time_groups) :
  search_time line = Some g ->
  0 <= hours g <= 99 /\ 0 <= minutes g <= 99 /\
  0 <= seconds g <= 99 /\ 0 <= milliseconds g <= 99.
Proof.
  intros H. apply search_time_some in H.
  destruct H as (k & (pre & a & b & c & d & e & f & i & j & post
                        & _ & _ & Hd & ->) & _).
  simpl in Hd.
  repeat (apply andb_prop in Hd; destruct Hd as [?H Hd]).
  cbn [hours minutes seconds milliseconds].
  repeat split; now apply int2_nonneg.
Qed.

(** Every elapsed time the parser returns is a float that is not
    negative, as the percent computation assumes. *)
Lemma parsed_time_nonneg (self : processor) (line : string) (t : float) :
  parse_ffmpeg_progress self line = Ok (Some t) -> PyFloat.nonneg t = true.
Proof.
  unfold parse_ffmpeg_progress.
  destruct (search_time line) as [g|] eqn:E; [|discriminate].
  rewrite current_time_of_ok. cbn [bind]. intros H; inversion H; subst.
  destruct (search_time_range line g E) as (Hh & Hm & Hs & Hc).
  unfold elapsed_seconds. apply add_nonneg_true.
  - apply of_int_nonneg. lia.
  - apply div_nonneg_true;
      [apply of_int_nonneg; lia | |]; rewrite of_int_100; reflexivity.
Qed.

(** ** Traces *)

Lemma progress_events_app (a b : list effect) :
  progress_events (a ++ b) = (progress_events a ++ progress_events b)%list.
Proof. apply flat_map_app. Qed.

Lemma terminal_events_app (a b : list effect) :
  terminal_events (a ++ b) = (terminal_events a ++ terminal_events b)%list.
Proof. apply flat_map_app. Qed.

Lemma forallb_impl (P Q : effect -> bool) (tr : list effect) :
  (forall e, P e = true -> Q e = true) ->
  forallb P tr = true -> forallb Q tr = true.
Proof.
  intros HPQ. rewrite !forallb_forall. auto.
Qed.

Lemma progress_events_none (tr : list effect) :
  forallb not_progress tr = true -> progress_events tr = [].
Proof.
  induction tr as [|e tr IH]; simpl; auto.
  intros H. apply andb_prop in H. destruct H as [He Htr].
  rewrite (IH Htr). now destruct e as [[]| | | | | | | |].
Qed.

Lemma terminal_events_none (tr : list effect) :
  forallb not_terminal tr = true -> terminal_events tr = [].
Proof.
  induction tr as [|e tr IH]; simpl; auto.
  intros H. apply andb_prop in H. destruct H as [He Htr].
  rewrite (IH Htr). now destruct e as [[]| | | | | | | |].
Qed.

Lemma user_effect_not_progress (e : effect) :
  user_effect e = true -> not_progress e = true.
Proof. now destruct e as [[]| | | | | | | |]. Qed.

Lemma user_effect_not_completion (e : effect) :
  user_effect e = true -> not_completion e = true.
Proof. now destruct e as [[| |[|]| | |]| | | | | | | |]. Qed.

Lemma user_effect_not_popen (e : effect) :
  user_effect e = true -> not_popen e = true.
Proof. now destruct e as [[]| | | | | | | |]. Qed.

Lemma line_effect_not_terminal (e : effect) :
  line_effect e = true -> not_terminal e = true.
Proof. now destruct e as [[]| | | | | | | |]. Qed.

Lemma extends_refl (P : effect -> bool) (w : world) : extends P w w.
Proof. exists []. now rewrite app_nil_r. Qed.

Lemma extends_trans (P : effect -> bool) (w1 w2 w3 : world) :
  extends P w1 w2 -> extends P w2 w3 -> extends P w1 w3.
Proof.
  intros (t1 & E1 & H1) (t2 & E2 & H2). exists (t1 ++ t2)%list.
  rewrite E2, E1, <- app_assoc, forallb_app, H1, H2. auto.
Qed.

(** Solves [extends P w (f w)] when [f] is a composition of [log],
    [emit], [with_self] and [with_output] that is already unfolded. *)
Ltac by_trace :=
  unfold extends; cbn [trace log emit with_self with_output self];
  rewrite <- ?app_assoc; cbn [app];
  first [ exists []; rewrite app_nil_r; split; reflexivity
        | eexists; split; reflexivity ].

Lemma pause_processing_extends (w : world) :
  extends user_effect w (pause_processing w).
Proof.
  unfold pause_processing. cbn [self with_self process set_is_paused].
  destruct (process (self w)); by_trace.
Qed.

Lemma resume_processing_extends (w : world) :
  extends user_effect w (resume_processing w).
Proof.
  unfold resume_processing. cbn [self with_self process set_is_paused].
  destruct (process (self w)); by_trace.
Qed.

Lemma remove_output_extends (env : job_env) (w : world) :
  extends user_effect w (remove_output env w).
Proof.
  unfold remove_output.
  destruct (output_exists w); [destruct (remove_error env)|]; by_trace.
Qed.

Lemma cancel_processing_extends (env : job_env) (w : world) :
  extends user_effect w (cancel_processing env w).
Proof.
  unfold cancel_processing.
  set (w1 := match process (self (with_self (set_is_cancelled true) w)) with
             | Some _ => _
             | None => _
             end).
  assert (extends user_effect w w1) as H1.
  { subst w1. cbn [self with_self process set_is_cancelled].
    destruct (process (self w)); by_trace. }
  eapply extends_trans; [exact H1|].
  eapply extends_trans; [apply remove_output_extends|]. by_trace.
Qed.

Lemma user_call_extends (env : job_env) (w : world) (a : user_action) :
  extends user_effect w (user_call env w a).
Proof.
  destruct a; simpl.
  - apply pause_processing_extends.
  - apply resume_processing_extends.
  - apply cancel_processing_extends.
Qed.

Lemma user_calls_extend (env : job_env) (calls : list user_action) (w : world) :
  extends user_effect w (fold_left (user_call env) calls w).
Proof.
  revert w; induction calls as [|a calls IH]; intros w; simpl.
  - apply extends_refl.
  - eapply extends_trans; [apply user_call_extends | apply IH].
Qed.

Lemma user_tick_extends (env : job_env) (sch : schedule) (w : world) :
  extends user_effect w (fst (user_tick env sch w)).
Proof.
  destruct sch as [|calls sch]; simpl.
  - apply extends_refl.
  - apply user_calls_extend.
Qed.

Lemma wait_paused_extends (env : job_env) (sch : schedule) (w : world) :
  extends user_effect w (wait_world (wait_paused env sch w)).
Proof.
  revert w; induction sch as [|calls sch IH]; intros w; simpl.
  - destruct (is_paused (self w) && negb (is_cancelled (self w)));
      apply extends_refl.
  - destruct (is_paused (self w) && negb (is_cancelled (self w))).
    + eapply extends_trans; [|apply IH].
      eapply extends_trans; [|apply user_calls_extend]. by_trace.
    + apply extends_refl.
Qed.

(** ** One line of output *)

Lemma progress_percent_le_100 (t : float) (d : pynum) (p : Z) :
  progress_percent t d = Ok p -> p <= 100.
Proof.
  unfold progress_percent.
  destruct (PyFloat.truediv t (to_float d)) as [q|]; cbn [bind];
    [|discriminate].
  destruct (PyFloat.to_int _) as [n|]; cbn [bind]; [|discriminate].
  intros H; inversion H; lia.
Qed.

Lemma computed_percent_le_100 (self : processor) (line : string) (p : Z) :
  computed_percent self line = Ok (Some p) -> p <= 100.
Proof.
  unfold computed_percent.
  destruct (Text.strip_nonempty line); [|discriminate].
  destruct (parse_ffmpeg_progress self line) as [[t|]|]; cbn [bind];
    try discriminate.
  destruct (progress_percent t _) as [p'|] eqn:E; cbn [bind];
    [|discriminate].
  intros H; inversion H; subst. eapply progress_percent_le_100; eauto.
Qed.

Lemma report_frame_spec (line : string) (w : world) :
  exists tr,
    trace (report_frame line w) = (trace w ++ tr)%list /\
    forallb line_effect tr = true /\ progress_events tr = [] /\
    self (report_frame line w) = self w /\
    output_exists (report_frame line w) = output_exists w.
Proof.
  unfold report_frame.
  destruct (Text.contains "frame=" line && negb (is_paused (self w)));
    [destruct (search_frame line)|].
  - eexists. cbn. repeat split.
  - exists []. rewrite app_nil_r. repeat split.
  - exists []. rewrite app_nil_r. repeat split.
Qed.

Lemma report_progress_spec (p : Z) (t : float) (cp : Z) (w : world) :
  exists tr,
    trace (snd (report_progress p t cp w)) = (trace w ++ tr)%list /\
    forallb line_effect tr = true /\
    progress_events tr = emitted_after cp (Some p) /\
    fst (report_progress p t cp w) = last (emitted_after cp (Some p)) cp /\
    self (snd (report_progress p t cp w)) = self w /\
    output_exists (snd (report_progress p t cp w)) = output_exists w.
Proof.
  unfold report_progress, emitted_after.
  destruct (cp <? p).
  - cbn [self emit log]. destruct (negb (is_paused (self w)));
      cbn; rewrite <- !app_assoc; cbn [app]; eexists; repeat split.
  - exists []. cbn. rewrite app_nil_r. repeat split.
Qed.

(** Handling a line adds a progress event exactly when the percent
    computed from it exceeds [current_progress], which then takes
    that value; it raises exactly when that computation does. *)
Lemma handle_line_spec (line : string) (cp : Z) (w : world) :
  match handle_line line cp w with
  | Ok (cp', w') =>
      exists op tr,
        computed_percent (self w) line = Ok op /\
        self w' = self w /\ output_exists w' = output_exists w /\
        trace w' = (trace w ++ tr)%list /\
        forallb line_effect tr = true /\
        progress_events tr = emitted_after cp op /\
        cp' = last (emitted_after cp op) cp
  | Raise e => computed_percent (self w) line = Raise e
  end.
Proof.
  unfold handle_line, computed_percent.
  destruct (Text.strip_nonempty line).
  2:{ exists None, []. rewrite app_nil_r. repeat split. }
  destruct (parse_ffmpeg_progress (self w) line) as [[t|]|e]; cbn [bind];
    [| |reflexivity].
  - destruct (progress_percent t (total_duration (self w))) as [p|e];
      cbn [bind]; [|reflexivity].
    destruct (report_progress_spec p t cp w)
      as (tr1 & Ht1 & Hl1 & Hp1 & Hc1 & Hs1 & Ho1).
    destruct (report_progress p t cp w) as [cp' w2].
    cbn [fst snd] in *.
    destruct (report_frame_spec line w2) as (trf & Ht & Hl & Hp & Hs & Ho).
    exists (Some p), (tr1 ++ trf)%list.
    rewrite Hs, Ho, Ht, Ht1, Hs1, Ho1, app_assoc, forallb_app,
      progress_events_app, Hl1, Hl, Hp1, Hp, app_nil_r.
    repeat split; auto.
  - destruct (report_frame_spec line w) as (trf & Ht & Hl & Hp & Hs & Ho).
    exists None, trf. repeat split; auto.
Qed.

(** ** The read loop *)

Lemma user_effect_loop_effect (e : effect) :
  user_effect e = true -> loop_effect e = true.
Proof. unfold loop_effect. now intros ->. Qed.

Lemma line_effect_loop_effect (e : effect) :
  line_effect e = true -> loop_effect e = true.
Proof. unfold loop_effect. intros ->. apply orb_true_r. Qed.

Lemma quiet_stretch (cp : Z) (w w' : world) :
  extends user_effect w w' -> loop_stretch cp w w'.
Proof.
  intros (tr & E & H). exists tr. split; [exact E|].
  split; [eapply forallb_impl; [apply user_effect_loop_effect | exact H]|].
  rewrite progress_events_none
    by (eapply forallb_impl; [apply user_effect_not_progress | exact H]).
  split; constructor.
Qed.

Lemma stretch_after_quiet (cp : Z) (w1 w2 w3 : world) :
  extends user_effect w1 w2 -> loop_stretch cp w2 w3 -> loop_stretch cp w1 w3.
Proof.
  intros (t1 & E1 & H1) (t2 & E2 & H2 & S2 & F2).
  exists (t1 ++ t2)%list.
  rewrite E2, E1, <- app_assoc, forallb_app, progress_events_app, H2.
  rewrite (forallb_impl _ _ _ user_effect_loop_effect H1).
  rewrite (progress_events_none t1
             (forallb_impl _ _ _ user_effect_not_progress H1)).
  auto.
Qed.

(** A line handled, then a stretch that starts from the progress it
    left. *)
Lemma stretch_after_line (line : string) (cp cp' : Z) (w2 w3 w4 : world) :
  handle_line line cp w2 = Ok (cp', w3) ->
  loop_stretch cp' w3 w4 -> loop_stretch cp w2 w4.
Proof.
  intros Hh (t4 & E4 & H4 & S4 & F4).
  pose proof (handle_line_spec line cp w2) as Hs. rewrite Hh in Hs.
  destruct Hs as (op & t3 & Hc & _ & _ & E3 & H3 & P3 & Hcp).
  exists (t3 ++ t4)%list.
  rewrite E4, E3, <- app_assoc, forallb_app, progress_events_app, H4, P3.
  rewrite (forallb_impl _ _ _ line_effect_loop_effect H3).
  repeat split; auto.
  - destruct op as [p|]; simpl in *; [|subst; auto].
    destruct (cp <? p) eqn:Hlt; simpl in *; subst; auto.
    constructor; auto.
    eapply Forall_impl; [|exact F4]. simpl. intros; lia.
  - destruct op as [p|]; simpl in *; [|subst; auto].
    destruct (cp <? p) eqn:Hlt; simpl in *; subst; auto.
    apply Z.ltb_lt in Hlt.
    pose proof (computed_percent_le_100 _ _ _ Hc).
    constructor; [lia|].
    eapply Forall_impl; [|exact F4]. simpl. intros; lia.
Qed.

(** Whatever the child prints and whatever the user does, the progress
    events of the loop increase strictly and stay in (cp, 100]. *)
Lemma read_loop_stretch (env : job_env) (lines : list string) :
  forall cp sch w,
    loop_stretch cp w (loop_world (read_loop env lines cp sch w)).
Proof.
  induction lines as [|line rest IH]; intros cp sch w; simpl.
  - pose proof (user_tick_extends env sch w) as H1.
    destruct (user_tick env sch w) as [w1 sch1]. simpl in *.
    now apply quiet_stretch.
  - pose proof (user_tick_extends env sch w) as H1.
    destruct (user_tick env sch w) as [w1 sch1]. simpl in H1.
    destruct (is_cancelled (self w1)); [now apply quiet_stretch|].
    apply stretch_after_quiet with (w2 := w1); [exact H1|].
    pose proof (wait_paused_extends env sch1 w1) as H2.
    destruct (wait_paused env sch1 w1) as [w2 sch2|w2]; simpl in H2;
      [|now apply quiet_stretch].
    destruct (is_cancelled (self w2)); [now apply quiet_stretch|].
    apply stretch_after_quiet with (w2 := w2); [exact H2|].
    destruct (handle_line line cp w2) as [[cp' w3]|e] eqn:Hh.
    + eapply stretch_after_line; [exact Hh | apply IH].
    + simpl. apply quiet_stretch, extends_refl.
Qed.

(** C4. Within the read loop of a job, handling a line emits a
    progress event exactly when the percent computed from that line
    strictly exceeds the last emitted value (0 before the first
    emission), so the progress percents emitted by the loop are
    strictly increasing and lie in [0, 100], whatever the child prints
    and whatever the user does meanwhile. *)
Theorem read_loop_progress_strictly_increasing
    (env : job_env) (lines : list string) (sch : schedule) (w : world) :
  (forall line last w1,
     match handle_line line last w1 with
     | Ok (last', w2) =>
         exists op tr,
           computed_percent (self w1) line = Ok op /\
           trace w2 = (trace w1 ++ tr)%list /\
           progress_events tr = emitted_after last op /\
           last' = List.last (emitted_after last op) last
     | Raise e => computed_percent (self w1) line = Raise e
     end) /\
  exists tr,
    trace (loop_world (read_loop env lines 0 sch w)) = (trace w ++ tr)%list /\
    progress_events (trace (loop_world (read_loop env lines 0 sch w)))
    = (progress_events (trace w) ++ progress_events tr)%list /\
    StronglySorted Z.lt (progress_events tr) /\
    Forall (fun p => 0 <= p <= 100) (progress_events tr).
Proof.
  split.
  - intros line last w1. pose proof (handle_line_spec line last w1) as H.
    destruct (handle_line line last w1) as [[last' w2]|e]; auto.
    destruct H as (op & tr & Hc & _ & _ & Ht & _ & Hp & Hl).
    exists op, tr. auto.
  - destruct (read_loop_stretch env lines 0 sch w) as (tr & E & _ & S & F).
    exists tr. rewrite E, progress_events_app. repeat split; auto.
    eapply Forall_impl; [|exact F]. simpl. intros; lia.
Qed.

(** ** The whole job *)

Lemma all_trace_log (P : effect -> bool) (e : effect) (w : world) :
  P e = true -> all_trace P w -> all_trace P (log e w).
Proof.
  unfold all_trace. cbn [trace log]. intros He Hw.
  now rewrite forallb_app, Hw; cbn; rewrite He.
Qed.

Lemma all_trace_extends (P Q : effect -> bool) (w w' : world) :
  (forall e, Q e = true -> P e = true) ->
  all_trace P w -> extends Q w w' -> all_trace P w'.
Proof.
  unfold all_trace. intros HQP Hw (tr & E & H).
  rewrite E, forallb_app, Hw. simpl. eapply forallb_impl; eauto.
Qed.

Lemma job_effect_not_completion (e : effect) :
  job_effect e = true -> not_completion e = true.
Proof. now destruct e as [[| |[|]| | |]| | | | | | | |]. Qed.

Lemma loop_effect_job_effect (e : effect) :
  loop_effect e = true -> job_effect e = true.
Proof. unfold job_effect. now intros ->. Qed.

Lemma not_completion_not_in (tr : list effect) (msg : string) :
  forallb not_completion tr = true -> ~ In (Emit (finished true msg)) tr.
Proof.
  rewrite forallb_forall. intros H Hin. apply H in Hin. discriminate.
Qed.

Lemma finish_success (env : job_env) (w : world) :
  returncode env = 0 ->
  trace (finish env w) = (trace w ++ completion_tail)%list.
Proof.
  intros H0. unfold finish. rewrite H0. cbn.
  rewrite <- !app_assoc. reflexivity.
Qed.

Lemma finish_failure (env : job_env) (w : world) :
  returncode env <> 0 ->
  exists msg,
    trace (finish env w)
    = (trace w ++ [Communicate; Print ("FFmpeg error: " ++ msg);
                   Emit (finished false msg)])%list.
Proof.
  intros H0. unfold finish. apply Z.eqb_neq in H0. rewrite H0.
  eexists. cbn. rewrite <- !app_assoc. reflexivity.
Qed.

Lemma all_trace_impl (P Q : effect -> bool) (w : world) :
  (forall e, P e = true -> Q e = true) -> all_trace P w -> all_trace Q w.
Proof. unfold all_trace. apply forallb_impl. Qed.

Lemma prelude_effect_job_effect (e : effect) :
  prelude_effect e = true -> job_effect e = true.
Proof. now destruct e as [[| |[|]| | |]| | | | | | | |]. Qed.

Lemma prelude_effect_not_progress (e : effect) :
  prelude_effect e = true -> not_progress e = true.
Proof. now destruct e as [[]| | | | | | | |]. Qed.

Lemma user_effect_prelude_effect (e : effect) :
  user_effect e = true -> prelude_effect e = true.
Proof. unfold prelude_effect. now intros ->. Qed.

(** Either a job never emits Completed, or it returns after a child
    that exited with status 0, and its trace is a prelude, the
    stretch of the loop and the completion tail. *)
Lemma run_outcomes (env : job_env) (sch : schedule) (w : world) :
  trace w = [] ->
  all_trace not_completion (final (run env sch w)) \/
  (exists w', run env sch w = Returned w' /\ returncode env = 0 /\
   exists tr,
     trace w' = (tr ++ completion_tail)%list /\
     forallb job_effect tr = true /\
     StronglySorted Z.lt (progress_events tr) /\
     Forall (fun p => 0 < p <= 100) (progress_events tr)).
Proof.
  intros Ht. unfold run.
  destruct (is_cancelled (self w)) eqn:Hc.
  { left. unfold all_trace. cbn [final]. now rewrite Ht. }
  set (w0 := emit (status_updated "📊 Analyzing video...") w).
  assert (all_trace user_effect w0) as A0.
  { apply all_trace_log; [reflexivity|]. unfold all_trace. now rewrite Ht. }
  pose proof (user_tick_extends env sch w0) as H1.
  destruct (user_tick env sch w0) as [w1 sch1]. cbn [fst] in H1.
  assert (all_trace user_effect w1) as A1
      by (eapply all_trace_extends; [|exact A0|exact H1]; auto).
  set (w1' := with_self (set_total_duration (get_video_duration env)) w1).
  assert (all_trace user_effect w1') as A1' by exact A1.
  destruct (eq_zero (total_duration (self w1'))).
  { left. cbn [final]. apply all_trace_log; [reflexivity|].
    eapply all_trace_impl; [apply user_effect_not_completion | exact A1']. }
  destruct (is_cancelled (self w1')).
  { left. cbn [final].
    eapply all_trace_impl; [apply user_effect_not_completion | exact A1']. }
  pose proof (user_tick_extends env sch1 w1') as H2.
  destruct (user_tick env sch1 w1') as [w2 sch2]. cbn [fst] in H2.
  assert (all_trace user_effect w2) as A2
      by (eapply all_trace_extends; [|exact A1'|exact H2]; auto).
  destruct (get_optimal_encoder env) as [enc hw].
  set (cmd := build_command (ffmpeg_path env) (self w2) enc hw).
  match goal with |- context [emit _ (log ?p ?w)] =>
    set (w3 := log p w) end.
  assert (all_trace user_effect w3) as A3
      by (repeat (apply all_trace_log; [reflexivity|]); exact A2).
  destruct (popen_error env) as [msg|].
  { left. cbn [final]. apply all_trace_log; [reflexivity|].
    eapply all_trace_impl; [apply user_effect_not_completion | exact A3]. }
  set (w4 := spawn env cmd w3).
  assert (all_trace prelude_effect w4) as A4.
  { unfold w4, spawn, all_trace. cbn [trace with_output with_self log].
    rewrite forallb_app.
    rewrite (forallb_impl _ _ _ user_effect_prelude_effect A3).
    reflexivity. }
  destruct (read_loop_stretch env (stdout_lines env) 0 sch2 w4)
    as (trl & El & Hl & Sl & Fl).
  assert (forallb job_effect (trace w4 ++ trl) = true) as A5.
  { rewrite forallb_app.
    rewrite (forallb_impl _ _ _ prelude_effect_job_effect A4).
    now rewrite (forallb_impl _ _ _ loop_effect_job_effect Hl). }
  destruct (read_loop env (stdout_lines env) 0 sch2 w4) as [w5 sch5|e w5|w5];
    cbn [loop_world] in El; rewrite <- El in A5.
  - destruct (negb (is_cancelled (self w5))).
    + destruct (Z.eq_dec (returncode env) 0) as [H0|H0].
      * right. exists (finish env w5). split; [reflexivity|].
        split; [exact H0|]. exists (trace w5).
        split; [now apply finish_success|]. split; [exact A5|].
        rewrite El, progress_events_app.
        rewrite (progress_events_none (trace w4)
                   (forallb_impl _ _ _ prelude_effect_not_progress A4)).
        auto.
      * left. cbn [final].
        destruct (finish_failure env w5 H0) as (msg & Em).
        unfold all_trace. rewrite Em, forallb_app.
        now rewrite (forallb_impl _ _ _ job_effect_not_completion A5).
    + left. cbn [final].
      eapply all_trace_extends;
        [apply user_effect_not_completion | | apply cancel_processing_extends].
      eapply all_trace_impl; [apply job_effect_not_completion | exact A5].
  - left. cbn [final]. apply all_trace_log; [reflexivity|].
    eapply all_trace_impl; [apply job_effect_not_completion | exact A5].
  - left. cbn [final].
    eapply all_trace_impl; [apply job_effect_not_completion | exact A5].
Qed.

Lemma strictly_sorted_NoDup (l : list Z) : StronglySorted Z.lt l -> NoDup l.
Proof.
  induction 1 as [|a l Hs IH Ha]; constructor; auto.
  intros Hin. rewrite Forall_forall in Ha. apply Ha in Hin. lia.
Qed.

(** Whenever a job emits Completed, the child exited with status 0
    and the supervisor has forced a 100% progress event just before:
    the trace ends with the exit status being read, the 100% event,
    the status and time texts and Completed, in that order, and
    nothing before is a Completed event.  The progress events before
    the forced one are strictly increasing, so 100% occurs once when
    the loop did not reach 100% and twice when it did. *)
Lemma completed_only_after_forced_100
    (env : job_env) (sch : schedule) (w : world) (msg : string) :
  trace w = [] ->
  In (Emit (finished true msg)) (trace (final (run env sch w))) ->
  returncode env = 0 /\
  exists w' tr,
    run env sch w = Returned w' /\
    trace w' = (tr ++ completion_tail)%list /\
    forallb not_completion tr = true /\
    StronglySorted Z.lt (progress_events tr) /\
    progress_events (trace w') = (progress_events tr ++ [100])%list /\
    (1 <= count_occ Z.eq_dec (progress_events (trace w')) 100%Z <= 2)%nat /\
    (count_occ Z.eq_dec (progress_events (trace w')) 100 = 2%nat
     <-> In 100 (progress_events tr)).
Proof.
  intros Ht Hin.
  destruct (run_outcomes env sch w Ht)
    as [Hno|(w' & Hr & H0 & tr & Etr & Hj & Hs & Hf)].
  { exfalso. eapply not_completion_not_in; eauto. }
  split; [exact H0|]. exists w', tr.
  assert (progress_events (trace w') = (progress_events tr ++ [100])%list)
    as Hp by (rewrite Etr, progress_events_app; reflexivity).
  pose proof (strictly_sorted_NoDup _ Hs) as Hnd.
  rewrite (NoDup_count_occ Z.eq_dec) in Hnd. specialize (Hnd 100).
  pose proof (count_occ_In Z.eq_dec (progress_events tr) 100) as Hci.
  rewrite Hp, count_occ_app. cbn [count_occ].
  destruct (Z.eq_dec 100 100) as [_|Hne]; [|congruence].
  repeat split; auto; try lia.
  - eapply forallb_impl; [apply job_effect_not_completion | exact Hj].
  - intros H2. apply Hci. lia.
  - intros H2. apply Hci in H2. lia.
Qed.


(** ** Cancel *)

Lemma cancel_processing_removes_output (env : job_env) (w : world) :
  remove_error env = None -> output_exists (cancel_processing env w) = false.
Proof.
  intros Hr. unfold cancel_processing, remove_output.
  cbn [self with_self process set_is_cancelled].
  destruct (process (self w)); cbn [output_exists log with_output with_self];
    destruct (output_exists w) eqn:Ho; rewrite ?Hr; cbn; auto.
Qed.

Lemma cancel_processing_emits (env : job_env) (w : world) :
  terminal_events (trace (cancel_processing env w))
  = (terminal_events (trace w)
       ++ [(false, "Processing was cancelled by user")])%list.
Proof.
  unfold cancel_processing.
  set (w1 := match process (self (with_self (set_is_cancelled true) w)) with
             | Some _ => _
             | None => _
             end).
  assert (terminal_events (trace w1) = terminal_events (trace w)) as H1.
  { subst w1. cbn [self with_self process set_is_cancelled].
    destruct (process (self w)); cbn [trace log with_self]; auto.
    rewrite <- app_assoc, terminal_events_app. cbn. apply app_nil_r. }
  assert (terminal_events (trace (remove_output env w1))
          = terminal_events (trace w1)) as H2.
  { unfold remove_output.
    destruct (output_exists w1); [destruct (remove_error env)|];
      cbn [trace log with_output]; rewrite <- ?app_assoc,
        ?terminal_events_app; cbn; rewrite ?app_nil_r; auto. }
  cbn [trace emit log]. rewrite <- !app_assoc, terminal_events_app.
  cbn. now rewrite H2, H1.
Qed.

(** C2. Cancelling while the job runs does remove the output file, but
    it does not result in exactly one terminal event: the user cancels
    while the worker waits for the second line of output;
    [cancel_processing] emits Cancelled on the user's call, the loop
    then sees the flag and breaks, and [run] calls [cancel_processing]
    once more, which emits the same terminal event a second time. *)
Theorem cancel_while_running_emits_twice :
  let env := sample_env ["frame=1"; "out_time=00:00:12.50"] in
  let w' := final (run env [[]; []; []; [UserCancel]]
                     (init_world sample_processor false)) in
  terminal_events (trace w')
  = [(false, "Processing was cancelled by user");
     (false, "Processing was cancelled by user")] /\
  List.length (filter (fun s => match s with cancelled => true | _ => false end)
                 (emissions (trace w'))) = 2%nat /\
  spawned (trace w') <> [] /\
  output_exists w' = false.
Proof. vm_compute. repeat split. discriminate. Qed.

(** ** Pause and resume *)

(** C8 (amended). With no child process attached, [pause] and
    [resume] deliver no signal and are idempotent on the state of the
    supervisor, but they are not no-ops: [pause] sets the paused flag
    and emits a status event and the paused event, [resume] clears the
    flag and emits a status event. *)
Theorem pause_resume_without_process (w : world) :
  process (self w) = None ->
  delivered (trace (pause_processing w)) = delivered (trace w) /\
  delivered (trace (resume_processing w)) = delivered (trace w) /\
  self (pause_processing w) = set_is_paused true (self w) /\
  self (resume_processing w) = set_is_paused false (self w) /\
  output_exists (pause_processing w) = output_exists w /\
  output_exists (resume_processing w) = output_exists w /\
  trace (pause_processing w)
  = (trace w ++ [Emit (status_updated "⏸️ Processing paused");
                 Emit paused])%list /\
  trace (resume_processing w)
  = (trace w ++ [Emit (status_updated "▶️ Processing resumed")])%list /\
  self (pause_processing (pause_processing w)) = self (pause_processing w) /\
  self (resume_processing (resume_processing w))
  = self (resume_processing w).
Proof.
  intros Hp. unfold pause_processing, resume_processing.
  cbn [self with_self process set_is_paused is_paused trace log emit
       output_exists].
  rewrite Hp.
  cbn [self with_self process set_is_paused is_paused trace log emit
       output_exists].
  rewrite Hp.
  cbn [self with_self process set_is_paused is_paused trace log emit
       output_exists input_path output_path take_duration skip_duration
       total_duration is_cancelled].
  rewrite <- !app_assoc.
  unfold delivered. rewrite !flat_map_app. cbn. rewrite !app_nil_r.
  repeat split.
Qed.

Lemma pause_resume_without_process_witness :
  process (self (init_world sample_processor false)) = None /\
  self (pause_processing (init_world sample_processor false))
  = set_is_paused true (self (init_world sample_processor false)) /\
  trace (pause_processing (init_world sample_processor false))
  = [Emit (status_updated "⏸️ Processing paused"); Emit paused].
Proof.
  assert (process (self (init_world sample_processor false)) = None) as H
      by reflexivity.
  split; [exact H|].
  split;
    apply (pause_resume_without_process
             (init_world sample_processor false) H).
Defined.

(** C8, as stated, fails: on a fresh processor, which has no child,
    [pause] changes the state and emits two events. *)
Lemma pause_without_process_is_not_a_noop :
  process (self (init_world sample_processor false)) = None /\
  self (pause_processing (init_world sample_processor false))
  <> self (init_world sample_processor false) /\
  emissions (trace (pause_processing (init_world sample_processor false)))
  = [status_updated "⏸️ Processing paused"; paused] /\
  emissions (trace (resume_processing (init_world sample_processor false)))
  = [status_updated "▶️ Processing resumed"].
Proof. repeat split. discriminate. Qed.

(** ** Duration probe *)

Lemma user_call_remove_error (env env' : job_env) (w : world)
    (a : user_action) :
  remove_error env = remove_error env' ->
  user_call env w a = user_call env' w a.
Proof.
  intros Hr. destruct a; simpl; auto.
  unfold cancel_processing, remove_output. now rewrite Hr.
Qed.

Lemma user_tick_remove_error (env env' : job_env) (sch : schedule)
    (w : world) :
  remove_error env = remove_error env' ->
  user_tick env sch w = user_tick env' sch w.
Proof.
  intros Hr. destruct sch as [|calls sch]; simpl; auto.
  f_equal. revert w. induction calls as [|a calls IH]; intros w; simpl; auto.
  now rewrite (user_call_remove_error env env' w a Hr), IH.
Qed.

(** A job whose probe answers zero ends right after the probe. *)
Lemma run_probe_zero (env : job_env) (sch : schedule) (w : world) :
  is_cancelled (self w) = false ->
  eq_zero (get_video_duration env) = true ->
  run env sch w
  = Returned
      (emit (finished false "Could not determine video duration")
         (with_self (set_total_duration (get_video_duration env))
            (fst (user_tick env sch
                    (emit (status_updated "📊 Analyzing video...") w))))).
Proof.
  intros Hc Hz. unfold run. rewrite Hc.
  destruct (user_tick env sch _) as [w1 sch1].
  cbn [fst self with_self total_duration set_total_duration].
  now rewrite Hz.
Qed.

(** C10. The duration probe never raises: every failure of ffprobe, of
    the JSON decoding, of the field lookup or of the conversion gives
    the int 0.  A file whose metadata reports a duration of zero then
    takes the same path as a failed probe: both jobs do the same
    things and both end with Failed, "Could not determine video
    duration", without starting a child. *)
Theorem probe_failure_and_zero_duration_alike
    (env env' : job_env) (sch : schedule) (w : world) :
  is_cancelled (self w) = false ->
  remove_error env = remove_error env' ->
  probe_body (probe env) = None ->
  (exists d, probe env' = ProbeDuration d /\ PyFloat.is_zero d = true) ->
  get_video_duration env = PyInt 0 /\
  (forall o, probe_body o = None <->
     o = ProbeNotStarted \/ (exists code, o = ProbeExitNonZero code) \/
     o = ProbeUnparsable \/ o = ProbeNoDuration \/ o = ProbeNotANumber) /\
  trace (final (run env sch w)) = trace (final (run env' sch w)) /\
  output_exists (final (run env sch w))
  = output_exists (final (run env' sch w)) /\
  exists tr,
    trace (final (run env sch w))
    = (trace w ++ Emit (status_updated "📊 Analyzing video...") :: tr
         ++ [Emit (finished false "Could not determine video duration")])%list
    /\ forallb user_effect tr = true.
Proof.
  intros Hc Hr Hfail (d & Hd & Hz).
  assert (get_video_duration env = PyInt 0) as Hg
      by (unfold get_video_duration; now rewrite Hfail).
  assert (eq_zero (get_video_duration env) = true) as Hz1
      by (now rewrite Hg).
  assert (eq_zero (get_video_duration env') = true) as Hz2
      by (unfold get_video_duration; rewrite Hd; exact Hz).
  rewrite (run_probe_zero env sch w Hc Hz1).
  rewrite (run_probe_zero env' sch w Hc Hz2).
  rewrite <- (user_tick_remove_error env env' sch _ Hr).
  cbn [final trace output_exists emit log with_self].
  split; [exact Hg|]. split.
  { intros o. destruct o; simpl; split; intros H; try discriminate;
      eauto 6; repeat (destruct H as [H|H]); try discriminate;
      destruct H; discriminate. }
  split; [reflexivity|]. split; [reflexivity|].
  destruct (user_tick_extends env sch
              (emit (status_updated "📊 Analyzing video...") w))
    as (tr & E & H).
  exists tr. rewrite E. cbn [trace emit log].
  rewrite <- !app_assoc. cbn [app]. auto.
Qed.

Lemma probe_failure_and_zero_duration_alike_witness :
  get_video_duration (with_probe ProbeNoDuration (sample_env [])) = PyInt 0 /\
  trace (final (run (with_probe ProbeNoDuration (sample_env [])) []
                  (init_world sample_processor false)))
  = trace (final (run (with_probe (ProbeDuration (S754_zero false))
                         (sample_env [])) []
                    (init_world sample_processor false))).
Proof.
  assert (exists d, probe (with_probe (ProbeDuration (S754_zero false))
                             (sample_env [])) = ProbeDuration d /\
                    PyFloat.is_zero d = true) as Hz
      by (exists (S754_zero false); split; reflexivity).
  split;
    apply (probe_failure_and_zero_duration_alike
             (with_probe ProbeNoDuration (sample_env []))
             (with_probe (ProbeDuration (S754_zero false)) (sample_env []))
             [] (init_world sample_processor false)
             eq_refl eq_refl eq_refl Hz).
Defined.

(** ** A job nobody touches *)

Lemma not_terminal_emit_one (ok : bool) (msg : string) (w : world) :
  all_trace not_terminal w ->
  terminal_events (trace (emit (finished ok msg) w)) = [(ok, msg)].
Proof.
  intros H. cbn [trace emit log].
  now rewrite terminal_events_app, (terminal_events_none _ H).
Qed.

(** With no user call the loop neither pauses nor breaks: it ends with
    the stream or with an exception, leaving the processor as it was. *)
Lemma read_loop_unattended (env : job_env) (lines : list string) :
  forall cp w,
    is_cancelled (self w) = false -> is_paused (self w) = false ->
    exists w',
      ((exists sch', read_loop env lines cp [] w = LoopEnd w' sch') \/
       (exists e, read_loop env lines cp [] w = LoopRaise e w')) /\
      self w' = self w /\ extends line_effect w w'.
Proof.
  induction lines as [|line rest IH]; intros cp w Hc Hp; simpl.
  - exists w. split; [left; eauto|]. split; [reflexivity|apply extends_refl].
  - rewrite Hc, Hp. simpl. rewrite Hc.
    pose proof (handle_line_spec line cp w) as Hs.
    destruct (handle_line line cp w) as [[cp' w3]|e].
    + destruct Hs as (op & tr & _ & Hself & _ & Ht & Hl & _ & _).
      destruct (IH cp' w3) as (w' & Hr & Hs' & He');
        [now rewrite Hself | now rewrite Hself |].
      exists w'. split; [exact Hr|]. split; [congruence|].
      eapply extends_trans; [|exact He']. now exists tr.
    + exists w. split; [right; eauto|].
      split; [reflexivity|apply extends_refl].
Qed.

(** Left alone, a job returns and emits exactly one terminal event. *)
Lemma run_unattended (env : job_env) (w : world) :
  trace w = [] ->
  is_cancelled (self w) = false -> is_paused (self w) = false ->
  exists w' ok msg,
    run env [] w = Returned w' /\
    terminal_events (trace w') = [(ok, msg)].
Proof.
  intros Ht Hc Hp. unfold run. rewrite Hc. cbn [user_tick].
  set (w0 := emit (status_updated "📊 Analyzing video...") w).
  assert (all_trace not_terminal w0) as A0.
  { apply all_trace_log; [reflexivity|]. unfold all_trace. now rewrite Ht. }
  set (w1 := with_self (set_total_duration (get_video_duration env)) w0).
  assert (all_trace not_terminal w1) as A1 by exact A0.
  destruct (eq_zero (total_duration (self w1))).
  { do 3 eexists. split; [reflexivity|]. now apply not_terminal_emit_one. }
  assert (is_cancelled (self w1) = false) as Hc1 by exact Hc.
  rewrite Hc1.
  destruct (get_optimal_encoder env) as [enc hw].
  set (cmd := build_command (ffmpeg_path env) (self w1) enc hw).
  match goal with |- context [emit _ (log ?p ?w)] =>
    set (w3 := log p w) end.
  assert (all_trace not_terminal w3) as A3
      by (do 3 (apply all_trace_log; [reflexivity|]); exact A1).
  destruct (popen_error env) as [msg|].
  { do 3 eexists. split; [reflexivity|]. now apply not_terminal_emit_one. }
  set (w4 := spawn env cmd w3).
  assert (all_trace not_terminal w4) as A4.
  { unfold w4, spawn, all_trace. cbn [trace with_output with_self log].
    rewrite forallb_app. unfold all_trace in A3. now rewrite A3. }
  destruct (read_loop_unattended env (stdout_lines env) 0 w4)
    as (w5 & Hr & Hs5 & He5); [exact Hc | exact Hp |].
  assert (all_trace not_terminal w5) as A5
      by (eapply all_trace_extends;
          [apply line_effect_not_terminal | exact A4 | exact He5]).
  destruct Hr as [[sch' Hr]|[e Hr]]; rewrite Hr.
  - rewrite Hs5. change (is_cancelled (self w4)) with (is_cancelled (self w)).
    rewrite Hc. cbn [negb].
    destruct (Z.eq_dec (returncode env) 0) as [H0|H0].
    + do 3 eexists. split; [reflexivity|].
      rewrite (finish_success env w5 H0), terminal_events_app.
      rewrite (terminal_events_none _ A5). reflexivity.
    + destruct (finish_failure env w5 H0) as (msg & Em).
      do 3 eexists. split; [reflexivity|].
      rewrite Em, terminal_events_app.
      rewrite (terminal_events_none _ A5). reflexivity.
  - do 3 eexists. split; [reflexivity|]. now apply not_terminal_emit_one.
Qed.

(** ** The batch *)

Lemma skipn_nth_error (A : Type) (l : list A) (n : nat) (x : A) :
  nth_error l n = Some x -> skipn n l = x :: skipn (S n) l.
Proof.
  revert n; induction l as [|a l IH]; intros [|n] H; try discriminate.
  - now inversion H.
  - simpl in H. apply IH in H. exact H.
Qed.

Section BatchFacts.

Variable basename : string -> string.
Variable splitext_root : string -> string.
Variable path_join : string -> string -> string.
Variable size_report : cutter -> option string.

Lemma deliver_none (tr : list effect) (c : cutter) :
  terminal_events tr = [] -> deliver size_report tr c = (c, false).
Proof.
  revert c; induction tr as [|e tr IH]; intros c H; simpl; auto.
  destruct e as [[| |ok msg| | |]| | | | | | | |]; simpl in H;
    try discriminate; auto.
Qed.

(** A job that emitted one terminal event calls the slot once. *)
Lemma deliver_one (tr : list effect) (c : cutter) (ok : bool) (msg : string) :
  terminal_events tr = [(ok, msg)] ->
  deliver size_report tr c = on_processing_finished size_report ok msg c.
Proof.
  revert c; induction tr as [|e tr IH]; intros c H; simpl; [discriminate|].
  destruct e as [[| |ok' msg'| | |]| | | | | | | |]; simpl in H; auto.
  inversion H; subst.
  destruct (on_processing_finished size_report ok msg c) as [c1 armed].
  rewrite (deliver_none tr c1) by assumption. now rewrite orb_false_r.
Qed.

(** The slot advances the index, and arms the timer exactly when the
    batch is still processing and a file is left. *)
Lemma on_processing_finished_spec (ok : bool) (msg : string) (c : cutter) :
  is_processing c = true ->
  let c' := fst (on_processing_finished size_report ok msg c) in
  let armed := snd (on_processing_finished size_report ok msg c) in
  current_processing c' = S (current_processing c) /\
  selected_files c' = selected_files c /\
  (armed = true <->
   (S (current_processing c) < List.length (selected_files c))%nat) /\
  (armed = true -> is_processing c' = true).
Proof.
  intros Hp. unfold on_processing_finished.
  set (c1 := if ok then _ else _).
  assert (selected_files c1 = selected_files c /\
          current_processing c1 = current_processing c /\
          is_processing c1 = true) as (Hf & Hi & Hp1).
  { subst c1. destruct ok; [destruct (size_report _)|]; cbn; auto. }
  cbn [is_processing set_current_processing selected_files
       current_processing].
  rewrite Hp1, Hf, Hi. cbn [negb].
  replace (current_processing c + 1)%nat with (S (current_processing c))
    by lia.
  destruct (Nat.leb_spec (List.length (selected_files c))
              (S (current_processing c))); cbn.
  - repeat split; auto; try discriminate. intros; lia.
  - repeat split; auto.
Qed.

Lemma process_next_file_spec (c : cutter) (file : string) :
  nth_error (selected_files c) (current_processing c) = Some file ->
  exists c' p,
    process_next_file basename splitext_root path_join c = (c', Some p) /\
    input_path p = file /\
    is_cancelled p = false /\ is_paused p = false /\
    selected_files c' = selected_files c /\
    current_processing c' = current_processing c /\
    is_processing c' = is_processing c.
Proof.
  intros H. unfold process_next_file. rewrite H.
  do 2 eexists. split; [reflexivity|]. cbn. repeat split.
Qed.

(** Left alone, a batch attempts every remaining file, in order, each
    job being the run of its own environment. *)
Lemma run_batch_attempts_all (envs : nat -> job_env) (fuel : nat) :
  forall c,
    is_processing c = true ->
    (current_processing c < List.length (selected_files c))%nat ->
    (List.length (selected_files c) - current_processing c <= fuel)%nat ->
    let jobs := snd (run_batch basename splitext_root path_join size_report
                       fuel envs c) in
    map (fun j => input_path (fst j)) jobs
    = skipn (current_processing c) (selected_files c) /\
    forall k p tr,
      nth_error jobs k = Some (p, tr) ->
      is_cancelled p = false /\
      tr = trace (final (run (envs (current_processing c + k)%nat) []
                           (init_world p false))).
Proof.
  induction fuel as [|fuel IH]; intros c Hp Hlt Hfuel; [lia|].
  destruct (nth_error (selected_files c) (current_processing c))
    as [file|] eqn:Hnth; [|apply nth_error_None in Hnth; lia].
  destruct (process_next_file_spec c file Hnth)
    as (c2 & p & Hpn & Hin & Hpc & Hpp & Hf2 & Hi2 & Hp2).
  destruct (run_unattended (envs (current_processing c2))
              (init_world p false) eq_refl Hpc Hpp)
    as (w' & ok & msg & Hrun & Hterm).
  pose proof (on_processing_finished_spec ok msg c2) as Hon.
  rewrite Hp2 in Hon. specialize (Hon Hp).
  cbn zeta in Hon. destruct Hon as (Hi3 & Hf3 & Harm & Hp3).
  cbn [run_batch]. rewrite Hpn, Hrun, (deliver_one _ _ _ _ Hterm).
  destruct (on_processing_finished size_report ok msg c2) as [c3 armed].
  cbn [fst snd] in *.
  rewrite (skipn_nth_error _ _ _ _ Hnth).
  destruct armed.
  - assert (S (current_processing c2) < List.length (selected_files c2))%nat
      as Hlt3 by (now apply Harm).
    destruct (IH c3) as (Hmap & Htr).
    { now apply Hp3. }
    { rewrite Hi3, Hf3. exact Hlt3. }
    { rewrite Hi3, Hf3, Hf2, Hi2. lia. }
    destruct (run_batch _ _ _ _ fuel envs c3) as [c4 jobs].
    cbn [snd] in *. split.
    + cbn [map fst]. rewrite Hin, Hmap, Hi3, Hf3, Hf2, Hi2. reflexivity.
    + intros [|k] p0 tr0 Hk; cbn in Hk.
      * inversion Hk; subst. rewrite Nat.add_0_r, <- Hi2.
        now rewrite Hrun.
      * apply Htr in Hk. rewrite Hi3, Hi2 in Hk.
        now replace (current_processing c + S k)%nat
          with (S (current_processing c) + k)%nat by lia.
  - assert (~ (S (current_processing c2)
               < List.length (selected_files c2))%nat) as Hge
        by (intros H; apply Harm in H; discriminate).
    cbn [snd map fst]. split.
    + rewrite Hin. f_equal. rewrite skipn_all2; auto.
      rewrite <- Hf2, <- Hi2. lia.
    + intros [|[|k]] p0 tr0 Hk; cbn in Hk; try discriminate.
      inversion Hk; subst. rewrite Nat.add_0_r, <- Hi2. now rewrite Hrun.
Qed.

(** C9. When the duration probe of a job fails, that job ends as
    Failed without starting a transcode process, whatever the user
    does meanwhile; and a batch left alone still goes on: every file
    of the list is attempted in order, the job of the failed probe
    consists of the analysis status and the Failed event, and the job
    of the next file is started. *)
Theorem probe_failure_fails_job_and_batch_continues
    (envs : nat -> job_env) (c : cutter) (i : nat) :
  is_processing c = true ->
  current_processing c = 0%nat ->
  (S i < List.length (selected_files c))%nat ->
  probe_body (probe (envs i)) = None ->
  (forall sch w,
     is_cancelled (self w) = false ->
     exists w' tr,
       run (envs i) sch w = Returned w' /\
       trace w'
       = (trace w ++ tr
            ++ [Emit (finished false
                        "Could not determine video duration")])%list /\
       forallb not_popen tr = true) /\
  let jobs := snd (run_batch basename splitext_root path_join size_report
                     (List.length (selected_files c)) envs c) in
  map (fun j => input_path (fst j)) jobs = selected_files c /\
  exists p tr p' tr',
    nth_error jobs i = Some (p, tr) /\
    tr = [Emit (status_updated "📊 Analyzing video...");
          Emit (finished false "Could not determine video duration")] /\
    nth_error jobs (S i) = Some (p', tr') /\
    nth_error (selected_files c) (S i) = Some (input_path p').
Proof.
  intros Hp Hcur Hlt Hfail.
  assert (eq_zero (get_video_duration (envs i)) = true) as Hz
      by (unfold get_video_duration; now rewrite Hfail).
  split.
  { intros sch w Hc. rewrite (run_probe_zero _ sch w Hc Hz).
    destruct (user_tick_extends (envs i) sch
                (emit (status_updated "📊 Analyzing video...") w))
      as (tr & E & H).
    eexists. exists (Emit (status_updated "📊 Analyzing video...") :: tr).
    split; [reflexivity|].
    cbn [trace emit log with_self]. rewrite E. cbn [trace emit log].
    rewrite <- !app_assoc. split; [reflexivity|]. cbn [forallb not_popen].
    eapply forallb_impl; [apply user_effect_not_popen | exact H]. }
  destruct (run_batch_attempts_all envs (List.length (selected_files c)) c)
    as (Hmap & Htr); [exact Hp | lia | lia |].
  rewrite Hcur in Hmap, Htr. cbn [skipn Nat.add] in Hmap, Htr.
  intros jobs. fold jobs in Hmap, Htr.
  assert (List.length jobs = List.length (selected_files c)) as Hlen
      by (rewrite <- Hmap; symmetry; apply length_map).
  destruct (nth_error jobs i) as [[p tr]|] eqn:Ei;
    [|apply nth_error_None in Ei; lia].
  destruct (nth_error jobs (S i)) as [[p' tr']|] eqn:Esi;
    [|apply nth_error_None in Esi; lia].
  split; [exact Hmap|]. exists p, tr, p', tr'.
  split; [reflexivity|]. split; [|split; [reflexivity|]].
  - destruct (Htr i p tr Ei) as (Hpc & ->).
    now rewrite (run_probe_zero _ [] (init_world p false) Hpc Hz).
  - rewrite <- Hmap.
    apply (map_nth_error (fun j => input_path (fst j)) _ _ Esi).
Qed.

End BatchFacts.

Lemma probe_failure_fails_job_and_batch_continues_witness :
  map (fun j => input_path (fst j))
    (snd (run_batch (fun s => s) (fun s => s)
            (fun dir name => dir ++ "/" ++ name) (fun _ => None)
            3 sample_envs sample_cutter))
  = ["a.mp4"; "b.mp4"; "c.mp4"] /\
  exists p tr p' tr',
    nth_error
      (snd (run_batch (fun s => s) (fun s => s)
              (fun dir name => dir ++ "/" ++ name) (fun _ => None)
              3 sample_envs sample_cutter)) 1 = Some (p, tr) /\
    tr = [Emit (status_updated "📊 Analyzing video...");
          Emit (finished false "Could not determine video duration")] /\
    nth_error
      (snd (run_batch (fun s => s) (fun s => s)
              (fun dir name => dir ++ "/" ++ name) (fun _ => None)
              3 sample_envs sample_cutter)) 2 = Some (p', tr') /\
    nth_error (selected_files sample_cutter) 2 = Some (input_path p').
Proof.
  assert (2 < 3)%nat as H by lia.
  apply (proj2 (probe_failure_fails_job_and_batch_continues
                  (fun s => s) (fun s => s)
                  (fun dir name => dir ++ "/" ++ name) (fun _ => None)
                  sample_envs sample_cutter 1%nat
                  eq_refl eq_refl H eq_refl)).
Defined.

(** ** The scenarios of the specification, evaluated *)

Example scenario_progress_line :
  parse_ffmpeg_progress sample_processor
    "frame=  120 fps=25 q=28.0 size=256kB time=00:00:12.50 bitrate=167.8kbits/s"
  = Ok (Some (elapsed_seconds {| hours := 0; minutes := 0;
                                 seconds := 12; milliseconds := 50 |})) /\
  computed_percent
    (set_total_duration (PyFloat (PyFloat.of_int 25)) sample_processor)
    "frame=  120 fps=25 q=28.0 size=256kB time=00:00:12.50 bitrate=167.8kbits/s"
  = Ok (Some 50).
Proof. vm_compute. split; reflexivity. Qed.

Example scenario_no_hardware_encoder :
  get_optimal_encoder (sample_env []) = ("h264_vaapi", "vaapi") /\
  forall platform,
    first_match (preference platform) "V..... libx264  V..... libx265"
    = ("libx264", "auto").
Proof.
  split; [reflexivity|]. intros platform. unfold preference, first_match.
  now repeat match goal with |- context [if ?b then _ else _] =>
                    destruct b end.
Qed.

(** Floating point shows in the percent: 0.29 s of 1 s is 28%. *)
Example percent_is_computed_in_floats :
  progress_percent
    (elapsed_seconds {| hours := 0; minutes := 0;
                        seconds := 0; milliseconds := 29 |})
    (PyFloat (PyFloat.of_int 1)) = Ok 28.
Proof. vm_compute. reflexivity. Qed.


(** * Further properties of the supervisor *)

(** ** Pausing and resuming leave the job alone *)

Lemma same_job_refl (p : processor) : same_job p p.
Proof. repeat split. Qed.

Lemma same_job_trans (p q r : processor) :
  same_job p q -> same_job q r -> same_job p r.
Proof.
  intros (A1 & A2 & A3 & A4 & A5) (B1 & B2 & B3 & B4 & B5).
  repeat split; congruence.
Qed.

Lemma undisturbed_refl (w : world) : undisturbed w w.
Proof.
  repeat split; auto using extends_refl.
Qed.

Lemma undisturbed_trans (w1 w2 w3 : world) :
  undisturbed w1 w2 -> undisturbed w2 w3 -> undisturbed w1 w3.
Proof.
  intros (E1 & J1 & C1 & P1 & O1) (E2 & J2 & C2 & P2 & O2).
  repeat split; try congruence.
  - eapply extends_trans; eauto.
  - destruct J1 as (? & ? & ? & ? & ?), J2 as (? & ? & ? & ? & ?). congruence.
  - destruct J1 as (? & ? & ? & ? & ?), J2 as (? & ? & ? & ? & ?). congruence.
  - destruct J1 as (? & ? & ? & ? & ?), J2 as (? & ? & ? & ? & ?). congruence.
  - destruct J1 as (? & ? & ? & ? & ?), J2 as (? & ? & ? & ? & ?). congruence.
  - destruct J1 as (? & ? & ? & ? & ?), J2 as (? & ? & ? & ? & ?). congruence.
Qed.

Lemma pause_processing_undisturbed (w : world) :
  undisturbed w (pause_processing w).
Proof.
  unfold undisturbed, pause_processing.
  cbn [self with_self process set_is_paused].
  destruct (process (self w)) eqn:Hp;
    (split; [by_trace | cbn; repeat split; congruence]).
Qed.

Lemma resume_processing_undisturbed (w : world) :
  undisturbed w (resume_processing w).
Proof.
  unfold undisturbed, resume_processing.
  cbn [self with_self process set_is_paused].
  destruct (process (self w)) eqn:Hp;
    (split; [by_trace | cbn; repeat split; congruence]).
Qed.

Lemma user_calls_undisturbed (env : job_env) (calls : list user_action) :
  forall w,
    forallb (fun a => negb (is_cancel a)) calls = true ->
    undisturbed w (fold_left (user_call env) calls w).
Proof.
  induction calls as [|a calls IH]; intros w H; simpl.
  - apply undisturbed_refl.
  - simpl in H. apply andb_prop in H. destruct H as [Ha Hc].
    eapply undisturbed_trans; [|apply IH; exact Hc].
    destruct a; try discriminate; simpl.
    + apply pause_processing_undisturbed.
    + apply resume_processing_undisturbed.
Qed.

Lemma user_tick_undisturbed (env : job_env) (sch : schedule) (w : world) :
  never_cancels sch = true ->
  undisturbed w (fst (user_tick env sch w)) /\
  never_cancels (snd (user_tick env sch w)) = true.
Proof.
  destruct sch as [|calls sch]; simpl; intros H.
  - split; [apply undisturbed_refl | reflexivity].
  - apply andb_prop in H. destruct H as [Hc Hs].
    split; [now apply user_calls_undisturbed | exact Hs].
Qed.

Lemma wait_paused_undisturbed (env : job_env) (sch : schedule) :
  forall w,
    never_cancels sch = true ->
    match wait_paused env sch w with
    | Awake w' sch' => undisturbed w w' /\ never_cancels sch' = true
    | Asleep w' => undisturbed w w'
    end.
Proof.
  induction sch as [|calls sch IH]; intros w H; simpl.
  - destruct (is_paused (self w) && negb (is_cancelled (self w)));
      [|split; [|reflexivity]]; apply undisturbed_refl.
  - destruct (is_paused (self w) && negb (is_cancelled (self w)));
      [|split; [apply undisturbed_refl | exact H]].
    simpl in H. apply andb_prop in H. destruct H as [Hc Hs].
    specialize (IH (fold_left (user_call env) calls (log (Msleep 100) w)) Hs).
    assert (undisturbed w
              (fold_left (user_call env) calls (log (Msleep 100) w))) as Hu.
    { eapply undisturbed_trans; [|apply user_calls_undisturbed; exact Hc].
      split; [by_trace | cbn; repeat split]. }
    destruct (wait_paused env sch _) as [w' sch'|w'].
    + destruct IH as [IH1 IH2]. split; [|exact IH2].
      eapply undisturbed_trans; eauto.
    + eapply undisturbed_trans; eauto.
Qed.

Lemma computed_percent_same_job (p q : processor) (line : string) :
  same_job p q -> computed_percent p line = computed_percent q line.
Proof.
  intros (_ & _ & _ & _ & Ht). unfold computed_percent, parse_ffmpeg_progress.
  now rewrite Ht.
Qed.

Lemma loop_result_same_job (p q : processor) (lines : list string) :
  same_job p q ->
  forall last, loop_result p last lines = loop_result q last lines.
Proof.
  intros Hj. induction lines as [|line rest IH]; intros last; simpl; auto.
  rewrite (computed_percent_same_job p q line Hj).
  destruct (computed_percent q line) as [op|e]; auto. now rewrite IH.
Qed.

Lemma pause_effect_calm (e : effect) :
  pause_effect e = true -> calm_effect e = true.
Proof. unfold calm_effect. now intros ->. Qed.

Lemma line_effect_calm (e : effect) :
  line_effect e = true -> calm_effect e = true.
Proof. unfold calm_effect. intros ->. apply orb_true_r. Qed.

Lemma pause_effect_not_progress (e : effect) :
  pause_effect e = true -> not_progress e = true.
Proof. now destruct e as [[]| | | | | | | |]. Qed.

Lemma calm_effect_not_terminal (e : effect) :
  calm_effect e = true -> not_terminal e = true.
Proof. now destruct e as [[]| | | | | | | |]. Qed.

Lemma calm_effect_not_popen (e : effect) :
  calm_effect e = true -> not_popen e = true.
Proof. now destruct e as [[]| | | | | | | |]. Qed.

Lemma undisturbed_calm_stretch (w w' : world) :
  undisturbed w w' -> calm_stretch w w' [].
Proof.
  intros ((tr & E & H) & J & C & _ & _). repeat split; try apply J; auto.
  exists tr. split; [exact E|]. split.
  - eapply forallb_impl; [apply pause_effect_calm | exact H].
  - apply progress_events_none.
    eapply forallb_impl; [apply pause_effect_not_progress | exact H].
Qed.

Lemma calm_stretch_trans (w1 w2 w3 : world) (ps qs : list Z) :
  calm_stretch w1 w2 ps -> calm_stretch w2 w3 qs ->
  calm_stretch w1 w3 (ps ++ qs).
Proof.
  intros (J1 & C1 & t1 & E1 & H1 & P1) (J2 & C2 & t2 & E2 & H2 & P2).
  split; [eapply same_job_trans; eauto|]. split; [congruence|].
  exists (t1 ++ t2)%list.
  rewrite E2, E1, <- app_assoc, forallb_app, progress_events_app, H1, H2,
    P1, P2. auto.
Qed.

Lemma handle_line_calm_stretch (line : string) (cp cp' : Z) (w w' : world) :
  handle_line line cp w = Ok (cp', w') ->
  exists op,
    computed_percent (self w) line = Ok op /\
    cp' = List.last (emitted_after cp op) cp /\
    calm_stretch w w' (emitted_after cp op).
Proof.
  intros Hh. pose proof (handle_line_spec line cp w) as Hs.
  rewrite Hh in Hs. destruct Hs as (op & tr & Hc & Hself & _ & E & Hl & Hp & Hcp).
  exists op. split; [exact Hc|]. split; [exact Hcp|].
  unfold calm_stretch. rewrite Hself.
  split; [apply same_job_refl|]. split; [reflexivity|].
  exists tr. split; [exact E|]. split; [|exact Hp].
  eapply forallb_impl; [apply line_effect_calm | exact Hl].
Qed.

(** When the user only pauses and resumes, the loop, unless it sleeps
    for ever, emits the progress events of [loop_result] and stops on
    the exception that [loop_result] names. *)
Lemma read_loop_calm (env : job_env) (lines : list string) :
  forall cp sch w,
    never_cancels sch = true -> is_cancelled (self w) = false ->
    match read_loop env lines cp sch w with
    | LoopAsleep _ => True
    | LoopEnd w' _ =>
        calm_stretch w w' (fst (loop_result (self w) cp lines)) /\
        snd (loop_result (self w) cp lines) = None
    | LoopRaise e w' =>
        calm_stretch w w' (fst (loop_result (self w) cp lines)) /\
        snd (loop_result (self w) cp lines) = Some e
    end.
Proof.
  induction lines as [|line rest IH]; intros cp sch w Hn Hc; simpl.
  - destruct (user_tick_undisturbed env sch w Hn) as [Hu _].
    destruct (user_tick env sch w) as [w1 sch1]. cbn [fst] in Hu.
    split; [now apply undisturbed_calm_stretch | reflexivity].
  - destruct (user_tick_undisturbed env sch w Hn) as [Hu Hn1].
    destruct (user_tick env sch w) as [w1 sch1]. cbn [fst snd] in Hu, Hn1.
    assert (is_cancelled (self w1) = false) as Hc1
        by (destruct Hu as (_ & _ & C & _); congruence).
    rewrite Hc1.
    pose proof (wait_paused_undisturbed env sch1 w1 Hn1) as Hw.
    destruct (wait_paused env sch1 w1) as [w2 sch2|w2]; [|exact I].
    destruct Hw as [Hu2 Hn2].
    assert (is_cancelled (self w2) = false) as Hc2
        by (destruct Hu2 as (_ & _ & C & _); congruence).
    rewrite Hc2.
    assert (calm_stretch w w2 []) as S2.
    { apply undisturbed_calm_stretch. eapply undisturbed_trans; eauto. }
    assert (same_job (self w) (self w2)) as J2 by apply S2.
    rewrite (computed_percent_same_job _ _ line J2).
    destruct (handle_line line cp w2) as [[cp' w3]|e] eqn:Hh.
    + destruct (handle_line_calm_stretch line cp cp' w2 w3 Hh)
        as (op & Hop & Hcp & S3).
      rewrite Hop.
      assert (is_cancelled (self w3) = false) as Hc3
          by (destruct S3 as (_ & C & _); congruence).
      assert (same_job (self w) (self w3)) as J3
          by (eapply same_job_trans; [exact J2 | apply S3]).
      specialize (IH cp' sch2 w3 Hn2 Hc3).
      rewrite <- (loop_result_same_job _ _ rest J3) in IH. subst cp'.
      destruct (loop_result (self w) _ rest) as [ps r]. cbn [fst snd] in *.
      pose proof (calm_stretch_trans _ _ _ _ _ S2 S3) as S23.
      destruct (read_loop env rest _ sch2 w3) as [w4 sch4|e w4|w4]; auto;
        destruct IH as [S4 Hr]; (split; [|exact Hr]);
        apply (calm_stretch_trans _ _ _ _ _ S23 S4).
    + pose proof (handle_line_spec line cp w2) as Hs. rewrite Hh in Hs.
      rewrite Hs. cbn [fst snd]. split; [exact S2 | reflexivity].
Qed.

Lemma pause_effect_silent (e : effect) :
  pause_effect e = true -> silent e = true.
Proof. now destruct e as [[]| | | | | | | |]. Qed.

Lemma silent_not_progress (e : effect) :
  silent e = true -> not_progress e = true.
Proof. unfold silent. intros H. now apply andb_prop in H. Qed.

Lemma silent_not_terminal (e : effect) :
  silent e = true -> not_terminal e = true.
Proof. unfold silent. intros H. now apply andb_prop in H. Qed.

Lemma finish_failure_message (env : job_env) (w : world) :
  returncode env <> 0 ->
  trace (finish env w)
  = (trace w ++ [Communicate;
                 Print ("FFmpeg error: " ++ failure_message env);
                 Emit (finished false (failure_message env))])%list.
Proof.
  intros H0. unfold finish, failure_message. apply Z.eqb_neq in H0.
  rewrite H0. destruct (stderr env); cbn; rewrite <- !app_assoc; reflexivity.
Qed.

Lemma set_total_duration_same_job (d : pynum) (p q : processor) :
  same_job p q -> same_job (set_total_duration d p) (set_total_duration d q).
Proof. intros (A & B & C & D & _). repeat split; assumption. Qed.

(** What a job shows of itself: the progress events and the terminal
    event of a run that returns are those of [job_result], however the
    user pauses and resumes meanwhile. *)
Lemma run_calm (env : job_env) (sch : schedule) (w w' : world) :
  trace w = [] ->
  is_cancelled (self w) = false ->
  never_cancels sch = true ->
  run env sch w = Returned w' ->
  progress_events (trace w') = fst (job_result env (self w)) /\
  terminal_events (trace w') = [snd (job_result env (self w))].
Proof.
  intros Ht Hc Hn. unfold run, job_result. rewrite Hc.
  set (w0 := emit (status_updated "📊 Analyzing video...") w).
  assert (all_trace silent w0) as A0.
  { apply all_trace_log; [reflexivity|]. unfold all_trace. now rewrite Ht. }
  destruct (user_tick_undisturbed env sch w0 Hn) as [Hu1 Hn1].
  destruct (user_tick env sch w0) as [w1 sch1]. cbn [fst snd] in Hu1, Hn1.
  assert (all_trace silent w1) as A1
      by (eapply all_trace_extends;
          [apply pause_effect_silent | exact A0 | apply Hu1]).
  set (w1' := with_self (set_total_duration (get_video_duration env)) w1).
  assert (all_trace silent w1') as A1' by exact A1.
  change (total_duration (self w1')) with (get_video_duration env).
  destruct (eq_zero (get_video_duration env)).
  { intros H; inversion H; subst w'. cbn [fst snd trace emit log].
    rewrite progress_events_app, terminal_events_app.
    rewrite (progress_events_none _
               (forallb_impl _ _ _ silent_not_progress A1')).
    rewrite (terminal_events_none _
               (forallb_impl _ _ _ silent_not_terminal A1')).
    split; reflexivity. }
  assert (is_cancelled (self w1') = false) as Hc1.
  { change (is_cancelled (self w1')) with (is_cancelled (self w1)).
    destruct Hu1 as (_ & _ & C & _). rewrite C. exact Hc. }
  rewrite Hc1.
  assert (same_job (set_total_duration (get_video_duration env) (self w))
            (self w1')) as J1.
  { apply set_total_duration_same_job. apply Hu1. }
  destruct (user_tick_undisturbed env sch1 w1' Hn1) as [Hu2 Hn2].
  destruct (user_tick env sch1 w1') as [w2 sch2]. cbn [fst snd] in Hu2, Hn2.
  assert (all_trace silent w2) as A2
      by (eapply all_trace_extends;
          [apply pause_effect_silent | exact A1' | apply Hu2]).
  destruct (get_optimal_encoder env) as [enc hw].
  set (cmd := build_command (ffmpeg_path env) (self w2) enc hw).
  match goal with |- context [emit _ (log ?p ?w)] =>
    set (w3 := log p w) end.
  assert (all_trace silent w3) as A3
      by (do 3 (apply all_trace_log; [reflexivity|]); exact A2).
  destruct (popen_error env) as [msg|].
  { intros H; inversion H; subst w'. cbn [fst snd trace emit log str_exn].
    rewrite progress_events_app, terminal_events_app.
    rewrite (progress_events_none _
               (forallb_impl _ _ _ silent_not_progress A3)).
    rewrite (terminal_events_none _
               (forallb_impl _ _ _ silent_not_terminal A3)).
    split; reflexivity. }
  set (w4 := spawn env cmd w3).
  assert (all_trace silent w4) as A4.
  { unfold w4, spawn, all_trace. cbn [trace with_output with_self log].
    rewrite forallb_app. unfold all_trace in A3. now rewrite A3. }
  assert (is_cancelled (self w4) = false) as Hc4.
  { change (is_cancelled (self w4)) with (is_cancelled (self w2)).
    destruct Hu2 as (_ & _ & C & _). rewrite C. exact Hc1. }
  assert (same_job (set_total_duration (get_video_duration env) (self w))
            (self w4)) as J4.
  { eapply same_job_trans; [exact J1|].
    eapply same_job_trans; [apply Hu2|]. repeat split. }
  pose proof (read_loop_calm env (stdout_lines env) 0 sch2 w4 Hn2 Hc4) as Hl.
  rewrite <- (loop_result_same_job _ _ (stdout_lines env) J4 0) in Hl.
  destruct (loop_result _ 0 (stdout_lines env)) as [ps r].
  cbn [fst snd] in Hl.
  destruct (read_loop env (stdout_lines env) 0 sch2 w4)
    as [w5 sch5|e w5|w5]; [| |discriminate];
    destruct Hl as ((_ & C5 & tr & E5 & H5 & P5) & ->).
  - rewrite C5, Hc4. cbn [negb].
    assert (progress_events (trace w5) = ps) as Pw5.
    { rewrite E5, progress_events_app, P5.
      now rewrite (progress_events_none _
                     (forallb_impl _ _ _ silent_not_progress A4)). }
    assert (terminal_events (trace w5) = []) as Tw5.
    { rewrite E5, terminal_events_app.
      rewrite (terminal_events_none _
                 (forallb_impl _ _ _ silent_not_terminal A4)).
      apply terminal_events_none.
      eapply forallb_impl; [apply calm_effect_not_terminal | exact H5]. }
    intros H; inversion H; subst w'.
    destruct (Z.eqb_spec (returncode env) 0) as [H0|H0].
    + rewrite (finish_success env w5 H0), progress_events_app,
        terminal_events_app, Pw5, Tw5. split; reflexivity.
    + rewrite (finish_failure_message env w5 H0), progress_events_app,
        terminal_events_app, Pw5, Tw5. cbn. now rewrite app_nil_r.
  - intros H; inversion H; subst w'. cbn [fst snd trace emit log].
    rewrite progress_events_app, terminal_events_app, E5,
      progress_events_app, terminal_events_app, P5.
    rewrite (progress_events_none _
               (forallb_impl _ _ _ silent_not_progress A4)).
    rewrite (terminal_events_none _
               (forallb_impl _ _ _ silent_not_terminal A4)).
    rewrite (terminal_events_none tr
               (forallb_impl _ _ _ calm_effect_not_terminal H5)).
    cbn. now rewrite app_nil_r.
Qed.

(** ** A job nobody touches, in full *)

Lemma spawned_app (a b : list effect) :
  spawned (a ++ b) = (spawned a ++ spawned b)%list.
Proof. apply flat_map_app. Qed.

Lemma spawned_none (tr : list effect) :
  forallb not_popen tr = true -> spawned tr = [].
Proof.
  induction tr as [|e tr IH]; simpl; auto.
  intros H. apply andb_prop in H. destruct H as [He Htr].
  rewrite (IH Htr). now destruct e.
Qed.

Lemma line_effect_not_popen (e : effect) :
  line_effect e = true -> not_popen e = true.
Proof. now destruct e as [[]| | | | | | | |]. Qed.

Lemma line_effect_no_cleanup (e : effect) :
  line_effect e = true -> no_cleanup e = true.
Proof. now destruct e as [[]| | | | | | | |]. Qed.

Lemma line_effect_not_communicate (e : effect) :
  line_effect e = true -> e <> Communicate.
Proof. now destruct e as [[]| | | | | | | |]. Qed.

Lemma read_loop_unattended_output (env : job_env) (lines : list string) :
  forall cp w,
    is_cancelled (self w) = false -> is_paused (self w) = false ->
    output_exists (loop_world (read_loop env lines cp [] w))
    = output_exists w.
Proof.
  induction lines as [|line rest IH]; intros cp w Hc Hp; simpl; auto.
  rewrite Hc, Hp. simpl. rewrite Hc.
  pose proof (handle_line_spec line cp w) as Hs.
  destruct (handle_line line cp w) as [[cp' w3]|e]; [|reflexivity].
  destruct Hs as (op & tr & _ & Hself & Hout & _).
  rewrite IH; [exact Hout | now rewrite Hself | now rewrite Hself].
Qed.

(** Left alone, a job returns; its last effect is its only terminal
    event; it never stops, signals or awaits the child by a signal,
    never sleeps and never removes a file; the output file is there
    afterwards if it was before or if the child created it; and the
    exit status is read only when the loop ended without an exception. *)
Lemma run_unattended_shape (env : job_env) (w : world) :
  trace w = [] ->
  is_cancelled (self w) = false -> is_paused (self w) = false ->
  exists w' pre ok msg,
    run env [] w = Returned w' /\
    trace w' = (pre ++ [Emit (finished ok msg)])%list /\
    forallb not_terminal pre = true /\
    forallb no_cleanup pre = true /\
    output_exists w'
    = (output_exists w || (starts_child env && creates_output env)) /\
    (In Communicate pre ->
     starts_child env = true /\
     snd (loop_result (set_total_duration (get_video_duration env) (self w))
            0 (stdout_lines env)) = None) /\
    List.length (spawned pre) = (if starts_child env then 1 else 0)%nat.
Proof.
  intros Ht Hc Hp. unfold run, starts_child. rewrite Hc. cbn [user_tick].
  set (P := fun e => not_terminal e && no_cleanup e
                     && negb (match e with Communicate => true | _ => false end)).
  assert (forall tr, forallb P tr = true ->
                     forallb not_terminal tr = true /\
                     forallb no_cleanup tr = true /\
                     ~ In Communicate tr) as HP.
  { intros tr H. repeat split.
    - eapply forallb_impl; [|exact H]. intros e He. unfold P in He.
      now destruct (not_terminal e).
    - eapply forallb_impl; [|exact H]. intros e He. unfold P in He.
      destruct (not_terminal e), (no_cleanup e); auto.
    - intros Hin. rewrite forallb_forall in H. apply H in Hin.
      discriminate. }
  set (w0 := emit (status_updated "📊 Analyzing video...") w).
  assert (all_trace P w0) as A0.
  { apply all_trace_log; [reflexivity|]. unfold all_trace. now rewrite Ht. }
  set (w1 := with_self (set_total_duration (get_video_duration env)) w0).
  assert (all_trace P w1) as A1 by exact A0.
  change (total_duration (self w1)) with (get_video_duration env).
  destruct (eq_zero (get_video_duration env)).
  { destruct (HP _ A1) as (H1 & H2 & H3).
    exists (emit (finished false "Could not determine video duration") w1),
      (trace w1). do 2 eexists. split; [reflexivity|].
    split; [reflexivity|]. split; [exact H1|]. split; [exact H2|].
    split; [cbn; now rewrite orb_false_r|].
    split; [intros Hin; now apply H3 in Hin|].
    unfold w1, w0. cbn [trace with_self emit log]. now rewrite Ht. }
  change (is_cancelled (self w1)) with (is_cancelled (self w)). rewrite Hc.
  destruct (get_optimal_encoder env) as [enc hw].
  set (cmd := build_command (ffmpeg_path env) (self w1) enc hw).
  match goal with |- context [emit _ (log ?p ?w)] =>
    set (w3 := log p w) end.
  assert (all_trace P w3) as A3
      by (do 3 (apply all_trace_log; [reflexivity|]); exact A1).
  destruct (popen_error env) as [msg|].
  { destruct (HP _ A3) as (H1 & H2 & H3).
    exists (emit (finished false (str_exn (OSError msg))) w3), (trace w3).
    do 2 eexists. split; [reflexivity|].
    split; [reflexivity|]. split; [exact H1|]. split; [exact H2|].
    split; [cbn; now rewrite orb_false_r|].
    split; [intros Hin; now apply H3 in Hin|].
    unfold w3, w1, w0. cbn [trace with_self emit log]. now rewrite Ht. }
  set (w4 := spawn env cmd w3).
  assert (all_trace P w4) as A4.
  { unfold w4, spawn, all_trace. cbn [trace with_output with_self log].
    rewrite forallb_app. unfold all_trace in A3. now rewrite A3. }
  assert (output_exists w4 = output_exists w || creates_output env) as O4
      by reflexivity.
  destruct (read_loop_unattended env (stdout_lines env) 0 w4)
    as (w5 & Hr & Hs5 & (tr & E5 & H5)); [exact Hc | exact Hp |].
  pose proof (read_loop_unattended_output env (stdout_lines env) 0 w4 Hc Hp)
    as O5.
  pose proof (read_loop_calm env (stdout_lines env) 0 [] w4 eq_refl Hc) as Hl.
  assert (same_job (set_total_duration (get_video_duration env) (self w))
            (self w4)) as J4 by (repeat split).
  rewrite <- (loop_result_same_job _ _ (stdout_lines env) J4 0) in Hl.
  assert (forallb P tr = true) as HPtr.
  { eapply forallb_impl; [|exact H5]. intros e He. unfold P.
    rewrite (line_effect_not_terminal e He), (line_effect_no_cleanup e He).
    now destruct e as [[]| | | | | | | |]. }
  assert (forallb P (trace w5) = true) as A5
      by (rewrite E5, forallb_app; unfold all_trace in A4;
          now rewrite A4, HPtr).
  destruct (HP _ A5) as (H1 & H2 & H3).
  assert (List.length (spawned (trace w5)) = 1%nat) as S5.
  { rewrite E5, spawned_app.
    rewrite (spawned_none tr (forallb_impl _ _ _ line_effect_not_popen H5)).
    unfold w4, spawn, w3, w1, w0.
    cbn [trace with_output with_self emit log]. now rewrite Ht. }
  destruct Hr as [[sch' Hr]|[e Hr]]; rewrite Hr in *;
    cbn [loop_world] in O5.
  - destruct Hl as [_ Hnone].
    rewrite Hs5. change (is_cancelled (self w4)) with (is_cancelled (self w)).
    rewrite Hc. cbn [negb andb].
    destruct (Z.eqb_spec (returncode env) 0) as [H0|H0].
    + exists (finish env w5),
        (trace w5 ++ [Communicate; Emit (progress_updated 100);
                      Emit (status_updated "✅ Processing completed!");
                      Emit (time_info_updated TimeComplete)])%list.
      do 2 eexists. split; [reflexivity|].
      split; [rewrite (finish_success env w5 H0), <- app_assoc; reflexivity|].
      rewrite !forallb_app, H1, H2.
      split; [reflexivity|]. split; [reflexivity|].
      split; [|split; [auto|]].
      * unfold finish. apply Z.eqb_eq in H0. rewrite H0. cbn.
        now rewrite O5.
      * rewrite spawned_app. cbn. now rewrite app_nil_r.
    + exists (finish env w5),
        (trace w5 ++ [Communicate;
                      Print ("FFmpeg error: " ++ failure_message env)])%list.
      do 2 eexists. split; [reflexivity|].
      split; [rewrite (finish_failure_message env w5 H0), <- app_assoc;
              reflexivity|].
      rewrite !forallb_app, H1, H2.
      split; [reflexivity|]. split; [reflexivity|].
      split; [|split; [auto|]].
      * unfold finish. apply Z.eqb_neq in H0. rewrite H0. cbn.
        now rewrite O5.
      * rewrite spawned_app. cbn. now rewrite app_nil_r.
  - exists (emit (finished false (str_exn e)) w5), (trace w5).
    do 2 eexists. split; [reflexivity|]. split; [reflexivity|].
    split; [exact H1|]. split; [exact H2|].
    split; [cbn; now rewrite O5|].
    split; [intros Hin; now apply H3 in Hin | exact S5].
Qed.

(** X1. Pausing and resuming never change what a job reports: when
    the user only pauses and resumes and the run returns, its progress
    events and its terminal event are those of the same job left
    alone. *)
Theorem pausing_never_changes_the_result
    (env : job_env) (sch : schedule) (w w' : world) :
  trace w = [] ->
  is_cancelled (self w) = false -> is_paused (self w) = false ->
  never_cancels sch = true ->
  run env sch w = Returned w' ->
  progress_events (trace w')
  = progress_events (trace (final (run env [] w))) /\
  terminal_events (trace w')
  = terminal_events (trace (final (run env [] w))).
Proof.
  intros Ht Hc Hp Hn Hr.
  destruct (run_unattended env w Ht Hc Hp) as (w0 & ok & msg & Hr0 & _).
  destruct (run_calm env sch w w' Ht Hc Hn Hr) as [P1 T1].
  destruct (run_calm env [] w w0 Ht Hc eq_refl Hr0) as [P0 T0].
  rewrite Hr0. cbn [final]. split; congruence.
Qed.

Lemma pausing_never_changes_the_result_witness :
  progress_events
    (trace (final (run (sample_env ["out_time=00:00:12.50"; "progress=end"])
                     [[]; []; [UserPause]; [UserResume]]
                     (init_world sample_processor false))))
  = progress_events
      (trace (final (run (sample_env ["out_time=00:00:12.50"; "progress=end"])
                       [] (init_world sample_processor false)))).
Proof.
  assert (exists w',
            run (sample_env ["out_time=00:00:12.50"; "progress=end"])
              [[]; []; [UserPause]; [UserResume]]
              (init_world sample_processor false) = Returned w')
    as [w' Hr] by (vm_compute; eexists; reflexivity).
  rewrite Hr. cbn [final].
  apply (pausing_never_changes_the_result
           (sample_env ["out_time=00:00:12.50"; "progress=end"])
           [[]; []; [UserPause]; [UserResume]]
           (init_world sample_processor false) w'
           eq_refl eq_refl eq_refl eq_refl Hr).
Defined.





(** A line of output stops the job left alone. *)
Lemma run_reports_loop_exception (env : job_env) (w : world) (e : pyexn) :
  trace w = [] ->
  is_cancelled (self w) = false -> is_paused (self w) = false ->
  starts_child env = true ->
  snd (loop_result (set_total_duration (get_video_duration env) (self w))
         0 (stdout_lines env)) = Some e ->
  exists w' pre,
    run env [] w = Returned w' /\
    trace w' = (pre ++ [Emit (finished false (str_exn e))])%list /\
    forallb not_terminal pre = true /\
    ~ In Communicate pre /\
    forallb no_cleanup pre = true /\
    List.length (spawned pre) = 1%nat.
Proof.
  intros Ht Hc Hp Hstart He.
  destruct (run_unattended_shape env w Ht Hc Hp)
    as (w' & pre & ok & msg & Hr & E & Hnt & Hnc & _ & Hcomm & Hsp).
  destruct (run_calm env [] w w' Ht Hc eq_refl Hr) as [_ T].
  rewrite E, terminal_events_app, (terminal_events_none _ Hnt) in T.
  assert ((ok, msg) = snd (job_result env (self w))) as Hpair
      by (cbn in T; congruence).
  clear T.
  pose proof Hstart as Hstart'. unfold starts_child in Hstart'.
  apply andb_prop in Hstart'.
  destruct Hstart' as [Hz Hpo]. apply negb_true_iff in Hz.
  unfold job_result in Hpair. rewrite Hz in Hpair.
  destruct (popen_error env) as [m|] eqn:Hpe; [discriminate|].
  destruct (loop_result _ 0 (stdout_lines env)) as [ps r] eqn:Hlr.
  cbn [snd] in He. subst r. cbn [snd fst] in Hpair.
  inversion Hpair; subst ok msg.
  exists w', pre. split; [exact Hr|]. split; [exact E|].
  split; [exact Hnt|]. split.
  { intros Hin. apply Hcomm in Hin. destruct Hin as [_ Hnone].
    cbn in Hnone. discriminate. }
  split; [exact Hnc|].
  rewrite Hsp. unfold starts_child. now rewrite Hz, Hpe.
Qed.

(** X4. When handling a line raises, the job left alone, whose child
    prints ASCII text, reports Failed with the text of the exception
    as its last effect, and never reads the exit status of the child,
    which it leaves running. *)
Theorem loop_exception_abandons_child
    (env : job_env) (w : world) (e : pyexn) :
  trace w = [] ->
  is_cancelled (self w) = false -> is_paused (self w) = false ->
  ascii_output env = true ->
  starts_child env = true ->
  snd (loop_result (set_total_duration (get_video_duration env) (self w))
         0 (stdout_lines env)) = Some e ->
  exists w' pre,
    run env [] w = Returned w' /\
    trace w' = (pre ++ [Emit (finished false (str_exn e))])%list /\
    ~ In Communicate pre /\
    forallb no_cleanup pre = true /\
    List.length (spawned pre) = 1%nat.
Proof.
  intros Ht Hc Hp _ Hstart He.
  destruct (run_reports_loop_exception env w e Ht Hc Hp Hstart He)
    as (w' & pre & Hr & E & _ & Hcomm & Hnc & Hsp).
  exists w', pre. auto.
Qed.

Lemma loop_exception_abandons_child_witness :
  exists w' pre,
    run (with_probe (ProbeDuration (S754_finite false 1 (-1074)))
           (sample_env ["out_time=00:00:01.00"])) []
      (init_world sample_processor false) = Returned w' /\
    trace w' = (pre ++ [Emit (finished false (str_exn OverflowError))])%list /\
    ~ In Communicate pre /\
    forallb no_cleanup pre = true /\
    List.length (spawned pre) = 1%nat.
Proof.
  apply (loop_exception_abandons_child
           (with_probe (ProbeDuration (S754_finite false 1 (-1074)))
              (sample_env ["out_time=00:00:01.00"]))
           (init_world sample_processor false) OverflowError
           eq_refl eq_refl eq_refl eq_refl).
  - vm_compute. reflexivity.
  - vm_compute. reflexivity.
Defined.

(** * The percent and the completion of a job *)

Lemma terminal_events_in (tr : list effect) (ok : bool) (msg : string) :
  In (ok, msg) (terminal_events tr) -> In (Emit (finished ok msg)) tr.
Proof.
  unfold terminal_events. rewrite in_flat_map.
  intros (e & Hin & He).
  destruct e as [[| |ok' msg'| | |]| | | | | | | |]; cbn in He;
    try contradiction.
  destruct He as [He|[]]. inversion He; subst. exact Hin.
Qed.

(** A line in which the pattern matches is not blank. *)
Lemma search_time_strip_nonempty (line : string) (g : time_groups) :
  search_time line = Some g -> Text.strip_nonempty line = true.
Proof.
  induction line as [|c rest IH]; simpl.
  - unfold match_time. simpl. discriminate.
  - destruct (match_time (String c rest)) as [g0|] eqn:Hm.
    + intros _. unfold match_time in Hm.
      destruct (strip_prefix "time=" (String c rest)) as [r|] eqn:Hs;
        [|discriminate].
      apply strip_prefix_spec in Hs. inversion Hs; subst. reflexivity.
    + intros H. apply IH in H. rewrite H. now destruct (Text.is_space c).
Qed.

(** The loop stops at the first line whose percent cannot be
    computed. *)
Lemma loop_result_raises (p : processor) (line : string) (rest : list string)
    (err : pyexn) (before : list string) :
  computed_percent p line = Raise err ->
  forall last,
    snd (loop_result p last before) = None ->
    snd (loop_result p last (before ++ line :: rest)) = Some err.
Proof.
  intros Hl. induction before as [|b before IH]; intros last Hb.
  - cbn [app loop_result]. now rewrite Hl.
  - cbn [app loop_result] in *.
    destruct (computed_percent p b) as [op|e]; [|discriminate].
    specialize (IH (List.last (emitted_after last op) last)).
    destruct (loop_result p _ before) as [ps r]. cbn [snd] in *.
    specialize (IH Hb).
    destruct (loop_result p _ (before ++ line :: rest)) as [ps' r'].
    exact IH.
Qed.






(** * The ways out of a job *)

Section Endings.

Variable env : job_env.
Variables before after : user_action -> bool.
Variables Pre Post : world -> Prop.

Hypothesis Pre_status :
  forall w s, Pre w -> Pre (emit (status_updated s) w).
Hypothesis Pre_print :
  forall w s, Pre w -> Pre (log (Print s) w).
Hypothesis Pre_duration :
  forall w,
    Pre w -> Pre (with_self (set_total_duration (get_video_duration env)) w).
Hypothesis Pre_user :
  forall w a, before a = true -> Pre w -> Pre (user_call env w a).
Hypothesis Pre_spawn :
  forall w,
    Pre w -> eq_zero (get_video_duration env) = false ->
    popen_error env = None ->
    Post (spawn env (job_command env (self w)) w).
Hypothesis Post_user :
  forall w a, after a = true -> Post w -> Post (user_call env w a).
Hypothesis Post_sleep :
  forall w, Post w -> Post (log (Msleep 100) w).
Hypothesis Post_line :
  forall w w' tr,
    Post w -> self w' = self w -> output_exists w' = output_exists w ->
    trace w' = (trace w ++ tr)%list -> forallb line_effect tr = true ->
    Post w'.

Lemma user_calls_keep (ok : user_action -> bool) (I : world -> Prop)
    (calls : list user_action) :
  (forall w a, ok a = true -> I w -> I (user_call env w a)) ->
  forallb ok calls = true ->
  forall w, I w -> I (fold_left (user_call env) calls w).
Proof.
  intros Hstep. induction calls as [|a calls IH]; intros H w Hw; simpl; auto.
  simpl in H. apply andb_prop in H. destruct H as [Ha Hc].
  apply IH; auto.
Qed.

Lemma wait_paused_keeps (sch : schedule) :
  forall w,
    forallb (forallb after) sch = true -> Post w ->
    match wait_paused env sch w with
    | Awake w' sch' => Post w' /\ forallb (forallb after) sch' = true
    | Asleep w' =>
        Post w' /\ is_paused (self w') = true /\
        is_cancelled (self w') = false
    end.
Proof.
  induction sch as [|calls sch IH]; intros w Hs Hw; simpl.
  - destruct (is_paused (self w)) eqn:Hp; simpl; auto.
    destruct (is_cancelled (self w)) eqn:Hc; simpl; auto.
  - simpl in Hs. apply andb_prop in Hs. destruct Hs as [Hcalls Hs].
    destruct (is_paused (self w) && negb (is_cancelled (self w))).
    + apply IH; [exact Hs|].
      apply (user_calls_keep after Post calls Post_user Hcalls).
      now apply Post_sleep.
    + simpl. rewrite Hcalls, Hs. auto.
Qed.

Lemma read_loop_keeps (lines : list string) :
  forall cp sch w,
    forallb (forallb after) sch = true -> Post w ->
    match read_loop env lines cp sch w with
    | LoopEnd w' _ => Post w'
    | LoopRaise _ w' => Post w' /\ is_cancelled (self w') = false
    | LoopAsleep w' =>
        Post w' /\ is_paused (self w') = true /\
        is_cancelled (self w') = false
    end.
Proof.
  induction lines as [|line rest IH]; intros cp sch w Hs Hw.
  - destruct sch as [|calls sch]; simpl; auto.
    simpl in Hs. apply andb_prop in Hs. destruct Hs as [Hcalls Hs].
    now apply (user_calls_keep after Post calls Post_user Hcalls).
  - cbn [read_loop].
    assert (Post (fst (user_tick env sch w)) /\
            forallb (forallb after) (snd (user_tick env sch w)) = true)
      as [Hw1 Hs1].
    { destruct sch as [|calls sch]; simpl; auto.
      simpl in Hs. apply andb_prop in Hs. destruct Hs as [Hcalls Hs].
      split; [|exact Hs].
      now apply (user_calls_keep after Post calls Post_user Hcalls). }
    destruct (user_tick env sch w) as [w1 sch1]. cbn [fst snd] in Hw1, Hs1.
    destruct (is_cancelled (self w1)); [exact Hw1|].
    pose proof (wait_paused_keeps sch1 w1 Hs1 Hw1) as Hwait.
    destruct (wait_paused env sch1 w1) as [w2 sch2|w2]; [|exact Hwait].
    destruct Hwait as [Hw2 Hs2].
    destruct (is_cancelled (self w2)) eqn:Hc2; [exact Hw2|].
    pose proof (handle_line_spec line cp w2) as Hh.
    destruct (handle_line line cp w2) as [[cp' w3]|e]; [|auto].
    destruct Hh as (op & tr & _ & Hself & Hout & Htr & Hl & _ & _).
    apply IH; [exact Hs2|]. now apply (Post_line w2 w3 tr).
Qed.

(** A job that was not cancelled before it started takes one of the
    seven ways out. *)
Lemma run_ending (sch : schedule) (w : world) :
  schedule_within before after sch = true ->
  is_cancelled (self w) = false -> Pre w ->
  ending env Pre Post (run env sch w).
Proof.
  intros Hsch Hc Hw. unfold run. rewrite Hc.
  set (w0 := emit (status_updated "📊 Analyzing video...") w).
  assert (Pre w0) as H0 by (now apply Pre_status).
  assert (Pre (fst (user_tick env sch w0)) /\
          forallb (forallb before) (firstn 1 (snd (user_tick env sch w0)))
          = true /\
          forallb (forallb after) (skipn 1 (snd (user_tick env sch w0)))
          = true) as (H1 & Hb1 & Ha1).
  { unfold schedule_within in Hsch.
    apply andb_prop in Hsch. destruct Hsch as [Hb Ha].
    destruct sch as [|calls sch]; [simpl; auto|].
    cbn [firstn forallb] in Hb. cbn [skipn] in Ha.
    apply andb_prop in Hb. destruct Hb as [Hcalls Hb].
    cbn [user_tick fst snd]. split; [|split; [exact Hb | exact Ha]].
    now apply (user_calls_keep before Pre calls Pre_user Hcalls). }
  destruct (user_tick env sch w0) as [w1 sch1].
  cbn [fst snd] in H1, Hb1, Ha1.
  set (w1' := with_self (set_total_duration (get_video_duration env)) w1).
  assert (Pre w1') as H1' by (now apply Pre_duration).
  change (total_duration (self w1')) with (get_video_duration env).
  case_eq (eq_zero (get_video_duration env)); intros Hz.
  { now apply EndNoDuration. }
  destruct (is_cancelled (self w1')) eqn:Hc1.
  { now apply EndNotStarted. }
  assert (Pre (fst (user_tick env sch1 w1')) /\
          forallb (forallb after) (snd (user_tick env sch1 w1')) = true)
    as [H2 Hs2].
  { destruct sch1 as [|calls sch1]; [simpl; auto|].
    cbn [firstn forallb] in Hb1. cbn [skipn] in Ha1.
    apply andb_prop in Hb1. destruct Hb1 as [Hcalls _].
    cbn [user_tick fst snd]. split; [|exact Ha1].
    now apply (user_calls_keep before Pre calls Pre_user Hcalls). }
  destruct (user_tick env sch1 w1') as [w2 sch2]. cbn [fst snd] in H2, Hs2.
  pose proof (eq_refl : job_command env (self w2) = job_command env (self w2))
    as Hcmd.
  unfold job_command at 1 in Hcmd.
  destruct (get_optimal_encoder env) as [enc hw]. cbn [fst snd] in Hcmd.
  rewrite Hcmd.
  match goal with |- context [emit _ (log ?p ?x)] => set (w3 := log p x) end.
  assert (Pre w3) as H3.
  { unfold w3. apply Pre_print. apply Pre_status. now apply Pre_status. }
  case_eq (popen_error env); [intros msg Hpe|intros Hpe].
  { now apply EndPopenFailed. }
  change (job_command env (self w2)) with (job_command env (self w3)).
  pose proof (Pre_spawn w3 H3 Hz Hpe) as H4.
  pose proof (read_loop_keeps (stdout_lines env) 0 sch2 _ Hs2 H4) as H5.
  destruct (read_loop env (stdout_lines env) 0 sch2 _) as [w5 s5|e w5|w5].
  - destruct (is_cancelled (self w5)) eqn:Hc5; cbn [negb].
    + now apply EndCancelled.
    + now apply EndFinished.
  - destruct H5 as [H5 Hc5]. now apply EndRaised.
  - destruct H5 as (H5 & Hp5 & Hc5). now apply EndAsleep.
Qed.

End Endings.

(** ** What the controls change *)

Lemma remove_output_self (env : job_env) (w : world) :
  self (remove_output env w) = self w.
Proof.
  unfold remove_output.
  now destruct (output_exists w); [destruct (remove_error env)|].
Qed.

Lemma user_call_self (env : job_env) (w : world) (a : user_action) :
  self (user_call env w a)
  = match a with
    | UserPause => set_is_paused true (self w)
    | UserResume => set_is_paused false (self w)
    | UserCancel => set_is_cancelled true (self w)
    end.
Proof.
  destruct a; simpl.
  - unfold pause_processing. cbn [self with_self process set_is_paused].
    now destruct (process (self w)).
  - unfold resume_processing. cbn [self with_self process set_is_paused].
    now destruct (process (self w)).
  - unfold cancel_processing. cbn [self emit log].
    rewrite remove_output_self.
    cbn [self with_self process set_is_cancelled].
    now destruct (process (self w)).
Qed.

Lemma user_call_process (env : job_env) (w : world) (a : user_action) :
  process (self (user_call env w a)) = process (self w).
Proof. rewrite user_call_self. now destruct a. Qed.

Lemma user_call_same_request (env : job_env) (w : world) (a : user_action) :
  same_request (self (user_call env w a)) (self w).
Proof. rewrite user_call_self. destruct a; repeat split. Qed.

Lemma user_call_is_cancelled (env : job_env) (w : world) (a : user_action) :
  is_cancelled (self (user_call env w a))
  = is_cancelled (self w) || is_cancel a.
Proof.
  rewrite user_call_self.
  destruct a; cbn; rewrite ?orb_false_r, ?orb_true_r; reflexivity.
Qed.

Lemma user_call_spawned (env : job_env) (w : world) (a : user_action) :
  spawned (trace (user_call env w a)) = spawned (trace w).
Proof.
  destruct (user_call_extends env w a) as (tr & E & H).
  rewrite E, spawned_app.
  rewrite (spawned_none tr (forallb_impl _ _ _ user_effect_not_popen H)).
  apply app_nil_r.
Qed.

Lemma user_call_terminal_events (env : job_env) (w : world)
    (a : user_action) :
  terminal_events (trace (user_call env w a))
  = (terminal_events (trace w)
       ++ if is_cancel a then [cancel_event] else [])%list.
Proof.
  destruct a; cbn [user_call is_cancel].
  - unfold pause_processing. cbn [self with_self process set_is_paused].
    destruct (process (self w)); cbn [trace emit log with_self];
      rewrite <- ?app_assoc, terminal_events_app; cbn; reflexivity.
  - unfold resume_processing. cbn [self with_self process set_is_paused].
    destruct (process (self w)); cbn [trace emit log with_self];
      rewrite <- ?app_assoc, terminal_events_app; cbn; reflexivity.
  - apply cancel_processing_emits.
Qed.

Lemma remove_output_no_signal (env : job_env) (w : world) :
  extends no_signal w (remove_output env w).
Proof.
  unfold remove_output.
  destruct (output_exists w); [destruct (remove_error env)|]; by_trace.
Qed.

Lemma user_call_no_signal (env : job_env) (w : world) (a : user_action) :
  process (self w) = None -> extends no_signal w (user_call env w a).
Proof.
  intros Hp. destruct a; cbn [user_call].
  - unfold pause_processing. cbn [self with_self process set_is_paused].
    rewrite Hp. by_trace.
  - unfold resume_processing. cbn [self with_self process set_is_paused].
    rewrite Hp. by_trace.
  - unfold cancel_processing. cbn [self with_self process set_is_cancelled].
    rewrite Hp.
    set (w1 := with_self (set_is_cancelled true) w).
    apply extends_trans with (w2 := remove_output env w1).
    + apply extends_trans with (w2 := w1); [unfold w1; by_trace|].
      apply remove_output_no_signal.
    + by_trace.
Qed.

(** The calls of one tick made before the child exists. *)
Lemma user_calls_before_child (env : job_env) (calls : list user_action) :
  forall w,
    process (self w) = None ->
    let w' := fold_left (user_call env) calls w in
    process (self w') = None /\
    is_cancelled (self w') = is_cancelled (self w) || existsb is_cancel calls /\
    terminal_events (trace w')
    = (terminal_events (trace w)
         ++ repeat cancel_event (List.length (filter is_cancel calls)))%list /\
    spawned (trace w') = spawned (trace w) /\
    extends no_signal w w'.
Proof.
  induction calls as [|a calls IH]; intros w Hp; cbn [fold_left].
  - cbn. rewrite orb_false_r, app_nil_r.
    repeat split; auto using extends_refl.
  - destruct (IH (user_call env w a)) as (P & C & T & S & E).
    { now rewrite user_call_process. }
    cbn zeta. split; [exact P|]. split; [|split; [|split]].
    + rewrite C, user_call_is_cancelled. cbn [existsb].
      now rewrite orb_assoc.
    + rewrite T, user_call_terminal_events, <- app_assoc. f_equal.
      cbn [filter]. now destruct (is_cancel a).
    + now rewrite S, user_call_spawned.
    + eapply extends_trans; [now apply user_call_no_signal | exact E].
Qed.

Lemma job_command_same_request (env : job_env) (p q : processor) :
  same_request p q -> job_command env p = job_command env q.
Proof.
  intros (H1 & H2 & H3 & H4). unfold job_command, build_command.
  now rewrite H1, H2, H3, H4.
Qed.

Lemma schedule_within_any (sch : schedule) :
  schedule_within any_action any_action sch = true.
Proof.
  assert (forall l : schedule, forallb (forallb any_action) l = true) as H.
  { induction l as [|calls l IH]; simpl; auto. rewrite IH, andb_true_r.
    now induction calls. }
  unfold schedule_within. now rewrite !H.
Qed.

Lemma finish_adds (env : job_env) (w : world) :
  self (finish env w) = self w /\
  output_exists (finish env w) = output_exists w /\
  exists tr,
    trace (finish env w) = (trace w ++ tr)%list /\
    forallb not_popen tr = true /\ forallb no_signal tr = true.
Proof.
  unfold finish. destruct (returncode env =? 0).
  - repeat split. cbn [trace emit log]. rewrite <- !app_assoc. cbn [app].
    eexists. repeat split.
  - repeat split. cbn [trace emit log]. rewrite <- !app_assoc. cbn [app].
    eexists. repeat split.
Qed.

Lemma cancel_processing_spawned (env : job_env) (w : world) :
  spawned (trace (cancel_processing env w)) = spawned (trace w).
Proof. apply (user_call_spawned env w UserCancel). Qed.

Lemma line_effect_no_signal (e : effect) :
  line_effect e = true -> no_signal e = true.
Proof. now destruct e as [[]| | | | | | | |]. Qed.

Lemma forallb_no_signal_app (a b : list effect) :
  forallb no_signal a = true -> forallb no_signal b = true ->
  forallb no_signal (a ++ b) = true.
Proof. intros Ha Hb. now rewrite forallb_app, Ha, Hb. Qed.

(** ** The child of a job *)

(** X5. Whatever the user does and whatever the tools answer, a job
    starts at most one child, and the command of that child is the
    one built from the request the job was created with and from the
    encoder chosen for the host; a job whose probe gives no duration or
    whose [Popen] fails starts none. *)
Theorem run_starts_at_most_one_child
    (env : job_env) (sch : schedule) (w : world) :
  spawned (trace w) = [] -> is_cancelled (self w) = false ->
  (spawned (trace (final (run env sch w))) = [] \/
   spawned (trace (final (run env sch w))) = [job_command env (self w)]) /\
  (starts_child env = false ->
   spawned (trace (final (run env sch w))) = []).
Proof.
  intros Hs Hc.
  assert (forall x e, not_popen e = true ->
            spawned (trace (log e x)) = spawned (trace x)) as Hlog.
  { intros x e He. cbn [trace log]. rewrite spawned_app.
    rewrite (spawned_none [e]) by (cbn; now rewrite He).
    apply app_nil_r. }
  assert (ending env
            (fun x => spawned (trace x) = []
                      /\ same_request (self x) (self w))
            (fun x => spawned (trace x) = [job_command env (self w)]
                      /\ starts_child env = true)
            (run env sch w)) as H.
  { apply (run_ending env any_action any_action); cbn beta.
    - intros x s [A B]. split; [unfold emit; now rewrite Hlog | exact B].
    - intros x s [A B]. split; [now rewrite Hlog | exact B].
    - intros x [A B]. split; [exact A|].
      destruct B as (B1 & B2 & B3 & B4). repeat split; assumption.
    - intros x a _ [A B]. split; [now rewrite user_call_spawned|].
      destruct (user_call_same_request env x a) as (U1 & U2 & U3 & U4).
      destruct B as (B1 & B2 & B3 & B4). repeat split; congruence.
    - intros x [A B] Hz Hpe. split.
      + unfold spawn. cbn [trace with_output with_self log].
        rewrite spawned_app, A.
        now rewrite (job_command_same_request env _ _ B).
      + unfold starts_child. now rewrite Hz, Hpe.
    - intros x a _ [A S]. split; [now rewrite user_call_spawned | exact S].
    - intros x [A S]. split; [now rewrite Hlog | exact S].
    - intros x x' tr [A S] _ _ E L. split; [|exact S].
      rewrite E, spawned_app, A.
      now rewrite (spawned_none tr
                     (forallb_impl _ _ _ line_effect_not_popen L)).
    - apply schedule_within_any.
    - exact Hc.
    - split; [exact Hs | repeat split]. }
  destruct H as [x [A _] Hz|x [A _] Hz _|x msg [A _] Hz Hpe|x [A S] _ _
                |x e [A S] _|x [A S] _|x [A S] _]; cbn [final].
  - unfold emit. rewrite Hlog, A by reflexivity. auto.
  - rewrite A. auto.
  - unfold emit. rewrite Hlog, A by reflexivity. auto.
  - rewrite A, S. split; [auto | discriminate].
  - unfold emit. rewrite Hlog, A, S by reflexivity.
    split; [auto | discriminate].
  - destruct (finish_adds env x) as (_ & _ & tr & E & P & _).
    rewrite E, spawned_app, A, (spawned_none tr P), S.
    split; [auto | discriminate].
  - rewrite cancel_processing_spawned, A, S. split; [auto | discriminate].
Qed.

Lemma run_starts_at_most_one_child_witness :
  spawned (trace (final (run (sample_env ["frame=1"; "out_time=00:00:12.50"])
                           [[UserPause]; []; [UserResume]; [UserCancel]]
                           (init_world sample_processor false))))
  = [job_command (sample_env ["frame=1"; "out_time=00:00:12.50"])
       sample_processor].
Proof.
  destruct (run_starts_at_most_one_child
              (sample_env ["frame=1"; "out_time=00:00:12.50"])
              [[UserPause]; []; [UserResume]; [UserCancel]]
              (init_world sample_processor false) eq_refl eq_refl)
    as [[H|H] _]; [|exact H].
  vm_compute in H. discriminate.
Defined.

(** ** Cancelling *)

Lemma cancel_counted_same (w w' : world) :
  terminal_events (trace w') = terminal_events (trace w) ->
  is_cancelled (self w') = is_cancelled (self w) ->
  cancel_counted w -> cancel_counted w'.
Proof.
  intros Ht Hc (k & T & C). exists k. rewrite Ht, Hc. auto.
Qed.

Lemma cancel_counted_log (e : effect) (w : world) :
  not_terminal e = true -> cancel_counted w -> cancel_counted (log e w).
Proof.
  intros He. apply cancel_counted_same; [|reflexivity].
  cbn [trace log]. rewrite terminal_events_app.
  rewrite (terminal_events_none [e]) by (cbn; now rewrite He).
  apply app_nil_r.
Qed.

Lemma repeat_snoc (A : Type) (x : A) (k : nat) :
  (repeat x k ++ [x])%list = repeat x (S k).
Proof. induction k as [|k IH]; simpl in *; congruence. Qed.

Lemma cancel_counted_user_call (env : job_env) (w : world)
    (a : user_action) :
  cancel_counted w -> cancel_counted (user_call env w a).
Proof.
  intros (k & T & C).
  destruct (is_cancel a) eqn:Ha.
  - exists (S k). rewrite user_call_terminal_events, Ha, T, repeat_snoc.
    split; [reflexivity | intros; lia].
  - exists k. rewrite user_call_terminal_events, Ha, T, app_nil_r.
    rewrite user_call_is_cancelled, Ha, orb_false_r. auto.
Qed.

Lemma cancel_processing_stops_child (env : job_env) (w : world) :
  process (self w) <> None ->
  exists a,
    trace (cancel_processing env w)
    = (trace w ++ Terminate :: Wait :: a
         ++ [Emit (status_updated "❌ Processing cancelled");
             Emit cancelled;
             Emit (finished false "Processing was cancelled by user")])%list
    /\ forallb no_signal a = true.
Proof.
  intros Hp. unfold cancel_processing.
  cbn [self with_self process set_is_cancelled].
  destruct (process (self w)) as [cmd|]; [clear Hp|congruence].
  set (w1 := log Wait (log Terminate (with_self (set_is_cancelled true) w))).
  destruct (remove_output_no_signal env w1) as (a & E & H).
  exists a. split; [|exact H].
  cbn [trace emit log]. rewrite E. unfold w1. cbn [trace log with_self].
  rewrite <- !app_assoc. reflexivity.
Qed.



(** X7. A cancel that arrives while the input is being probed keeps
    the job from ever starting a child: [run] returns without spawning,
    signalling or stopping anything.  The terminal events are the
    cancellations of that tick, one per call, followed by one more
    Failed event when the probe gave no duration, since the duration
    is looked at before the flag. *)
Theorem cancel_during_probe_never_starts_child
    (env : job_env) (calls : list user_action) (rest : schedule)
    (w : world) :
  trace w = [] -> is_cancelled (self w) = false ->
  process (self w) = None ->
  existsb is_cancel calls = true ->
  exists w',
    run env (calls :: rest) w = Returned w' /\
    spawned (trace w') = [] /\
    forallb no_signal (trace w') = true /\
    terminal_events (trace w')
    = (repeat cancel_event (List.length (filter is_cancel calls))
         ++ if eq_zero (get_video_duration env)
            then [(false, "Could not determine video duration")]
            else [])%list.
Proof.
  intros Ht Hc Hp Hex. unfold run. rewrite Hc. cbn [user_tick].
  set (w0 := emit (status_updated "📊 Analyzing video...") w).
  destruct (user_calls_before_child env calls w0 Hp)
    as (P & C & T & S & (tr & E & N)).
  set (w1 := fold_left (user_call env) calls w0) in *.
  assert (trace w0 = [Emit (status_updated "📊 Analyzing video...")]) as E0
      by (unfold w0; cbn [trace emit log]; now rewrite Ht).
  change (is_cancelled (self w0)) with (is_cancelled (self w)) in C.
  rewrite Hc, Hex in C. cbn [orb] in C.
  rewrite E0 in T, S, E. cbn in T, S.
  cbn [self with_self total_duration set_total_duration is_cancelled].
  destruct (eq_zero (get_video_duration env)).
  - eexists. split; [reflexivity|]. cbn [trace emit log with_self].
    rewrite spawned_app, terminal_events_app, forallb_app, S, T, E.
    cbn [forallb no_signal app andb]. rewrite N. auto.
  - rewrite C. eexists. split; [reflexivity|]. cbn [trace with_self].
    rewrite S, T, E, app_nil_r. cbn [forallb no_signal app andb]. auto.
Qed.

Lemma cancel_during_probe_never_starts_child_witness :
  exists w',
    run (with_probe ProbeNoDuration (sample_env []))
      ([UserPause; UserCancel] :: []) (init_world sample_processor false)
    = Returned w' /\
    spawned (trace w') = [] /\
    forallb no_signal (trace w') = true /\
    terminal_events (trace w')
    = [cancel_event; (false, "Could not determine video duration")].
Proof.
  apply (cancel_during_probe_never_starts_child
           (with_probe ProbeNoDuration (sample_env []))
           [UserPause; UserCancel] [] (init_world sample_processor false)
           eq_refl eq_refl eq_refl eq_refl).
Defined.

(** ** Pausing before the child exists *)

(** X8. When the user pauses and resumes only while the input is
    probed and the encoder chosen, no signal ever reaches the child:
    the controls find no process to signal, the child is started
    whatever the paused flag says, and nothing stops it afterwards. *)
Theorem pause_before_child_never_reaches_it
    (env : job_env) (sch : schedule) (w : world) :
  trace w = [] -> is_cancelled (self w) = false ->
  process (self w) = None ->
  schedule_within not_cancel no_action sch = true ->
  forallb no_signal (trace (final (run env sch w))) = true /\
  (starts_child env = true ->
   spawned (trace (final (run env sch w))) <> []).
Proof.
  intros Ht Hc Hp Hsch.
  assert (forall x e, no_signal e = true ->
            forallb no_signal (trace x) = true ->
            forallb no_signal (trace (log e x)) = true) as Hlog.
  { intros x e He Hx. cbn [trace log]. rewrite forallb_app, Hx. cbn.
    now rewrite He. }
  assert (ending env
            (fun x => process (self x) = None
                      /\ is_cancelled (self x) = false
                      /\ forallb no_signal (trace x) = true)
            (fun x => spawned (trace x) <> []
                      /\ is_cancelled (self x) = false
                      /\ forallb no_signal (trace x) = true)
            (run env sch w)) as H.
  { apply (run_ending env not_cancel no_action); cbn beta.
    - intros x s (A & B & C). repeat split; auto; now apply Hlog.
    - intros x s (A & B & C). repeat split; auto; now apply Hlog.
    - intros x (A & B & C). repeat split; auto.
    - intros x a Ha (A & B & C). split; [|split].
      + now rewrite user_call_process.
      + rewrite user_call_is_cancelled, B. unfold not_cancel in Ha.
        now destruct (is_cancel a).
      + destruct (user_call_no_signal env x a A) as (tr & E & N).
        now rewrite E, forallb_app, C, N.
    - intros x (A & B & C) _ _. unfold spawn.
      cbn [trace with_output with_self log self is_cancelled set_process].
      split; [|split; [exact B|]].
      + rewrite spawned_app. intros H. apply app_eq_nil in H.
        destruct H as [_ H]. discriminate.
      + now rewrite forallb_app, C.
    - intros x a Ha. discriminate.
    - intros x (A & B & C). split; [|split; [exact B | now apply Hlog]].
      cbn [trace log]. rewrite spawned_app. intros H.
      apply app_eq_nil in H. now destruct H.
    - intros x x' tr (A & B & C) Hself _ E L. split; [|split].
      + rewrite E, spawned_app. intros H. apply app_eq_nil in H.
        now destruct H.
      + now rewrite Hself.
      + rewrite E, forallb_app, C.
        now rewrite (forallb_impl _ _ _ line_effect_no_signal L).
    - exact Hsch.
    - exact Hc.
    - rewrite Ht. auto. }
  unfold starts_child.
  destruct H as [x (A & B & C) Hz|x (A & B & C) Hz Hx
                |x msg (A & B & C) Hz Hpe
                |x (A & B & C) _ _|x e (A & B & C) _
                |x (A & B & C) _|x (A & B & C) Hx]; cbn [final].
  - rewrite Hz. split; [now apply Hlog | discriminate].
  - congruence.
  - rewrite Hz, Hpe. split; [now apply Hlog | discriminate].
  - auto.
  - split; [now apply Hlog|]. intros _. cbn [trace emit log].
    rewrite spawned_app. intros H. apply app_eq_nil in H. now destruct H.
  - destruct (finish_adds env x) as (_ & _ & tr & E & _ & N).
    rewrite E. split; [now rewrite forallb_app, C, N|].
    intros _. rewrite spawned_app. intros H. apply app_eq_nil in H.
    now destruct H.
  - congruence.
Qed.

Lemma pause_before_child_never_reaches_it_witness :
  forallb no_signal
    (trace (final (run (sample_env ["frame=1"; "out_time=00:00:12.50"])
                     [[UserPause]; [UserResume; UserPause]]
                     (init_world sample_processor false)))) = true /\
  spawned
    (trace (final (run (sample_env ["frame=1"; "out_time=00:00:12.50"])
                     [[UserPause]; [UserResume; UserPause]]
                     (init_world sample_processor false)))) <> [].
Proof.
  destruct (pause_before_child_never_reaches_it
              (sample_env ["frame=1"; "out_time=00:00:12.50"])
              [[UserPause]; [UserResume; UserPause]]
              (init_world sample_processor false)
              eq_refl eq_refl eq_refl eq_refl) as [N S].
  split; [exact N | exact (S eq_refl)].
Defined.

(** * The main window *)

(** ** A batch from start to end *)

Section BatchEnd.

Variable basename : string -> string.
Variable splitext_root : string -> string.
Variable path_join : string -> string -> string.
Variable size_report : cutter -> option string.

Hypothesis size_report_line :
  forall c, size_report c <> Some all_done_line.

Lemma process_next_file_log (c : cutter) (file : string) :
  nth_error (selected_files c) (current_processing c) = Some file ->
  ~ In all_done_line (log_text c) ->
  let c' := fst (process_next_file basename splitext_root path_join c) in
  ~ In all_done_line (log_text c') /\
  output_directory c' = output_directory c /\
  gui_is_paused c' = gui_is_paused c.
Proof.
  intros H Hlog. unfold process_next_file. rewrite H.
  cbn [fst log_text append_log output_directory gui_is_paused].
  split; [|auto]. rewrite <- app_assoc. intros Hin.
  apply in_app_or in Hin. destruct Hin as [Hin|Hin]; [now apply Hlog|].
  destruct Hin as [Hin|[Hin|[]]]; unfold all_done_line in Hin;
    cbn in Hin; discriminate.
Qed.

Lemma on_processing_finished_log (ok : bool) (msg : string) (c : cutter) :
  ~ In all_done_line (log_text c) ->
  let c' := fst (on_processing_finished size_report ok msg c) in
  ~ In all_done_line (log_text c') /\
  output_directory c' = output_directory c.
Proof.
  intros Hlog. unfold on_processing_finished.
  set (c1 := if ok then _ else _).
  assert (~ In all_done_line (log_text c1) /\
          output_directory c1 = output_directory c) as [H1 H2].
  { subst c1. destruct ok.
    - destruct (size_report (append_log ("✅ " ++ msg) c)) as [line|] eqn:Hs;
        cbn [log_text append_log output_directory]; (split; [|reflexivity]).
      + rewrite <- app_assoc. intros Hin. apply in_app_or in Hin.
        destruct Hin as [Hin|[Hin|[Hin|[]]]]; [now apply Hlog| |].
        * unfold all_done_line in Hin. cbn in Hin. discriminate.
        * apply (size_report_line (append_log ("✅ " ++ msg) c)).
          now rewrite Hs, Hin.
      + intros Hin. apply in_app_or in Hin.
        destruct Hin as [Hin|[Hin|[]]]; [now apply Hlog|].
        unfold all_done_line in Hin. cbn in Hin. discriminate.
    - cbn [log_text append_log output_directory]. split; [|reflexivity].
      intros Hin. apply in_app_or in Hin.
      destruct Hin as [Hin|[Hin|[]]]; [now apply Hlog|].
      unfold all_done_line in Hin. cbn in Hin. discriminate. }
  cbn [is_processing set_current_processing selected_files
       current_processing].
  destruct (negb (is_processing c1)); [auto|].
  destruct (_ <=? _)%nat; auto.
Qed.

(** When the slot does not arm the timer although the batch is
    processing, the batch is over and both flags are cleared. *)
Lemma on_processing_finished_last (ok : bool) (msg : string) (c : cutter) :
  is_processing c = true ->
  snd (on_processing_finished size_report ok msg c) = false ->
  let c' := fst (on_processing_finished size_report ok msg c) in
  is_processing c' = false /\ gui_is_paused c' = false.
Proof.
  intros Hp. unfold on_processing_finished.
  set (c1 := if ok then _ else _).
  assert (is_processing c1 = true) as Hp1.
  { subst c1. destruct ok; [destruct (size_report _)|]; cbn; auto. }
  cbn [is_processing set_current_processing selected_files
       current_processing].
  rewrite Hp1. cbn [negb].
  destruct (_ <=? _)%nat; cbn; [auto | discriminate].
Qed.

Lemma on_processing_finished_paused (ok : bool) (msg : string) (c : cutter) :
  snd (on_processing_finished size_report ok msg c) = true ->
  gui_is_paused (fst (on_processing_finished size_report ok msg c))
  = gui_is_paused c.
Proof.
  unfold on_processing_finished.
  set (c1 := if ok then _ else _).
  assert (gui_is_paused c1 = gui_is_paused c) as Hp1.
  { subst c1. destruct ok; [destruct (size_report _)|]; cbn; auto. }
  cbn [is_processing set_current_processing selected_files
       current_processing].
  destruct (negb (is_processing c1)); [discriminate|].
  destruct (_ <=? _)%nat; cbn; [discriminate | auto].
Qed.

Lemma run_batch_final (envs : nat -> job_env) (fuel : nat) :
  forall c,
    is_processing c = true ->
    (current_processing c < List.length (selected_files c))%nat ->
    (List.length (selected_files c) - current_processing c <= fuel)%nat ->
    ~ In all_done_line (log_text c) ->
    let c' := fst (run_batch basename splitext_root path_join size_report
                     fuel envs c) in
    current_processing c' = List.length (selected_files c) /\
    is_processing c' = false /\ gui_is_paused c' = false /\
    selected_files c' = selected_files c /\
    output_directory c' = output_directory c /\
    ~ In all_done_line (log_text c').
Proof.
  induction fuel as [|fuel IH]; intros c Hp Hlt Hfuel Hlog; [lia|].
  destruct (nth_error (selected_files c) (current_processing c))
    as [file|] eqn:Hnth; [|apply nth_error_None in Hnth; lia].
  destruct (process_next_file_spec basename splitext_root path_join
              c file Hnth)
    as (c2 & p & Hpn & Hin & Hpc & Hpp & Hf2 & Hi2 & Hp2).
  pose proof (process_next_file_log c file Hnth Hlog) as Hl2.
  rewrite Hpn in Hl2. cbn [fst] in Hl2. destruct Hl2 as (Hl2 & Ho2 & Hg2).
  destruct (run_unattended (envs (current_processing c2))
              (init_world p false) eq_refl Hpc Hpp)
    as (w' & ok & msg & Hrun & Hterm).
  pose proof (on_processing_finished_spec size_report ok msg c2) as Hon.
  rewrite Hp2 in Hon. specialize (Hon Hp).
  cbn zeta in Hon. destruct Hon as (Hi3 & Hf3 & Harm & Hp3).
  pose proof (on_processing_finished_log ok msg c2 Hl2) as Hl3.
  pose proof (on_processing_finished_last ok msg c2) as Hlast.
  rewrite Hp2 in Hlast. specialize (Hlast Hp).
  cbn zeta in Hl3, Hlast.
  cbn [run_batch]. rewrite Hpn, Hrun.
  rewrite (deliver_one size_report _ _ _ _ Hterm).
  destruct (on_processing_finished size_report ok msg c2) as [c3 armed].
  cbn [fst snd] in *. destruct Hl3 as [Hl3 Ho3].
  destruct armed.
  - assert (S (current_processing c2) < List.length (selected_files c2))%nat
      as Hlt3 by (now apply Harm).
    destruct (IH c3) as (A & B & C & D & E & F).
    { now apply Hp3. }
    { rewrite Hi3, Hf3. exact Hlt3. }
    { rewrite Hi3, Hf3, Hf2, Hi2. lia. }
    { exact Hl3. }
    destruct (run_batch _ _ _ _ fuel envs c3) as [c4 jobs].
    cbn [fst] in *.
    repeat split; try congruence.
  - assert (~ (S (current_processing c2)
               < List.length (selected_files c2))%nat) as Hge
        by (intros H; apply Harm in H; discriminate).
    destruct (Hlast eq_refl) as [B C]. cbn [fst].
    repeat split; try congruence; try assumption.
    rewrite Hi3. rewrite Hf2, Hi2 in *. lia.
Qed.


End BatchEnd.


(** ** The pause button *)

Lemma pause_processing_delivers (w : world) :
  delivered (trace (pause_processing w))
  = (delivered (trace w)
       ++ match process (self w) with
          | Some _ => [SIGSTOP]
          | None => []
          end)%list.
Proof.
  unfold pause_processing. cbn [self with_self process set_is_paused].
  unfold delivered.
  destruct (process (self w)); cbn [trace emit log with_self];
    rewrite !flat_map_app; cbn; now rewrite ?app_nil_r.
Qed.

Lemma resume_processing_delivers (w : world) :
  delivered (trace (resume_processing w))
  = (delivered (trace w)
       ++ match process (self w) with
          | Some _ => [SIGCONT]
          | None => []
          end)%list.
Proof.
  unfold resume_processing. cbn [self with_self process set_is_paused].
  unfold delivered.
  destruct (process (self w)); cbn [trace emit log with_self];
    rewrite !flat_map_app; cbn; now rewrite ?app_nil_r.
Qed.

Lemma set_flags_twice (p a b : bool) (c : cutter) :
  set_flags p a (set_flags p b c) = set_flags p a c.
Proof. reflexivity. Qed.

(** X10. While a batch is processing, the pause button toggles: as
    long as the flag of the window agrees with the flag of the
    processor before the first click, it agrees after any number of
    clicks, both having flipped once per click; the job, its cancel
    flag, its child and the output file are left alone; and a child,
    if there is one, receives SIGSTOP and SIGCONT in turn, one signal
    per click. *)
Theorem pause_button_keeps_flags_in_step
    (n : nat) (c : cutter) (w : world) :
  is_processing c = true -> gui_is_paused c = is_paused (self w) ->
  exists w',
    pause_clicks n c (Some w)
    = (set_flags true (xorb (gui_is_paused c) (Nat.odd n)) c, Some w') /\
    is_paused (self w') = xorb (gui_is_paused c) (Nat.odd n) /\
    undisturbed w w' /\
    delivered (trace w')
    = (delivered (trace w)
         ++ match process (self w) with
            | Some _ => toggles n (gui_is_paused c)
            | None => []
            end)%list.
Proof.
  revert c w. induction n as [|n IH]; intros c w Hp Hsync.
  - exists w. cbn [pause_clicks Nat.odd Nat.even toggles].
    rewrite xorb_false_r. split; [|split; [auto|split]].
    + destruct c. cbn in Hp. subst. reflexivity.
    + apply undisturbed_refl.
    + destruct (process (self w)); now rewrite app_nil_r.
  - cbn [pause_clicks Window.pause_processing]. rewrite Hp.
    assert (Nat.odd (S n) = negb (Nat.odd n)) as Hodd
        by (rewrite Nat.odd_succ, <- Nat.negb_odd; reflexivity).
    rewrite Hodd.
    destruct (gui_is_paused c) eqn:Hg; cbn [negb].
    + destruct (IH (set_flags true false c) (resume_processing w))
        as (w' & E & P & U & D).
      { reflexivity. }
      { unfold resume_processing.
        cbn [self with_self process set_is_paused].
        now destruct (process (self w)). }
      exists w'. cbn [gui_is_paused set_flags] in E, P, D.
      rewrite xorb_false_l in E, P. rewrite xorb_true_l, negb_involutive.
      rewrite E, set_flags_twice. split; [reflexivity|].
      split; [exact P|]. split.
      * eapply undisturbed_trans; [apply resume_processing_undisturbed|].
        exact U.
      * rewrite D, resume_processing_delivers.
        destruct (resume_processing_undisturbed w) as (_ & _ & _ & Hpr & _).
        rewrite Hpr. destruct (process (self w));
          rewrite <- ?app_assoc; reflexivity.
    + destruct (IH (set_flags true true c) (pause_processing w))
        as (w' & E & P & U & D).
      { reflexivity. }
      { unfold pause_processing.
        cbn [self with_self process set_is_paused].
        now destruct (process (self w)). }
      exists w'. cbn [gui_is_paused set_flags] in E, P, D.
      rewrite xorb_true_l in E, P. rewrite xorb_false_l.
      rewrite E, set_flags_twice. split; [reflexivity|].
      split; [exact P|]. split.
      * eapply undisturbed_trans; [apply pause_processing_undisturbed|].
        exact U.
      * rewrite D, pause_processing_delivers.
        destruct (pause_processing_undisturbed w) as (_ & _ & _ & Hpr & _).
        rewrite Hpr. destruct (process (self w));
          rewrite <- ?app_assoc; reflexivity.
Qed.

Lemma pause_button_keeps_flags_in_step_witness :
  exists w',
    pause_clicks 3 sample_cutter
      (Some (spawn (sample_env []) ["ffmpeg"]
               (init_world sample_processor false)))
    = (set_flags true true sample_cutter, Some w') /\
    is_paused (self w') = true /\
    delivered (trace w') = [SIGSTOP; SIGCONT; SIGSTOP].
Proof.
  destruct (pause_button_keeps_flags_in_step 3 sample_cutter
              (spawn (sample_env []) ["ffmpeg"]
                 (init_world sample_processor false)) eq_refl eq_refl)
    as (w' & E & P & _ & D).
  exists w'. split; [exact E|]. split; [exact P | exact D].
Defined.

(** ** Dropped files *)

Lemma lower_char_idempotent (c : ascii) :
  DropZone.lower_char (DropZone.lower_char c) = DropZone.lower_char c.
Proof.
  destruct c as [[] [] [] [] [] [] [] []]; vm_compute; reflexivity.
Qed.

Lemma lower_idempotent (s : string) :
  DropZone.lower (DropZone.lower s) = DropZone.lower s.
Proof.
  induction s as [|c s IH]; simpl; [reflexivity|].
  now rewrite lower_char_idempotent, IH.
Qed.

Lemma lower_app (a b : string) :
  DropZone.lower (a ++ b) = DropZone.lower a ++ DropZone.lower b.
Proof. induction a as [|c a IH]; simpl; congruence. Qed.

Lemma endswith_refl (s : string) : DropZone.endswith s s = true.
Proof.
  destruct s; cbn [DropZone.endswith]; now rewrite String.eqb_refl.
Qed.

Lemma endswith_app (suffix x : string) :
  DropZone.endswith suffix (x ++ suffix) = true.
Proof.
  induction x as [|c x IH]; [apply endswith_refl|].
  cbn [append DropZone.endswith]. rewrite IH.
  now destruct (_ =? _)%string.
Qed.

Lemma fold_left_filter (p : string -> bool) (l acc : list string) :
  fold_left (fun files x => if p x then (files ++ [x])%list else files) l acc
  = (acc ++ filter p l)%list.
Proof.
  revert acc; induction l as [|x l IH]; intros acc; simpl.
  - now rewrite app_nil_r.
  - rewrite IH. destruct (p x); [|reflexivity].
    now rewrite <- app_assoc.
Qed.

(** No string that ends in [.m4v] ends in one of the accepted
    suffixes. *)
Lemma m4v_not_video (stem : string) :
  existsb (fun suffix => DropZone.endswith suffix (stem ++ ".m4v"))
    DropZone.video_suffixes = false.
Proof.
  induction stem as [|c stem IH]; [vm_compute; reflexivity|].
  cbn [existsb DropZone.video_suffixes] in *.
  cbn [append DropZone.endswith].
  repeat match goal with
         | |- context [(String c (stem ++ ".m4v") =? ?ext)%string] =>
             let E := fresh "E" in
             destruct (String.eqb_spec (String c (stem ++ ".m4v")) ext) as [E|_];
             [exfalso; clear IH; injection E as _ E;
              do 6 (try (destruct stem as [|? stem]; cbn in E;
                         try discriminate; injection E as _ E))|]
         end.
  exact IH.
Qed.



(** ** Where the tools are *)

(** X12. Each tool is taken from the first place, in the order bundle
    assets, bundle root (both only when the program runs frozen) and
    the assets folder next to the script, where a file exists; when
    there is none the bare name is returned and left to the search
    path.  So the path returned is the bare name or names an existing
    file. *)
Theorem tool_paths_first_existing
    (path_join : string -> string -> string) (path_exists : string -> bool)
    (bundle_dir : option string) (script_dir : string) :
  let ffmpeg := get_ffmpeg_path path_join path_exists bundle_dir script_dir in
  let ffprobe :=
    get_ffprobe_path path_join path_exists bundle_dir script_dir in
  ffmpeg
  = match find path_exists
            (candidates path_join bundle_dir script_dir "ffmpeg") with
    | Some p => p
    | None => "ffmpeg"
    end /\
  ffprobe
  = match find path_exists
            (candidates path_join bundle_dir script_dir "ffprobe") with
    | Some p => p
    | None => "ffprobe"
    end /\
  (ffmpeg = "ffmpeg" \/ path_exists ffmpeg = true) /\
  (ffprobe = "ffprobe" \/ path_exists ffprobe = true).
Proof.
  unfold get_ffmpeg_path, get_ffprobe_path, candidates.
  destruct bundle_dir as [b|]; cbn [app find];
    repeat match goal with
           | |- context [if path_exists ?p then _ else _] =>
               let E := fresh "E" in destruct (path_exists p) eqn:E
           end;
    repeat split; auto.
Qed.

(** ** The command of a job *)

(** X13. Whatever the platform and the capability list, the command
    of a job has one of five shapes, given by the encoder chosen:
    hardware acceleration is requested, before the input, exactly for
    the four hardware encoders, each with its own mode; the software
    encoder, VideoToolbox, NVENC and Quick Sync get their tuning
    options, VAAPI gets none; the rest of the command is the same. *)
Theorem job_command_has_one_of_five_shapes (env : job_env) (p : processor) :
  exists accel opts,
    In (fst (get_optimal_encoder env), snd (get_optimal_encoder env),
        accel, opts) command_shapes /\
    job_command env p
    = ([ffmpeg_path env] ++ accel
         ++ ["-i"; input_path p; "-threads"; "0";
             "-vf"; select_filter (take_duration p + skip_duration p)
                      (take_duration p);
             "-af"; aselect_filter (take_duration p + skip_duration p)
                      (take_duration p);
             "-c:v"; fst (get_optimal_encoder env)]
         ++ opts
         ++ ["-c:a"; "aac"; "-b:a"; "128k";
             "-avoid_negative_ts"; "make_zero";
             "-max_muxing_queue_size"; "9999";
             "-fflags"; "+genpts"; "-movflags"; "+faststart";
             "-progress"; "pipe:1"; "-y"; output_path p])%list.
Proof.
  unfold job_command, get_optimal_encoder, command_shapes.
  destruct (encoders env) as [encs|];
    repeat match goal with
           | |- context [if ?b then _ else _] => destruct b
           end;
    cbn [fst snd]; do 2 eexists;
    (split; [cbn [In]; eauto 6 | reflexivity]).
Qed.

(** X14. The command shown in the preview box carries, between double
    quotes, the very filter arguments that a job with the same take
    and skip values passes to the tool after [-vf] and [-af]. *)
Theorem update_preview_shows_the_filters
    (ffmpeg : string) (p : processor) (video_encoder hwaccel : string) :
  exists vf af,
    (exists pre post : list string,
       build_command ffmpeg p video_encoder hwaccel
       = (pre ++ ["-vf"; vf; "-af"; af] ++ post)%list) /\
    Window.update_preview (take_duration p) (skip_duration p)
    = "ffmpeg -i input.mp4 \" ++ String "010"
        ("  -vf " ++ String "034" (vf ++ String "034"
        (" \" ++ String "010"
        ("  -af " ++ String "034" (af ++ String "034"
        (" \" ++ String "010"
        ("  -avoid_negative_ts make_zero \" ++ String "010"
        ("  -max_muxing_queue_size 9999 \" ++ String "010"
        ("  -progress pipe:1 \" ++ String "010"
         "  output.mp4"))))))))).
Proof.
  exists (select_filter (take_duration p + skip_duration p) (take_duration p)),
    (aselect_filter (take_duration p + skip_duration p) (take_duration p)).
  split.
  - unfold build_command.
    exists ([ffmpeg]
              ++ (if (hwaccel =? "auto")%string then []
                  else ["-hwaccel"; hwaccel])
              ++ ["-i"; input_path p; "-threads"; "0"])%list.
    eexists. rewrite <- !app_assoc. cbn [app]. reflexivity.
  - unfold Window.update_preview, select_filter, aselect_filter.
    cbn zeta. repeat (rewrite ?append_assoc; cbn [append]). reflexivity.
Qed.

(** * The build script *)

Section BuildFacts.

Variable path_join : string -> string -> string.
Variable script_dir : string.

Lemma check_dependencies_harmless (h : Build.host) (s : Build.state) :
  Build.files (Build.final_state (Build.check_dependencies h s))
  = Build.files s /\
  exists tr,
    Build.done (Build.final_state (Build.check_dependencies h s))
    = (Build.done s ++ tr)%list /\
    forallb Build.harmless tr = true /\
    (forall s', Build.check_dependencies h s = Build.Done true s' ->
       Build.pyqt6_found h = true).
Proof.
  unfold Build.check_dependencies.
  destruct (Build.pyinstaller_version h) as [v|];
    [|destruct (Build.pip_install_ok h)];
    try destruct (Build.pyqt6_found h);
    cbn [Build.final_state Build.files Build.done Build.say Build.act];
    (split; [reflexivity|]); rewrite <- ?app_assoc; cbn [app];
    eexists; (split; [reflexivity|]); (split; [reflexivity|]);
    intros s' H; try discriminate; reflexivity.
Qed.

(** X15. Without its prerequisites the build does no harm: when one
    of the two FFmpeg binaries is missing from the assets folder, or
    when PyQt6 cannot be imported, [build_app] does not succeed,
    no file is created or removed, and nothing is done beyond
    printing and, possibly, installing PyInstaller; in particular the
    previous build is not cleaned away. *)
Theorem build_app_harmless_without_prerequisites
    (h : Build.host) (s : Build.state) :
  Build.files s (path_join (path_join script_dir "assets") "ffmpeg") = false \/
  Build.files s (path_join (path_join script_dir "assets") "ffprobe") = false \/
  Build.pyqt6_found h = false ->
  let o := Build.build_app path_join script_dir h s in
  (forall s', o <> Build.Done true s') /\
  Build.files (Build.final_state o) = Build.files s /\
  exists tr,
    Build.done (Build.final_state o) = (Build.done s ++ tr)%list /\
    forallb Build.harmless tr = true.
Proof.
  set (ffmpeg_asset := path_join (path_join script_dir "assets") "ffmpeg").
  set (ffprobe_asset := path_join (path_join script_dir "assets") "ffprobe").
  intros Hmiss. unfold Build.build_app, Build.find_ffmpeg_path.
  fold ffmpeg_asset ffprobe_asset.
  cbn [Build.files Build.say Build.act].
  destruct (Build.files s ffmpeg_asset) eqn:Hf;
    [destruct (Build.files s ffprobe_asset) eqn:Hp|]; cbn [negb orb].
  2,3: cbn [Build.final_state Build.files Build.done Build.say Build.act];
       (split; [intros s'; discriminate|]); (split; [reflexivity|]);
       rewrite <- ?app_assoc; cbn [app]; eexists; split; reflexivity.
  destruct Hmiss as [Hm|[Hm|Hq]]; try discriminate.
  destruct ((ffmpeg_asset =? "")%string || (ffprobe_asset =? "")%string).
  { cbn [Build.final_state Build.files Build.done Build.say Build.act].
    split; [intros s'; discriminate|]. split; [reflexivity|].
    rewrite <- ?app_assoc. cbn [app]. eexists. split; reflexivity. }
  match goal with |- context [Build.check_dependencies h ?x] =>
    set (s1 := x) end.
  destruct (check_dependencies_harmless h s1) as (Hfiles & tr & E & H & Hq').
  destruct (Build.check_dependencies h s1) as [[|] s2|e s2];
    cbn [Build.final_state] in *.
  - specialize (Hq' s2 eq_refl). congruence.
  - split; [intros s'; discriminate|]. split; [exact Hfiles|].
    rewrite E. unfold s1.
    cbn [Build.done Build.say Build.act]. rewrite <- !app_assoc.
    eexists. split; [reflexivity|]. cbn [app forallb Build.harmless andb].
    exact H.
  - split; [intros s'; discriminate|]. split; [exact Hfiles|].
    rewrite E. unfold s1.
    cbn [Build.done Build.say Build.act]. rewrite <- !app_assoc.
    eexists. split; [reflexivity|]. cbn [app forallb Build.harmless andb].
    exact H.
Qed.


Lemma rmtree_if_exists_spec (h : Build.host) (path : string)
    (s s1 : Build.state) :
  Build.rmtree_if_exists h path s = Build.Done tt s1 ->
  Build.done s1
  = (Build.done s ++ if Build.files s path then [Build.Rmtree path] else [])%list
  /\ forall p, Build.under path p = false ->
               Build.files s1 p = Build.files s p.
Proof.
  unfold Build.rmtree_if_exists.
  destruct (Build.files s path).
  - destruct (Build.removal_ok h path); [|discriminate].
    intros H. inversion H; subst s1. cbn. split; [reflexivity|].
    intros p ->. apply andb_true_r.
  - intros H. inversion H; subst s1. now rewrite app_nil_r.
Qed.

Lemma remove_if_exists_spec (h : Build.host) (path : string)
    (s s1 : Build.state) :
  Build.remove_if_exists h path s = Build.Done tt s1 ->
  Build.done s1
  = (Build.done s ++ if Build.files s path then [Build.Remove path] else [])%list
  /\ forall p, (p =? path)%string = false ->
               Build.files s1 p = Build.files s p.
Proof.
  unfold Build.remove_if_exists.
  destruct (Build.files s path).
  - destruct (Build.removal_ok h path); [|discriminate].
    intros H. inversion H; subst s1. cbn. split; [reflexivity|].
    intros p ->. apply andb_true_r.
  - intros H. inversion H; subst s1. now rewrite app_nil_r.
Qed.

Lemma filter_keep (A : Type) (g : A -> bool) (x : A) (l : list A) :
  g x = true -> filter g (x :: l) = x :: filter g l.
Proof. intros H. cbn [filter]. now rewrite H. Qed.

Lemma filter_drop (A : Type) (g : A -> bool) (x : A) (l : list A) :
  g x = false -> filter g (x :: l) = filter g l.
Proof. intros H. cbn [filter]. now rewrite H. Qed.

(** Of the full command only the icon option starts with [--icon],
    unless a path of the binaries does. *)
Lemma full_cmd_without_icon (ffmpeg_path ffprobe_path : string) :
  prefix "--icon" (ffmpeg_path ++ ":.") = false ->
  prefix "--icon" (ffprobe_path ++ ":.") = false ->
  filter (fun arg => negb (prefix "--icon" arg))
    (Build.full_cmd ffmpeg_path ffprobe_path)
  = ["pyinstaller"; "--onedir"; "--windowed"; "--name=VideoCutter";
     "--add-binary"; ffmpeg_path ++ ":.";
     "--add-binary"; ffprobe_path ++ ":.";
     "--add-data"; "assets:assets";
     "--hidden-import"; "PyQt6.QtCore";
     "--hidden-import"; "PyQt6.QtGui";
     "--hidden-import"; "PyQt6.QtWidgets";
     "--clean"; "main.py"].
Proof.
  intros H1 H2. unfold Build.full_cmd.
  set (a := ffmpeg_path ++ ":.") in *. set (b := ffprobe_path ++ ":.") in *.
  repeat match goal with
         | |- context [filter ?g (?x :: ?l)] =>
             first
               [ rewrite (filter_keep _ g x l)
                   by (first [ vm_compute; reflexivity
                             | cbv beta; rewrite H1; reflexivity
                             | cbv beta; rewrite H2; reflexivity ])
               | rewrite (filter_drop _ g x l) by (vm_compute; reflexivity) ]
         end.
  reflexivity.
Qed.

Lemma run_pyinstaller_true (h : Build.host) (cmd : list string)
    (s s' : Build.state) :
  Build.run_pyinstaller h cmd s = Build.Done true s' ->
  Build.pyinstaller_run h = Build.Exit0 /\
  Build.after_pyinstaller h (Build.files s) "dist/VideoCutter" = true /\
  Build.files s' "run_videocutter.sh" = true /\
  exists post,
    Build.done s'
    = (Build.done s ++ Build.PyInstaller cmd :: post)%list /\
    In (Build.WriteFile "run_videocutter.sh" Build.launcher_content) post /\
    In (Build.Chmod "run_videocutter.sh" 493) post /\
    forallb (fun a => negb (Build.is_cleaning a)) post = true.
Proof.
  unfold Build.run_pyinstaller.
  destruct (Build.pyinstaller_run h); try discriminate.
  cbn [Build.files Build.say Build.act Build.done].
  destruct (Build.after_pyinstaller h (Build.files s) "dist/VideoCutter")
    eqn:Happ; [|discriminate].
  unfold Build.create_launcher.
  destruct (Build.launcher_writable h); [|discriminate].
  intros H. inversion H; subst s'; clear H.
  cbn [Build.files Build.say Build.act Build.done].
  repeat split.
  rewrite <- !app_assoc. cbn [app]. eexists. split; [reflexivity|].
  cbn. auto 10.
Qed.


End BuildFacts.

Lemma build_app_harmless_without_prerequisites_witness :
  let h := {| Build.pyinstaller_version := None;
              Build.pip_install_ok := true;
              Build.pyqt6_found := false;
              Build.removal_ok := fun _ => true;
              Build.pyinstaller_run := Build.Exit0;
              Build.after_pyinstaller := fun files => files;
              Build.absolute := fun p => p;
              Build.folder_size := "0.0";
              Build.launcher_writable := true |} in
  let s := {| Build.files := fun _ => true; Build.done := [] |} in
  let o := Build.build_app (fun a b => a ++ "/" ++ b) "/src" h s in
  (forall s', o <> Build.Done true s') /\
  Build.files (Build.final_state o) = Build.files s /\
  exists tr,
    Build.done (Build.final_state o) = (Build.done s ++ tr)%list /\
    forallb Build.harmless tr = true.
Proof.
  intros h s.
  apply (build_app_harmless_without_prerequisites
           (fun a b => a ++ "/" ++ b) "/src" h s
           (or_intror (or_intror eq_refl))).
Defined.

